(** * Cart & Order Fulfillment Engine of nova_backend: a shallow embedding

    The development follows the Python sources:
    - [backend/models.py]        (pydantic models, the totals validator),
    - [backend/auth.py]          (role check),
    - [backend/cart/routes.py]   (cart add/remove, the cart listing),
    - [backend/orders/routes.py] (checkout, order history, order status),
    - [backend/orders/tasks.py]  (the inventory worker [process_order]),
    - [backend/database.py]      (the generated catalog).

    MongoDB collections are lists of documents in insertion order;
    [find_one] returns the first matching document and [update_one]
    rewrites the first matching document, each call being one atomic
    step of the store. *)

From Stdlib Require Import ZArith QArith Qabs Qpower List String Ascii Bool Lia DecimalString Permutation.
Import ListNotations.

Local Open Scope string_scope.
Local Open Scope list_scope.
Local Open Scope Z_scope.

(* ================================================================== *)
(** ** Python's [decimal.Decimal] under the default context *)
(* ================================================================== *)

(** A finite decimal is [coef * 10 ^ expo].  A Python [float] field [x]
    of a pydantic model is represented by the decimal that
    [Decimal(str(x))] denotes: [str] of a float is its shortest
    round-tripping decimal literal, so [10.0] is [mk 100 (-1)] and
    [19.99] is [mk 1999 (-2)].  Non-finite floats are outside the model.

    Arithmetic follows the default context: every operation computes
    the exact result and rounds it to [prec = 28] significant digits,
    ties to even ([ROUND_HALF_EVEN]); comparisons are exact.  The
    exponent limits of the context (10^6 digits away) are never reached
    by the modelled code and are left out. *)
Module PyDecimal.

Record t : Set := mk { coef : Z; expo : Z }.

Definition prec : Z := 28.

(** [coef] of [d] once written with the smaller exponent [e]. *)
Definition align (e : Z) (d : t) : Z := coef d * 10 ^ (expo d - e).

Definition of_int (n : Z) : t := mk n 0.
Definition zero : t := of_int 0.

(** *** Exact operations (no rounding) *)
Definition neg (a : t) : t := mk (- coef a) (expo a).

Definition add_exact (a b : t) : t :=
  let e := Z.min (expo a) (expo b) in
  mk (align e a + align e b) e.

Definition sub_exact (a b : t) : t := add_exact a (neg b).

Definition mul_exact (a b : t) : t :=
  mk (coef a * coef b) (expo a + expo b).

Definition abs_exact (a : t) : t := mk (Z.abs (coef a)) (expo a).

(** *** Comparisons (exact, as in Python) *)
Definition ltb (a b : t) : bool :=
  let e := Z.min (expo a) (expo b) in align e a <? align e b.

Definition leb (a b : t) : bool :=
  let e := Z.min (expo a) (expo b) in align e a <=? align e b.

(** *** Rounding to the context precision ([Decimal._fix]) *)

(** The number of digits of [m >= 0] beyond [prec]: the least [k]
    with [m < 10 ^ (prec + k)], searched upwards from [k]. *)
Fixpoint excess_digits (fuel : nat) (m k : Z) : Z :=
  match fuel with
  | O => k
  | S fuel' =>
      if m <? 10 ^ (prec + k) then k else excess_digits fuel' m (k + 1)
  end.

(** Drop the last [k] digits of [m >= 0], rounding half to even. *)
Definition round_half_even (m k : Z) : Z :=
  let p := 10 ^ k in
  let q := m / p in
  let r := m mod p in
  if 2 * r <? p then q
  else if p <? 2 * r then q + 1
  else if Z.even q then q else q + 1.

Definition fix_ (d : t) : t :=
  let m := Z.abs (coef d) in
  let k := excess_digits (Z.to_nat (Z.log2 m)) m 0 in
  if k =? 0 then d
  else mk (Z.sgn (coef d) * round_half_even m k) (expo d + k).

(** *** The operations of the default context *)
Definition add (a b : t) : t := fix_ (add_exact a b).
Definition sub (a b : t) : t := fix_ (sub_exact a b).
Definition mul (a b : t) : t := fix_ (mul_exact a b).
Definition abs (a : t) : t := fix_ (abs_exact a).

(** [int] of a decimal: truncation towards zero. *)
Definition trunc (d : t) : Z :=
  if 0 <=? expo d then coef d * 10 ^ expo d
  else Z.quot (coef d) (10 ^ (- expo d)).

(** [num / den] rounded to an integer, ties to even
    ([0 <= num], [0 < den]). *)
Definition div_half_even (num den : Z) : Z :=
  let q := num / den in
  let r := num mod den in
  if 2 * r <? den then q
  else if den <? 2 * r then q + 1
  else if Z.even q then q else q + 1.

(** The least magnitude from which every binary64 float is an
    integer: [2 ^ 53]. *)
Definition two53 : Z := 9007199254740992.

(** The float [x] with [str(x) = d], for [2 ^ 53 <= |d|].  Since
    [float(str(x)) == x], [x] is the binary64 number nearest to [d],
    ties to even: with [2 ^ e <= |d| < 2 ^ (e + 1)] it is the multiple
    of [2 ^ (e - 52)] nearest to [d].  It is an integer, and in
    general not the integer [d] denotes: [str(1e23)] is [1e+23] while
    the float is [99999999999999991611392]. *)
Definition binary64 (d : t) : Z :=
  let ulp := 2 ^ (Z.log2 (Z.abs (trunc d)) - 52) in
  let num := Z.abs (coef d) * 10 ^ Z.max (expo d) 0 in
  let den := 10 ^ Z.max (- expo d) 0 in
  Z.sgn (coef d) * (div_half_even num (den * ulp) * ulp).

(** [int(x)] of the float [x] with [str(x) = d].  Below [2 ^ 53] every
    integer is a float, so [x] lies strictly between the same two
    integers as [d], or is the integer [d] denotes: [int(x)] is the
    integer part of [d].  From [2 ^ 53] on, [int(x)] is [x] itself.
    Decimals beyond the largest finite float are not the [str] of a
    float and are outside the model. *)
Definition to_int (d : t) : Z :=
  if Z.abs (trunc d) <? two53 then trunc d else binary64 d.

(** [Decimal("0.01")], the tolerance of the totals validator. *)
Definition cent : t := mk 1 (-2).

(** Every coefficient below [10 ^ prec] is left alone by [fix_]. *)
Definition fits (d : t) : bool := Z.abs (coef d) <? 10 ^ prec.

(** The rational number a decimal denotes. *)
Definition to_Q (d : t) : Q := (inject_Z (coef d) * inject_Z 10 ^ expo d)%Q.

End PyDecimal.

(** [str(n)] for a Python [int]. *)
Definition str_int (n : Z) : string := NilZero.string_of_int (Z.to_int n).

(* ================================================================== *)
(** ** backend/models.py *)
(* ================================================================== *)

(** [class Product(ProductBase)]: what is stored in the catalog and
    what a checkout payload carries per line. *)
Module Product.
Record t : Set := mk {
  id : Z;
  name : string;
  subtitle : string;
  price : PyDecimal.t;              (* float, ge=0 *)
  currency : string;
  unit : string;
  product_img_url : option string;
  barcode : option string;
  quantity : Z                      (* int, ge=0 *)
}.

Definition set_quantity (q : Z) (p : t) : t :=
  mk (id p) (name p) (subtitle p) (price p) (currency p) (unit p)
     (product_img_url p) (barcode p) q.

(** The field constraints pydantic enforces when it builds a
    [Product]: [price >= 0] and [quantity >= 0]. *)
Definition fields_ok (p : t) : bool :=
  PyDecimal.leb PyDecimal.zero (price p) && (0 <=? quantity p).
End Product.

(** [class Role(str, Enum)] with its string values. *)
Module Role.
Inductive t : Set := ADMIN | SHOP_CLIENT | GUEST.

Definition value (r : t) : string :=
  match r with
  | ADMIN => "admin"
  | SHOP_CLIENT => "shop_client"
  | GUEST => "guest"
  end.
End Role.

(** [class OrderStatus(str, Enum)]. *)
Module OrderStatus.
Inductive t : Set := PENDING | PAID | FAILED | COMPLETED.

Definition eqb (a b : t) : bool :=
  match a, b with
  | PENDING, PENDING | PAID, PAID | FAILED, FAILED
  | COMPLETED, COMPLETED => true
  | _, _ => false
  end.

Definition value (s : t) : string :=
  match s with
  | PENDING => "pending"
  | PAID => "paid"
  | FAILED => "failed"
  | COMPLETED => "completed"
  end.
End OrderStatus.

(** What a pydantic constructor or [model_validate] does: it returns
    the model or raises. *)
Inductive validated (A : Type) : Type :=
| Valid (a : A)
| ValueError (msg : string).
Arguments Valid {A} a.
Arguments ValueError {A} msg.

(** [class CheckoutPayload(BaseModel)] and its [model_validator]. *)
Module CheckoutPayload.
Record t : Set := mk {
  items : list Product.t;
  shipping_cost : PyDecimal.t;      (* float, ge=0 *)
  subtotal : PyDecimal.t;           (* float, ge=0 *)
  total_cost : PyDecimal.t          (* float, ge=0 *)
}.

(** The line total [Decimal(str(item.price)) * Decimal(item.quantity)]. *)
Definition line_total (item : Product.t) : PyDecimal.t :=
  PyDecimal.mul (Product.price item) (PyDecimal.of_int (Product.quantity item)).

(** [sum(... for item in self.items)]: a left fold from [0]. *)
Definition calculated_subtotal (self : t) : PyDecimal.t :=
  fold_left (fun acc item => PyDecimal.add acc (line_total item))
            (items self) PyDecimal.zero.

Definition calculated_total (self : t) : PyDecimal.t :=
  PyDecimal.add (calculated_subtotal self) (shipping_cost self).

(** [abs(Decimal(str(declared)) - calculated) < Decimal("0.01")]. *)
Definition within_tolerance (declared calculated : PyDecimal.t) : bool :=
  PyDecimal.ltb (PyDecimal.abs (PyDecimal.sub declared calculated))
                PyDecimal.cent.

Definition validate_and_recalculate_totals (self : t) : validated t :=
  if negb (within_tolerance (subtotal self) (calculated_subtotal self))
  then ValueError "Subtotal mismatch."       (* the figures of the f-string are elided *)
  else if negb (within_tolerance (total_cost self) (calculated_total self))
  then ValueError "Total cost mismatch."
  else Valid self.

(** Field validation ([ge=0] on every number, item by item). *)
Definition fields_ok (self : t) : bool :=
  forallb Product.fields_ok (items self)
  && PyDecimal.leb PyDecimal.zero (shipping_cost self)
  && PyDecimal.leb PyDecimal.zero (subtotal self)
  && PyDecimal.leb PyDecimal.zero (total_cost self).

(** Building the model: field validation, then the
    [mode="after"] validator. *)
Definition model_validate (raw : t) : validated t :=
  if fields_ok raw then validate_and_recalculate_totals raw
  else ValueError "Input should be greater than or equal to 0".
End CheckoutPayload.

(** [class OrderHistoryItem(CheckoutPayload)]; it is also the shape of
    the documents of the [order_history] collection
    ([insert_one(pending_order.model_dump())]). *)
Module OrderHistoryItem.
Record t : Set := mk {
  payload : CheckoutPayload.t;      (* the inherited fields *)
  order_id : string;
  user_identity : string;
  created_at : Z;
  status : OrderStatus.t
}.

Definition items (o : t) : list Product.t := CheckoutPayload.items (payload o).
Definition total_cost (o : t) : PyDecimal.t :=
  CheckoutPayload.total_cost (payload o).

Definition set_status (s : OrderStatus.t) (o : t) : t :=
  mk (payload o) (order_id o) (user_identity o) (created_at o) s.

(** The inherited validators run on every construction. *)
Definition model_validate (raw : t) : validated t :=
  match CheckoutPayload.model_validate (payload raw) with
  | Valid _ => Valid raw
  | ValueError msg => ValueError msg
  end.
End OrderHistoryItem.

(** [class VietQRTransactionState(str, Enum)]. *)
Module VietQRTransactionState.
Inductive t : Set := SUCCESS | FAILED.
End VietQRTransactionState.

(** [class VietQRWebhookPayload(BaseModel)]. *)
Module VietQRWebhookPayload.
Record t : Set := mk {
  paymentRequestId : string;
  state : VietQRTransactionState.t;
  amount : Z;
  description : string;
  referenceId : string;             (* our order_id *)
  merchantId : string;
  extraData : string;
  signature : string
}.
End VietQRWebhookPayload.

(** [class VietQRGenerateRequest(BaseModel)]. *)
Module VietQRGenerateRequest.
Record t : Set := mk {
  accountNo : string;
  accountName : string;
  acqId : Z;
  amount : Z;
  addInfo : string;
  template : string
}.
End VietQRGenerateRequest.

(** [class VietQRGenerateResponseData(BaseModel)] and
    [class VietQRGenerateResponse(BaseModel)]. *)
Module VietQRGenerateResponse.
Record data_t : Set := mk_data { qrCode : string; qrDataURL : string }.
Record t : Set := mk { code : string; desc : string; data : option data_t }.
End VietQRGenerateResponse.

(** Modelled from the spec: [CartOpRequest] and [CartOpResponse] are
    imported by [cart/routes.py] from [models.py], which does not
    declare them.  The request is [{barcode, action, quantity}] and the
    response [{success, message, cart_total_items}]; a well-formed
    request has [action] in [{add, remove}] and [quantity > 0].  The
    handler below is defined on every request; [well_formed] is the
    validation the missing model stands for. *)
Module CartOpRequest.
Record t : Set := mk { barcode : string; action : string; quantity : Z }.

Definition well_formed (r : t) : Prop :=
  (action r = "add" \/ action r = "remove") /\ 0 < quantity r.
End CartOpRequest.

Module CartOpResponse.
Record t : Set := mk {
  success : bool;
  message : string;
  cart_total_items : Z
}.
End CartOpResponse.

(* ================================================================== *)
(** ** The document store *)
(* ================================================================== *)

(** A line of a cart document, as [cart_operation] writes it. *)
Module CartLine.
Record t : Set := mk {
  barcode : string;
  name : string;
  price : PyDecimal.t;
  quantity : Z
}.

Definition add_quantity (delta : Z) (l : t) : t :=
  mk (barcode l) (name l) (price l) (quantity l + delta).
End CartLine.

(** A document of the [carts] collection. *)
Module CartDoc.
Record t : Set := mk { user_identity : string; items : list CartLine.t }.

Definition set_items (ls : list CartLine.t) (c : t) : t :=
  mk (user_identity c) ls.
End CartDoc.

(** [db = client["shopping_cart_db"]] with the three collections the
    engine touches. *)
Record Store : Set := mkStore {
  products : list Product.t;
  carts : list CartDoc.t;
  order_history : list OrderHistoryItem.t
}.

Definition set_products (ps : list Product.t) (db : Store) : Store :=
  mkStore ps (carts db) (order_history db).
Definition set_carts (cs : list CartDoc.t) (db : Store) : Store :=
  mkStore (products db) cs (order_history db).
Definition set_order_history (os : list OrderHistoryItem.t) (db : Store) : Store :=
  mkStore (products db) (carts db) os.

Section Collection.
Context {A : Type}.

(** [collection.find_one(filter)]: the first match, if any. *)
Definition find_one (filter : A -> bool) (c : list A) : option A :=
  find filter c.

(** [collection.update_one(filter, update)]: the first match is
    rewritten; the second component is [result.matched_count]. *)
Fixpoint update_one (filter : A -> bool) (update : A -> A) (c : list A)
  : list A * Z :=
  match c with
  | [] => ([], 0)
  | d :: c' =>
      if filter d then (update d :: c', 1)
      else let '(c'', n) := update_one filter update c' in (d :: c'', n)
  end.

(** [update_one(..., upsert=True)]: with no match, [fresh] is inserted. *)
Definition update_one_upsert (filter : A -> bool) (update : A -> A)
           (fresh : A) (c : list A) : list A :=
  let '(c', n) := update_one filter update c in
  if n =? 0 then c ++ [fresh] else c'.

(** [collection.insert_one(doc)]. *)
Definition insert_one (doc : A) (c : list A) : list A := c ++ [doc].
End Collection.

(** What [insert_one] can encode: pymongo writes a Python [int] as a
    BSON int32 or int64 and raises [OverflowError] ("MongoDB can only
    handle up to 8-byte ints") for any other.  The size limit of a
    document is reported by the server ([maxBsonObjectSize]) and,
    like the availability of the server, is not part of the model. *)
Definition bson_int (n : Z) : bool :=
  (-9223372036854775808 <=? n) && (n <=? 9223372036854775807).

(** The [int]s of an order document are the [id] and the [quantity]
    of its items. *)
Definition bson_encodable (o : OrderHistoryItem.t) : bool :=
  forallb (fun item => bson_int (Product.id item)
                       && bson_int (Product.quantity item))
          (OrderHistoryItem.items o).

(* ================================================================== *)
(** ** backend/auth.py and the HTTP boundary *)
(* ================================================================== *)

(** [class TokenData(BaseModel)]. *)
Module TokenData.
Record t : Set := mk { identity : string; role : option string }.
End TokenData.

(** What a route handler produces. *)
Inductive http (A : Type) : Type :=
| Response (body : A)
| HTTPException (status_code : Z) (detail : string)
| RequestValidationError            (* 422, the body does not validate *)
| Uncaught.                         (* an exception nobody catches: 500 *)
Arguments Response {A} body.
Arguments HTTPException {A} status_code detail.
Arguments RequestValidationError {A}.
Arguments Uncaught {A}.

Definition HTTP_400_BAD_REQUEST : Z := 400.
Definition HTTP_403_FORBIDDEN : Z := 403.
Definition HTTP_404_NOT_FOUND : Z := 404.
Definition HTTP_503_SERVICE_UNAVAILABLE : Z := 503.

(** [", ".join(r.value for r in roles)]. *)
Fixpoint join_roles (roles : list Role.t) : string :=
  match roles with
  | [] => ""
  | [r] => Role.value r
  | r :: rs => (Role.value r ++ ", " ++ join_roles rs)%string
  end.

(** [role_required(roles)] applied to the authenticated user:
    [None] when the check passes, the 403 detail otherwise. *)
Definition role_required (roles : list Role.t) (current_user : TokenData.t)
  : option string :=
  let allowed := map Role.value roles in
  match TokenData.role current_user with
  | Some r =>
      if existsb (String.eqb r) allowed then None
      else Some ("Access forbidden: This endpoint requires one of the following roles: "
                 ++ join_roles roles)%string
  | None =>
      Some ("Access forbidden: This endpoint requires one of the following roles: "
            ++ join_roles roles)%string
  end.

(* ================================================================== *)
(** ** backend/cart/routes.py *)
(* ================================================================== *)

Module Cart.

(** [sum(item.get("quantity", 0) for item in items)]. *)
Definition total_items (items : list CartLine.t) : Z :=
  fold_left (fun acc item => acc + CartLine.quantity item) items 0.

Definition has_barcode (b : string) (p : Product.t) : bool :=
  match Product.barcode p with
  | Some b' => String.eqb b' b
  | None => false
  end.

Definition line_is (b : string) (l : CartLine.t) : bool :=
  String.eqb (CartLine.barcode l) b.

Definition owned_by (u : string) (c : CartDoc.t) : bool :=
  String.eqb (CartDoc.user_identity c) u.

(** The filter [{"user_identity": u, "items.barcode": b}]. *)
Definition owned_with_line (u b : string) (c : CartDoc.t) : bool :=
  owned_by u c && existsb (line_is b) (CartDoc.items c).

(** [{"$inc": {"items.$.quantity": delta}}]: the positional operator
    picks the first line that matched the filter. *)
Fixpoint inc_line (b : string) (delta : Z) (ls : list CartLine.t)
  : list CartLine.t :=
  match ls with
  | [] => []
  | l :: ls' =>
      if line_is b l then CartLine.add_quantity delta l :: ls'
      else l :: inc_line b delta ls'
  end.

(** [{"$pull": {"items": {"barcode": b}}}]: every matching line goes. *)
Definition pull_lines (b : string) (ls : list CartLine.t) : list CartLine.t :=
  filter (fun l => negb (line_is b l)) ls.

(** [{"$push": {"items": new_item}}]. *)
Definition push_line (l : CartLine.t) (ls : list CartLine.t) : list CartLine.t :=
  ls ++ [l].

Definition on_items (f : list CartLine.t -> list CartLine.t) (c : CartDoc.t)
  : CartDoc.t :=
  CartDoc.set_items (f (CartDoc.items c)) c.

(** Step 4 of the handler, "Execute operation atomically".  [None]
    is the [AttributeError] of [cart_item.get] on [None]. *)
Definition execute (cs : list CartDoc.t) (u : string)
           (request : CartOpRequest.t) (product : Product.t)
           (cart_item : option CartLine.t) : option (list CartDoc.t) :=
  let b := CartOpRequest.barcode request in
  let q := CartOpRequest.quantity request in
  if String.eqb (CartOpRequest.action request) "add" then
    match cart_item with
    | Some _ =>
        Some (fst (update_one (owned_with_line u b) (on_items (inc_line b q)) cs))
    | None =>
        let new_item :=
          CartLine.mk b (Product.name product) (Product.price product) q in
        Some (update_one_upsert (owned_by u) (on_items (push_line new_item))
                                (CartDoc.mk u [new_item]) cs)
    end
  else if String.eqb (CartOpRequest.action request) "remove" then
    match cart_item with
    | None => None
    | Some item =>
        if CartLine.quantity item =? q then
          Some (fst (update_one (owned_by u) (on_items (pull_lines b)) cs))
        else
          Some (fst (update_one (owned_with_line u b)
                                (on_items (inc_line b (- q))) cs))
    end
  else Some cs.

Definition attribute_error : string :=
  "Cart operation failed: 'NoneType' object has no attribute 'get'".

(** [async def cart_operation(request, user)].  The handler has no
    [await], so one call runs to its end before the next starts. *)
Definition cart_operation (db : Store) (user : TokenData.t)
           (request : CartOpRequest.t) : Store * http CartOpResponse.t :=
  let u := TokenData.identity user in
  let b := CartOpRequest.barcode request in
  let q := CartOpRequest.quantity request in
  let action := CartOpRequest.action request in
  (* 1. Validate product exists *)
  match find_one (has_barcode b) (products db) with
  | None =>
      (db, Response (CartOpResponse.mk false ("Unknown barcode: " ++ b)%string 0))
  | Some product =>
      (* 2. Get current cart *)
      let user_cart_items :=
        match find_one (owned_by u) (carts db) with
        | Some user_cart => CartDoc.items user_cart
        | None => []
        end in
      let cart_item := find (line_is b) user_cart_items in
      let current_cart_quantity :=
        match cart_item with
        | Some item => CartLine.quantity item
        | None => 0
        end in
      (* 3. Validate operation based on action *)
      if String.eqb action "add" && (Product.quantity product <? q) then
        (db, Response (CartOpResponse.mk false
           ("Insufficient stock. Available: " ++ str_int (Product.quantity product)
            ++ ", Requested: " ++ str_int q)%string
           (total_items user_cart_items)))
      else if negb (String.eqb action "add") && String.eqb action "remove"
              && (current_cart_quantity <? q) then
        (db, Response (CartOpResponse.mk false
           ("Not enough items in cart. Available: " ++ str_int current_cart_quantity
            ++ ", Requested: " ++ str_int q)%string
           (total_items user_cart_items)))
      else
        (* 4. Execute operation atomically *)
        match execute (carts db) u request product cart_item with
        | None => (db, HTTPException 500 attribute_error)
        | Some cs =>
            (* 5. Get updated cart for response *)
            match find_one (owned_by u) cs with
            | None => (set_carts cs db, HTTPException 500 attribute_error)
            | Some updated_cart =>
                (set_carts cs db,
                 Response (CartOpResponse.mk true
                   ("Cart updated: " ++ action ++ " " ++ str_int q ++ "x "
                    ++ Product.name product)%string
                   (total_items (CartDoc.items updated_cart))))
            end
        end
  end.

(** *** [get_cart] *)

(** The truth value of [it.get("barcode")]: a string that is not empty. *)
Definition truthy (b : string) : bool := negb (String.eqb b "").

(** The filter [{"barcode": {"$in": barcodes}}]. *)
Definition barcode_in (barcodes : list string) (p : Product.t) : bool :=
  match Product.barcode p with
  | Some b => existsb (String.eqb b) barcodes
  | None => false
  end.

(** [by_barcode = {p.get("barcode"): p for p in products}] followed by
    [by_barcode.get(bc)]: of several products with one barcode the
    dictionary keeps the last. *)
Definition by_barcode_get (found : list Product.t) (bc : string)
  : option Product.t :=
  find (has_barcode bc) (rev found).

(** The loop that builds the response: a line whose barcode does not
    resolve is skipped; building the [Product] from [merged] raises
    when the merged document does not validate ([None]). *)
Fixpoint merge_lines (found : list Product.t) (cart_items : list CartLine.t)
  : option (list Product.t) :=
  match cart_items with
  | [] => Some []
  | it :: rest =>
      match by_barcode_get found (CartLine.barcode it) with
      | None => merge_lines found rest
      | Some meta =>
          let merged :=
            Product.set_quantity (Z.max (CartLine.quantity it) 0) meta in
          if Product.fields_ok merged
          then option_map (cons merged) (merge_lines found rest)
          else None
      end
  end.

(** [def get_cart(user, carts_collection, products_collection)]. *)
Definition get_cart (db : Store) (user : TokenData.t) : http (list Product.t) :=
  let cart_items :=
    match find_one (owned_by (TokenData.identity user)) (carts db) with
    | Some user_cart => CartDoc.items user_cart
    | None => []
    end in
  match cart_items with
  | [] => Response []
  | _ :: _ =>
      let barcodes := filter truthy (map CartLine.barcode cart_items) in
      match barcodes with
      | [] => Response []
      | _ :: _ =>
          let found := filter (barcode_in barcodes) (products db) in
          match merge_lines found cart_items with
          | Some result => Response result
          | None => Uncaught
          end
      end
  end.

End Cart.

(* ================================================================== *)
(** ** backend/orders/routes.py *)
(* ================================================================== *)

Module Orders.

(** The three [config.settings] entries the checkout reads;
    [config.py] is not among the sources, so they are a parameter
    ([VIETQR_BANK_BIN] already through [int]). *)
Record Settings : Set := mkSettings {
  VIETQR_BANK_BIN : Z;
  VIETQR_ACCOUNT_NO : string;
  VIETQR_ACCOUNT_NAME : string
}.

(** The arguments of [client.post(url, json=..., timeout=10.0)]. *)
Record HttpPost : Set := mkPost {
  url : string;
  json : VietQRGenerateRequest.t;
  timeout : PyDecimal.t             (* seconds *)
}.

(** How the awaited call to the payment QR provider can end, by the
    exception classes of [httpx]: [TimeoutException] and the
    connection errors are [RequestError]s; [raise_for_status] raises
    [HTTPStatusError], which is not a [RequestError]; an answer that
    is not JSON of the expected shape raises outside [httpx]. *)
Inductive ProviderOutcome : Set :=
| RequestError
| HTTPStatusError
| InvalidBody
| Answer (api_response : VietQRGenerateResponse.t).

(** The dictionary returned on success. *)
Record CheckoutResult : Set := mkResult {
  message : string;
  order_id : string;
  qr_svg : string
}.

(** The handler up to its [await]: either it has answered, or it is
    suspended on the provider call. *)
Inductive suspended : Set :=
| Answered (r : http CheckoutResult)
| AwaitingProvider (order_id : string) (call : HttpPost).

Definition allowed_roles : list Role.t := [Role.SHOP_CLIENT; Role.GUEST].

Section Checkout.
Variable settings : Settings.
(** [qrcode.make(data, image_factory=SvgPathImage)] saved and decoded. *)
Variable render_svg : string -> string.

(** [initiate_checkout_and_generate_qr] from the request to the
    [await client.post(...)].  [order_id] is the fresh
    [str(uuid.uuid4())] and [now] is [datetime.utcnow()]. *)
Definition checkout_begin (db : Store) (current_user : TokenData.t)
           (cart_data : CheckoutPayload.t) (order_id : string) (now : Z)
  : Store * suspended :=
  match role_required allowed_roles current_user with
  | Some detail => (db, Answered (HTTPException HTTP_403_FORBIDDEN detail))
  | None =>
  match CheckoutPayload.model_validate cart_data with
  | ValueError _ => (db, Answered RequestValidationError)
  | Valid cart_data =>
      match CheckoutPayload.items cart_data with
      | [] => (db, Answered (HTTPException HTTP_400_BAD_REQUEST
                               "Cannot checkout with an empty cart"))
      | _ :: _ =>
          let user_identity := TokenData.identity current_user in
          (* Create a pending order record in the database *)
          match OrderHistoryItem.model_validate
                  (OrderHistoryItem.mk cart_data order_id user_identity now
                                       OrderStatus.PENDING) with
          | ValueError _ => (db, Answered Uncaught)
          | Valid pending_order =>
              (* [insert_one] raises before anything is stored *)
              if negb (bson_encodable pending_order)
              then (db, Answered Uncaught)
              else
              let db' := set_order_history
                           (insert_one pending_order (order_history db)) db in
              let vietqr_request_data :=
                VietQRGenerateRequest.mk
                  (VIETQR_ACCOUNT_NO settings)
                  (VIETQR_ACCOUNT_NAME settings)
                  (VIETQR_BANK_BIN settings)
                  (PyDecimal.to_int (OrderHistoryItem.total_cost pending_order))
                  ("Thanh toan don hang " ++ order_id)%string
                  "compact2" in
              (db', AwaitingProvider order_id
                      (mkPost "https://api.vietqr.io/v2/generate"
                              vietqr_request_data (PyDecimal.mk 100 (-1))))
          end
      end
  end
  end.

(** The rest of the handler, once the awaited call has ended.  It
    does not touch the store. *)
Definition checkout_resume (order_id : string) (outcome : ProviderOutcome)
  : http CheckoutResult :=
  match outcome with
  | RequestError =>
      HTTPException HTTP_503_SERVICE_UNAVAILABLE
                    "Could not connect to the payment QR service."
  | HTTPStatusError => Uncaught
  | InvalidBody => Uncaught
  | Answer api_response =>
      match VietQRGenerateResponse.data api_response with
      | Some data =>
          if String.eqb (VietQRGenerateResponse.code api_response) "00" then
            Response (mkResult "Order created. Please scan the QR code to pay."
                               order_id
                               (render_svg (VietQRGenerateResponse.qrCode data)))
          else
            HTTPException HTTP_503_SERVICE_UNAVAILABLE
              ("Failed to generate QR code: "
               ++ VietQRGenerateResponse.desc api_response)%string
      | None =>
          HTTPException HTTP_503_SERVICE_UNAVAILABLE
            ("Failed to generate QR code: "
             ++ VietQRGenerateResponse.desc api_response)%string
      end
  end.

(** The whole handler against a provider [post]. *)
Definition initiate_checkout_and_generate_qr
           (post : HttpPost -> ProviderOutcome)
           (db : Store) (current_user : TokenData.t)
           (cart_data : CheckoutPayload.t) (order_id : string) (now : Z)
  : Store * http CheckoutResult :=
  match checkout_begin db current_user cart_data order_id now with
  | (db', Answered r) => (db', r)
  | (db', AwaitingProvider oid call) => (db', checkout_resume oid (post call))
  end.
End Checkout.

Definition order_is (order_id : string) (o : OrderHistoryItem.t) : bool :=
  String.eqb (OrderHistoryItem.order_id o) order_id.

(** [get_order_status]: the projection [{order_id, status}]. *)
Definition get_order_status (db : Store) (order_id : string)
  : http (string * OrderStatus.t) :=
  match find_one (order_is order_id) (order_history db) with
  | None => HTTPException HTTP_404_NOT_FOUND "Order not found"
  | Some order =>
      Response (OrderHistoryItem.order_id order, OrderHistoryItem.status order)
  end.

(** *** [get_order_history] *)

(** The filter [{"user_identity": u, "status": {"$ne": PENDING}}]. *)
Definition in_history_of (u : string) (o : OrderHistoryItem.t) : bool :=
  String.eqb (OrderHistoryItem.user_identity o) u
  && negb (OrderStatus.eqb (OrderHistoryItem.status o) OrderStatus.PENDING).

(** [.sort("created_at", DESCENDING)]; documents with the same
    [created_at] stay in the order of the collection. *)
Fixpoint insert_newest_first (o : OrderHistoryItem.t)
         (sorted : list OrderHistoryItem.t) : list OrderHistoryItem.t :=
  match sorted with
  | [] => [o]
  | h :: t =>
      if OrderHistoryItem.created_at h <=? OrderHistoryItem.created_at o
      then o :: h :: t
      else h :: insert_newest_first o t
  end.

Definition sort_newest_first (os : list OrderHistoryItem.t)
  : list OrderHistoryItem.t :=
  fold_right insert_newest_first [] os.

Definition validates (o : OrderHistoryItem.t) : bool :=
  match OrderHistoryItem.model_validate o with
  | Valid _ => true
  | ValueError _ => false
  end.

(** [def get_order_history(current_user, orders_collection)] with its
    role check and its [response_model=List[OrderHistoryItem]], which
    builds every returned document as an [OrderHistoryItem]. *)
Definition get_order_history (db : Store) (current_user : TokenData.t)
  : http (list OrderHistoryItem.t) :=
  match role_required allowed_roles current_user with
  | Some detail => HTTPException HTTP_403_FORBIDDEN detail
  | None =>
      let history :=
        sort_newest_first
          (filter (in_history_of (TokenData.identity current_user))
                  (order_history db)) in
      if forallb validates history then Response history else Uncaught
  end.

End Orders.

(* ================================================================== *)
(** ** backend/orders/tasks.py *)
(* ================================================================== *)

Module Tasks.

(** A Celery task returns its dictionary [{status, message}] or raises. *)
Inductive task_result : Set :=
| Return (status message : string)
| Raise.

Definition not_paid : task_result :=
  Return "failure" "Order not found or not paid.".
Definition insufficient (item : Product.t) : task_result :=
  Return "failure" ("Insufficient stock for " ++ Product.name item ++ ".")%string.
Definition completed : task_result :=
  Return "success" "Inventory updated and order completed.".

(** The filter [{"id": item.id, "quantity": {"$gte": item.quantity}}]. *)
Definition in_stock_for (item p : Product.t) : bool :=
  (Product.id p =? Product.id item)
  && (Product.quantity item <=? Product.quantity p).

(** The filter [{"id": u_item.id}]. *)
Definition has_id (item p : Product.t) : bool :=
  Product.id p =? Product.id item.

(** [{"$inc": {"quantity": delta}}]. *)
Definition inc_quantity (delta : Z) (p : Product.t) : Product.t :=
  Product.set_quantity (Product.quantity p + delta) p.

(** [{"$set": {"status": s}}] under the filter [{"order_id": order_id}]. *)
Definition set_status (order_id : string) (s : OrderStatus.t)
           (os : list OrderHistoryItem.t) : list OrderHistoryItem.t :=
  fst (update_one (Orders.order_is order_id) (OrderHistoryItem.set_status s) os).

(** The compensation loop [for u_item in updates_to_perform]. *)
Fixpoint rollback (ps : list Product.t) (updates_to_perform : list Product.t)
  : list Product.t :=
  match updates_to_perform with
  | [] => ps
  | u_item :: rest =>
      rollback (fst (update_one (has_id u_item)
                                (inc_quantity (Product.quantity u_item)) ps))
               rest
  end.

(** The loop [for item in order.items] with its failure exit, and
    the final status write. *)
Fixpoint reserve (db : Store) (order_id : string)
         (todo updates_to_perform : list Product.t) : Store * task_result :=
  match todo with
  | [] =>
      (set_order_history
         (set_status order_id OrderStatus.COMPLETED (order_history db)) db,
       completed)
  | item :: rest =>
      let '(ps, matched_count) :=
        update_one (in_stock_for item)
                   (inc_quantity (- Product.quantity item)) (products db) in
      if matched_count =? 0 then
        let db1 := set_order_history
                     (set_status order_id OrderStatus.FAILED (order_history db))
                     db in
        (set_products (rollback (products db1) updates_to_perform) db1,
         insufficient item)
      else
        reserve (set_products ps db) order_id rest (updates_to_perform ++ [item])
  end.

(** [process_order(self, order_id)], run without interruption. *)
Definition process_order (db : Store) (order_id : string)
  : Store * task_result :=
  match find_one (Orders.order_is order_id) (order_history db) with
  | None => (db, not_paid)
  | Some order_data =>
      if negb (OrderStatus.eqb (OrderHistoryItem.status order_data)
                               OrderStatus.PAID)
      then (db, not_paid)
      else
        match OrderHistoryItem.model_validate order_data with
        | ValueError _ => (db, Raise)
        | Valid order => reserve db order_id (OrderHistoryItem.items order) []
        end
  end.

(** *** The same task, one store call at a time

    Worker processes run side by side; each call to the store is
    atomic on its document, and nothing is between two calls.  A
    worker is where it stands in [process_order] together with its
    local variables. *)
Inductive worker : Set :=
| Fetch (order_id : string)
    (* before [find_one] *)
| Reserving (order_id : string) (todo updates_to_perform : list Product.t)
    (* in the loop, before the conditional decrement of the head of
       [todo]; before the COMPLETED write when [todo] is empty *)
| MarkingFailed (order_id : string) (item : Product.t)
                (updates_to_perform : list Product.t)
    (* [matched_count == 0] seen, before the FAILED write *)
| RollingBack (item : Product.t) (updates_to_perform : list Product.t)
    (* in the compensation loop *)
| Done (r : task_result).

Definition step (db : Store) (w : worker) : Store * worker :=
  match w with
  | Fetch order_id =>
      match find_one (Orders.order_is order_id) (order_history db) with
      | None => (db, Done not_paid)
      | Some order_data =>
          if negb (OrderStatus.eqb (OrderHistoryItem.status order_data)
                                   OrderStatus.PAID)
          then (db, Done not_paid)
          else
            match OrderHistoryItem.model_validate order_data with
            | ValueError _ => (db, Done Raise)
            | Valid order =>
                (db, Reserving order_id (OrderHistoryItem.items order) [])
            end
      end
  | Reserving order_id [] _ =>
      (set_order_history
         (set_status order_id OrderStatus.COMPLETED (order_history db)) db,
       Done completed)
  | Reserving order_id (item :: rest) updates_to_perform =>
      let '(ps, matched_count) :=
        update_one (in_stock_for item)
                   (inc_quantity (- Product.quantity item)) (products db) in
      if matched_count =? 0 then
        (db, MarkingFailed order_id item updates_to_perform)
      else
        (set_products ps db,
         Reserving order_id rest (updates_to_perform ++ [item]))
  | MarkingFailed order_id item updates_to_perform =>
      (set_order_history
         (set_status order_id OrderStatus.FAILED (order_history db)) db,
       RollingBack item updates_to_perform)
  | RollingBack item [] => (db, Done (insufficient item))
  | RollingBack item (u_item :: rest) =>
      (set_products
         (fst (update_one (has_id u_item)
                          (inc_quantity (Product.quantity u_item))
                          (products db))) db,
       RollingBack item rest)
  | Done r => (db, Done r)
  end.

(** A worker left alone for [n] steps. *)
Fixpoint run (n : nat) (db : Store) (w : worker) : Store * worker :=
  match n with
  | O => (db, w)
  | S n' => let '(db', w') := step db w in run n' db' w'
  end.

End Tasks.

(* ================================================================== *)
(** ** The Payment Confirmation Handler *)
(* ================================================================== *)

Module PaymentConfirmation.

Inductive verdict : Set :=
| Rejected          (* nothing is trusted, nothing changes *)
| Confirmed.        (* the order has moved on *)

Section Handler.
(** The shared secret and the MAC of a notification's fields other
    than [signature] ([hmac] with [hashlib] in the imports of
    [orders/routes.py]). *)
Variable secret : string.
Variable mac : string -> VietQRWebhookPayload.t -> string.

(** [hmac.compare_digest(expected, payload.signature)]. *)
Definition verified (payload : VietQRWebhookPayload.t) : bool :=
  String.eqb (mac secret payload) (VietQRWebhookPayload.signature payload).

(** The amount the provider was asked to collect for an order. *)
Definition expected_amount (order : OrderHistoryItem.t) : Z :=
  PyDecimal.to_int (OrderHistoryItem.total_cost order).

Definition pending_order_is (order_id : string) (o : OrderHistoryItem.t)
  : bool :=
  Orders.order_is order_id o
  && OrderStatus.eqb (OrderHistoryItem.status o) OrderStatus.PENDING.

(** Modelled from the spec: the webhook handler itself is missing
    from [orders/routes.py], which only imports what it would use
    ([hmac], [hashlib], [VietQRWebhookPayload],
    [VietQRTransactionState], [process_order]).  Section 4.3: the
    signature is verified first; an unknown [order_id], a wrong
    amount or an order that is not [pending] is rejected without
    any change; a verified [SUCCESS] moves the order
    [pending -> paid], conditioned on its being [pending], and
    hands [order_id] to the work queue; a verified [FAILED] moves
    it [pending -> failed]. *)
Definition handle (db : Store) (queue : list string)
           (payload : VietQRWebhookPayload.t)
  : Store * list string * verdict :=
  if negb (verified payload) then (db, queue, Rejected)
  else
    let order_id := VietQRWebhookPayload.referenceId payload in
    match find_one (Orders.order_is order_id) (order_history db) with
    | None => (db, queue, Rejected)
    | Some order =>
        if negb (OrderStatus.eqb (OrderHistoryItem.status order)
                                 OrderStatus.PENDING)
        then (db, queue, Rejected)
        else if negb (VietQRWebhookPayload.amount payload
                      =? expected_amount order)
        then (db, queue, Rejected)
        else
          match VietQRWebhookPayload.state payload with
          | VietQRTransactionState.SUCCESS =>
              (set_order_history
                 (fst (update_one (pending_order_is order_id)
                         (OrderHistoryItem.set_status OrderStatus.PAID)
                         (order_history db))) db,
               queue ++ [order_id],
               Confirmed)
          | VietQRTransactionState.FAILED =>
              (set_order_history
                 (fst (update_one (pending_order_is order_id)
                         (OrderHistoryItem.set_status OrderStatus.FAILED)
                         (order_history db))) db,
               queue,
               Confirmed)
          end
    end.
End Handler.

End PaymentConfirmation.

(* ================================================================== *)
(** ** The engine as a whole *)
(* ================================================================== *)

(** Request handlers and worker processes over one store.  The queue
    is the Celery broker: a delivery starts a worker on an enqueued
    [order_id] and leaves the message where it is, so that the same
    message can be delivered again (at-least-once delivery). *)
Module Engine.

Record t : Set := mk {
  store : Store;
  queue : list string;
  workers : list Tasks.worker
}.

Inductive event : Set :=
| CartOp (user : TokenData.t) (request : CartOpRequest.t)
| Checkout (current_user : TokenData.t) (cart_data : CheckoutPayload.t)
           (order_id : string) (now : Z) (outcome : Orders.ProviderOutcome)
| Webhook (payload : VietQRWebhookPayload.t)
| Deliver (n : nat)               (* the [n]-th message reaches a new worker *)
| WorkerStep (i : nat).           (* worker [i] makes its next store call *)

(** Worker [i] of the pool takes one step. *)
Fixpoint step_worker (db : Store) (ws : list Tasks.worker) (i : nat)
  : Store * list Tasks.worker :=
  match ws, i with
  | [], _ => (db, [])
  | w :: ws', O => let '(db', w') := Tasks.step db w in (db', w' :: ws')
  | w :: ws', S i' =>
      let '(db', ws'') := step_worker db ws' i' in (db', w :: ws'')
  end.

Section Step.
Variable settings : Orders.Settings.
Variable render_svg : string -> string.
Variable secret : string.
Variable mac : string -> VietQRWebhookPayload.t -> string.

Definition step (s : t) (e : event) : t :=
  match e with
  | CartOp user request =>
      mk (fst (Cart.cart_operation (store s) user request))
         (queue s) (workers s)
  | Checkout current_user cart_data order_id now outcome =>
      mk (fst (Orders.initiate_checkout_and_generate_qr
                 settings render_svg (fun _ => outcome)
                 (store s) current_user cart_data order_id now))
         (queue s) (workers s)
  | Webhook payload =>
      let '(db, q, _) :=
        PaymentConfirmation.handle secret mac (store s) (queue s) payload in
      mk db q (workers s)
  | Deliver n =>
      match nth_error (queue s) n with
      | Some order_id =>
          mk (store s) (queue s) (workers s ++ [Tasks.Fetch order_id])
      | None => s
      end
  | WorkerStep i =>
      let '(db, ws) := step_worker (store s) (workers s) i in
      mk db (queue s) ws
  end.

(** Every state the engine passes through, the first one included. *)
Fixpoint states (s : t) (es : list event) : list t :=
  match es with
  | [] => [s]
  | e :: es' => s :: states (step s e) es'
  end.
End Step.

End Engine.

(* ================================================================== *)
(** ** backend/database.py *)
(* ================================================================== *)

(** [generate_products], the catalog [seed_database_if_empty] inserts
    when no seed file is found.  What the calls to [random] return is
    a parameter: [random_barcode k] is the [k]-th barcode drawn for the
    demo products, and the other draws are indexed by the iteration
    [i] of the loop.  The [location] key of the generated documents is
    not a field of [Product] and is left out. *)
Module Database.

Definition PRODUCT_NAMES : list string :=
  ["Apple"; "Banana"; "Orange"; "Milk"; "Bread"; "Eggs"; "Cheese"; "Chicken";
   "Rice"; "Pasta"; "Tomato"; "Potato"; "Onion"; "Carrot"; "Cucumber";
   "Lettuce"; "Yogurt"; "Butter"; "Juice"; "Coffee"].

Section Draws.
Variable random_barcode : nat -> string.
Variable choice_subtitle : nat -> string.     (* random.choice(SUBTITLES) *)
Variable uniform_price : nat -> PyDecimal.t.  (* round(random.uniform(1, 100), 2) *)
Variable randint_quantity : nat -> Z.         (* random.randint(1, 50) *)
Variable choice_unit : nat -> string.         (* random.choice(UNITS) *)

Definition accessory_img : option string :=
  Some "https://via.placeholder.com/80/e0e0e0/000000?Text=Accessory".

Definition demo_products : list Product.t :=
  [Product.mk 1 "Fifa 19" "PS4" (PyDecimal.mk 640 (-1)) "VND" "pack"
     (Some "https://via.placeholder.com/80/cccccc/000000?Text=Game")
     (Some (random_barcode 0%nat)) 1;
   Product.mk 2 "Glacier White 500GB" "PS4" (PyDecimal.mk 24999 (-2)) "VND"
     "each" (Some "https://via.placeholder.com/80/f0f0f0/000000?Text=Console")
     (Some (random_barcode 1%nat)) 1;
   Product.mk 3 "Platinum Headset" "PS4" (PyDecimal.mk 11999 (-2)) "VND"
     "each" accessory_img (Some (random_barcode 2%nat)) 1;
   Product.mk 4 "Lay stax original yellow 150g" "" (PyDecimal.mk 100 (-1))
     "VND" "each" accessory_img (Some "8850718820634") 1;
   Product.mk 5 "swing red bo bit tet 55g" "" (PyDecimal.mk 100 (-1))
     "VND" "each" accessory_img (Some "8936036021660") 1;
   Product.mk 6 "haohao  chua cay hop 67g" "" (PyDecimal.mk 100 (-1))
     "VND" "each" accessory_img (Some "8934563651138") 1;
   Product.mk 7 "lau thai tom hop 67g" "" (PyDecimal.mk 100 (-1))
     "VND" "each" accessory_img (Some "8934563619138") 1;
   Product.mk 8 "nuoc khoang thien nhien vivan 500ml" ""
     (PyDecimal.mk 100 (-1)) "VND" "each" accessory_img
     (Some "8936136163185") 1].

(** The body of [for i in range(n)]. *)
Definition mock_product (i : nat) : Product.t :=
  Product.mk (Z.of_nat i + 100)
             (nth (i mod List.length PRODUCT_NAMES) PRODUCT_NAMES ""
              ++ " " ++ str_int (Z.of_nat i + 1))%string
             (choice_subtitle i) (uniform_price i) "VND" (choice_unit i)
             (Some "https://via.placeholder.com/80/cccccc/000000?Text=Product")
             None (randint_quantity i).

Definition generate_products (n : nat) : list Product.t :=
  demo_products ++ map mock_product (seq 0 n).
End Draws.

End Database.

(* ================================================================== *)
(** ** Invariants *)
(* ================================================================== *)

(** Stock on hand is never negative. *)
Definition stock_nonneg (ps : list Product.t) : bool :=
  forallb (fun p => 0 <=? Product.quantity p) ps.

(** The unique index on [id] that [ensure_indexes] creates on the
    [products] collection. *)
Fixpoint unique_ids (ps : list Product.t) : bool :=
  match ps with
  | [] => true
  | p :: ps' => negb (existsb (Tasks.has_id p) ps') && unique_ids ps'
  end.

(** At most one line per barcode. *)
Fixpoint unique_barcodes (ls : list CartLine.t) : bool :=
  match ls with
  | [] => true
  | l :: ls' =>
      negb (existsb (Cart.line_is (CartLine.barcode l)) ls')
      && unique_barcodes ls'
  end.

Definition positive_lines (ls : list CartLine.t) : bool :=
  forallb (fun l => 0 <? CartLine.quantity l) ls.

Definition cart_ok (c : CartDoc.t) : bool :=
  unique_barcodes (CartDoc.items c) && positive_lines (CartDoc.items c).

(** The cart invariant, over every cart document of the collection. *)
Definition carts_ok (cs : list CartDoc.t) : bool := forallb cart_ok cs.

(** The quantities a worker holds in its local variables come out of
    [model_validate] and are not negative. *)
Definition quantities_nonneg (items : list Product.t) : bool :=
  forallb (fun item => 0 <=? Product.quantity item) items.

Definition worker_ok (w : Tasks.worker) : bool :=
  match w with
  | Tasks.Fetch _ => true
  | Tasks.Reserving _ todo updates_to_perform =>
      quantities_nonneg todo && quantities_nonneg updates_to_perform
  | Tasks.MarkingFailed _ _ updates_to_perform =>
      quantities_nonneg updates_to_perform
  | Tasks.RollingBack _ updates_to_perform =>
      quantities_nonneg updates_to_perform
  | Tasks.Done _ => true
  end.

(** The sum of price x quantity over the lines, with no rounding. *)
Definition exact_subtotal (items : list Product.t) : PyDecimal.t :=
  fold_left
    (fun acc item =>
       PyDecimal.add_exact acc
         (PyDecimal.mul_exact (Product.price item)
                              (PyDecimal.of_int (Product.quantity item))))
    items PyDecimal.zero.

(** The same sum as a rational number. *)
Definition subtotal_Q (items : list Product.t) : Q :=
  fold_right
    (fun item acc =>
       (PyDecimal.to_Q (Product.price item) * inject_Z (Product.quantity item)
        + acc)%Q)
    0%Q items.

(** No line total and no partial sum from [acc] on needs more than
    [prec] digits. *)
Fixpoint sums_fit (acc : PyDecimal.t) (items : list Product.t) : bool :=
  match items with
  | [] => true
  | item :: rest =>
      let line := PyDecimal.mul_exact (Product.price item)
                    (PyDecimal.of_int (Product.quantity item)) in
      PyDecimal.fits line
      && PyDecimal.fits (PyDecimal.add_exact acc line)
      && sums_fit (PyDecimal.add_exact acc line) rest
  end.

(** [declared] and [calculated] differ by one cent or more, the
    difference taken exactly. *)
Definition far_apart (declared calculated : PyDecimal.t) : bool :=
  PyDecimal.leb PyDecimal.cent
    (PyDecimal.abs_exact (PyDecimal.sub_exact declared calculated)).

(** The status the store shows for an order. *)
Definition status_of (db : Store) (order_id : string) : option OrderStatus.t :=
  option_map OrderHistoryItem.status
             (find_one (Orders.order_is order_id) (order_history db)).

(** The first line with barcode [b] in the cart of user [u]. *)
Definition line_of (cs : list CartDoc.t) (u b : string) : option CartLine.t :=
  match find_one (Cart.owned_by u) cs with
  | Some c => find (Cart.line_is b) (CartDoc.items c)
  | None => None
  end.

(** The lines of the cart of user [u]. *)
Definition lines_of (cs : list CartDoc.t) (u : string) : list CartLine.t :=
  match find_one (Cart.owned_by u) cs with
  | Some c => CartDoc.items c
  | None => []
  end.

(** How one product may change in one step of the engine: if its
    quantity goes down, then by the guarded decrement of some order
    line, whose filter held on the product. *)
Definition guarded_change (p p' : Product.t) : Prop :=
  Product.quantity p' < Product.quantity p ->
  exists item, Tasks.in_stock_for item p = true
               /\ p' = Tasks.inc_quantity (- Product.quantity item) p.

Definition is_worker_step (e : Engine.event) : bool :=
  match e with
  | Engine.WorkerStep _ => true
  | _ => false
  end.

(** [{"$inc": {"quantity": delta}}] on the product with the id of
    [item], whatever its stock: the update of the compensation loop. *)
Definition add_stock (item : Product.t) (delta : Z) (ps : list Product.t)
  : list Product.t :=
  fst (update_one (Tasks.has_id item) (Tasks.inc_quantity delta) ps).

(** What holds of the store and of a worker that started alone on
    order [oid] in store [db0] with the lines [items0], as long as it
    is in its reservation loop or has just seen a decrement fail: it
    has written nothing but stock, [updates_to_perform] is the part of
    the order already decremented, and undoing it gives back the
    catalog of [db0]. *)
Definition reserving_from (db0 : Store) (oid : string) (items0 : list Product.t)
           (db : Store) (w : Tasks.worker) : Prop :=
  let core (updates_to_perform : list Product.t) :=
    order_history db = order_history db0
    /\ carts db = carts db0
    /\ unique_ids (products db) = true
    /\ Tasks.rollback (products db) updates_to_perform = products db0 in
  match w with
  | Tasks.Reserving o todo updates_to_perform =>
      o = oid /\ items0 = updates_to_perform ++ todo /\ core updates_to_perform
  | Tasks.MarkingFailed o item updates_to_perform =>
      o = oid
      /\ (exists rest, items0 = updates_to_perform ++ item :: rest)
      /\ core updates_to_perform
      /\ existsb (Tasks.in_stock_for item) (products db) = false
  | _ => True
  end.

(** All the stock of the catalog, and all the pieces a list of order
    lines asks for. *)
Definition total_stock (ps : list Product.t) : Z :=
  fold_right (fun p acc => Product.quantity p + acc) 0 ps.

Definition requested (items : list Product.t) : Z :=
  fold_right (fun item acc => Product.quantity item + acc) 0 items.

(** The pieces the lines [items] ask of product [p], and [p] once
    they are taken from its stock. *)
Definition taken (items : list Product.t) (p : Product.t) : Z :=
  requested (filter (fun item => Tasks.has_id item p) items).

Definition after_order (items : list Product.t) (p : Product.t) : Product.t :=
  Tasks.inc_quantity (- taken items p) p.

(** The pieces a worker has taken from the stock and has neither given
    back nor settled with a completed order: the quantities of its
    [updates_to_perform]. *)
Definition held (w : Tasks.worker) : Z :=
  match w with
  | Tasks.Reserving _ _ updates_to_perform => requested updates_to_perform
  | Tasks.MarkingFailed _ _ updates_to_perform => requested updates_to_perform
  | Tasks.RollingBack _ updates_to_perform => requested updates_to_perform
  | _ => 0
  end.

Definition in_flight (ws : list Tasks.worker) : Z :=
  fold_right (fun w acc => held w + acc) 0 ws.

(** Every line a worker holds has a product of its id in the catalog. *)
Definition holds_known (ps : list Product.t) (w : Tasks.worker) : bool :=
  let known := forallb (fun u => existsb (Tasks.has_id u) ps) in
  match w with
  | Tasks.Reserving _ _ updates_to_perform => known updates_to_perform
  | Tasks.MarkingFailed _ _ updates_to_perform => known updates_to_perform
  | Tasks.RollingBack _ updates_to_perform => known updates_to_perform
  | _ => true
  end.

(** The cart requests among the events are well-formed. *)
Definition cart_event_well_formed (e : Engine.event) : Prop :=
  match e with
  | Engine.CartOp _ request => CartOpRequest.well_formed request
  | _ => True
  end.

(** An order without its status: what must never change once the
    order is created. *)
Definition forget_status (o : OrderHistoryItem.t) : OrderHistoryItem.t :=
  OrderHistoryItem.set_status OrderStatus.PENDING o.

(** The catalog validates as [Product]s: no negative price. *)
Definition prices_nonneg (ps : list Product.t) : bool :=
  forallb (fun p => PyDecimal.leb PyDecimal.zero (Product.price p)) ps.

(** Newest first. *)
Fixpoint newest_first (os : list OrderHistoryItem.t) : bool :=
  match os with
  | [] => true
  | o :: rest =>
      forallb (fun o' => OrderHistoryItem.created_at o'
                         <=? OrderHistoryItem.created_at o) rest
      && newest_first rest
  end.

(* ================================================================== *)
(** ** Sample data *)
(* ================================================================== *)

Module Sample.

(** A catalog entry in the shape of the seed data of [database.py]. *)
Definition product (id : Z) (name barcode : string) (price : PyDecimal.t)
           (quantity : Z) : Product.t :=
  Product.mk id name "" price "VND" "each" None (Some barcode) quantity.

Definition shopper : TokenData.t := TokenData.mk "CARD123" (Some "shop_client").

Definition settings : Orders.Settings :=
  Orders.mkSettings 970415 "113366668888" "NOVA SHOP".

(** [items=[{price:10.00, quantity:2}], shipping=5.00] with the
    totals that belong to it. *)
Definition ten_times_two : CheckoutPayload.t :=
  CheckoutPayload.mk
    [product 4 "Lay stax original yellow 150g" "8850718820634"
             (PyDecimal.mk 100 (-1)) 2]
    (PyDecimal.mk 50 (-1)) (PyDecimal.mk 200 (-1)) (PyDecimal.mk 250 (-1)).

(** [items=[{price:10.25, quantity:2}], shipping=5.49]: subtotal
    20.5 and total 25.99. *)
Definition with_fraction : CheckoutPayload.t :=
  CheckoutPayload.mk
    [product 4 "Lay stax original yellow 150g" "8850718820634"
             (PyDecimal.mk 1025 (-2)) 2]
    (PyDecimal.mk 549 (-2)) (PyDecimal.mk 205 (-1)) (PyDecimal.mk 2599 (-2)).

(** One free item, [2 ^ 63] pieces of it: the payload validates and
    the quantity does not fit in a BSON int64. *)
Definition beyond_int64 : CheckoutPayload.t :=
  CheckoutPayload.mk
    [product 4 "Lay stax original yellow 150g" "8850718820634"
             (PyDecimal.mk 0 (-1)) 9223372036854775808]
    (PyDecimal.mk 50 (-1)) (PyDecimal.mk 0 (-1)) (PyDecimal.mk 50 (-1)).

(** The same request with [subtotal=19.99]. *)
Definition ten_times_two_tampered : CheckoutPayload.t :=
  CheckoutPayload.mk (CheckoutPayload.items ten_times_two)
    (PyDecimal.mk 50 (-1)) (PyDecimal.mk 1999 (-2)) (PyDecimal.mk 250 (-1)).

Definition empty_store : Store := mkStore [] [] [].

Definition chips : Z -> Product.t :=
  product 4 "Lay stax original yellow 150g" "8850718820634"
          (PyDecimal.mk 100 (-1)).
Definition noodles : Z -> Product.t :=
  product 6 "haohao  chua cay hop 67g" "8934563651138"
          (PyDecimal.mk 100 (-1)).

Definition order (order_id : string) (status : OrderStatus.t)
           (items : list Product.t) (subtotal total_cost : PyDecimal.t)
  : OrderHistoryItem.t :=
  OrderHistoryItem.mk
    (CheckoutPayload.mk items (PyDecimal.mk 50 (-1)) subtotal total_cost)
    order_id "CARD123" 1700000000 status.

(** Items [A: qty 5, B: qty 3] of a paid order while the stock of B
    is only 2. *)
Definition short_of_noodles : Store :=
  mkStore [chips 10; noodles 2] []
          [order "order-1" OrderStatus.PAID [chips 5; noodles 3]
                 (PyDecimal.mk 800 (-1)) (PyDecimal.mk 850 (-1))].

(** An order that has been completed. *)
Definition already_completed : Store :=
  mkStore [chips 9; noodles 1] []
          [order "order-1" OrderStatus.COMPLETED [chips 1; noodles 1]
                 (PyDecimal.mk 200 (-1)) (PyDecimal.mk 250 (-1))].

(** One paid order for the last piece of each of two products, its
    message on the queue. *)
Definition last_pieces : Engine.t :=
  Engine.mk
    (mkStore [chips 1; noodles 1] []
             [order "order-1" OrderStatus.PAID [chips 1; noodles 1]
                    (PyDecimal.mk 200 (-1)) (PyDecimal.mk 250 (-1))])
    ["order-1"] [].

(** The message is delivered twice; worker 0 and worker 1 both read
    the order while it is [paid]; worker 0 takes the chips; worker 1
    finds none, marks the order failed and returns; worker 0 takes
    the noodles and marks the order completed. *)
Definition double_delivery : list Engine.event :=
  [Engine.Deliver 0; Engine.Deliver 0;
   Engine.WorkerStep 0; Engine.WorkerStep 1;
   Engine.WorkerStep 0;
   Engine.WorkerStep 1; Engine.WorkerStep 1; Engine.WorkerStep 1;
   Engine.WorkerStep 0; Engine.WorkerStep 0].

(** The same order with two pieces of each product in stock. *)
Definition two_pieces_each : Engine.t :=
  Engine.mk
    (mkStore [chips 2; noodles 2] []
             [order "order-1" OrderStatus.PAID [chips 1; noodles 1]
                    (PyDecimal.mk 200 (-1)) (PyDecimal.mk 250 (-1))])
    ["order-1"] [].

(** The message is delivered twice and the two workers take turns,
    store call by store call. *)
Definition taking_turns : list Engine.event :=
  [Engine.Deliver 0; Engine.Deliver 0;
   Engine.WorkerStep 0; Engine.WorkerStep 1;
   Engine.WorkerStep 0; Engine.WorkerStep 1;
   Engine.WorkerStep 0; Engine.WorkerStep 1;
   Engine.WorkerStep 0; Engine.WorkerStep 1].

(** A cart with two pieces of one product. *)
Definition one_line_cart : Store :=
  mkStore [chips 10]
          [CartDoc.mk "CARD123"
             [CartLine.mk "8850718820634" "Lay stax original yellow 150g"
                          (PyDecimal.mk 100 (-1)) 2]]
          [].

Definition remove_two_chips : CartOpRequest.t :=
  CartOpRequest.mk "8850718820634" "remove" 2.

Definition add_unknown : CartOpRequest.t :=
  CartOpRequest.mk "0000000000000" "add" 1.

(** The pending order of [ten_times_two]. *)
Definition pending_ten_times_two : OrderHistoryItem.t :=
  OrderHistoryItem.mk ten_times_two "order-1" "CARD123" 1700000000
                      OrderStatus.PENDING.

(** A cart of three lines, the second of a product that is no longer
    in the catalog, and a second user without a cart. *)
Definition stale_line_cart : Store :=
  mkStore [chips 10; noodles 4]
          [CartDoc.mk "CARD123"
             [CartLine.mk "8850718820634" "Lay stax original yellow 150g"
                          (PyDecimal.mk 100 (-1)) 2;
              CartLine.mk "0000000000000" "withdrawn" (PyDecimal.mk 100 (-1)) 1;
              CartLine.mk "8934563651138" "haohao  chua cay hop 67g"
                          (PyDecimal.mk 100 (-1)) 3]]
          [].

Definition guest : TokenData.t := TokenData.mk "GUEST456" (Some "guest").

(** An order of [ten_times_two]. *)
Definition order_of (user : string) (created_at : Z) (order_id : string)
           (status : OrderStatus.t) : OrderHistoryItem.t :=
  OrderHistoryItem.mk ten_times_two order_id user created_at status.

(** Four orders in the order of their creation: two settled orders of
    one user, with a pending one of the same user and a settled one of
    another user in between. *)
Definition four_orders : Store :=
  mkStore [] []
          [order_of "CARD123" 1700000000 "order-1" OrderStatus.COMPLETED;
           order_of "GUEST456" 1700000100 "order-2" OrderStatus.COMPLETED;
           order_of "CARD123" 1700000200 "order-3" OrderStatus.PENDING;
           order_of "CARD123" 1700000300 "order-4" OrderStatus.FAILED].

Definition mac (key : string) (payload : VietQRWebhookPayload.t) : string :=
  (key ++ ":" ++ VietQRWebhookPayload.referenceId payload)%string.

(** The provider's notification that [order-1] has been paid. *)
Definition paid_notification : VietQRWebhookPayload.t :=
  VietQRWebhookPayload.mk "req-1" VietQRTransactionState.SUCCESS 25
                          "Thanh toan don hang order-1" "order-1" "nova" ""
                          "secret:order-1".

End Sample.

(* ================================================================== *)
(** ** Facts about the decimal arithmetic *)
(* ================================================================== *)

Module PyDecimalFacts.
Import PyDecimal.

Lemma pow10_pos (k : Z) : 0 <= k -> 0 < 10 ^ k.
Proof. intros Hk. apply Z.pow_pos_nonneg; lia. Qed.

Lemma ltb_antisym (a b : t) : ltb a b = negb (leb b a).
Proof.
  unfold ltb, leb. rewrite (Z.min_comm (expo b) (expo a)).
  apply Z.ltb_antisym.
Qed.

Lemma excess_digits_zero (fuel : nat) (m : Z) :
  m < 10 ^ prec -> excess_digits fuel m 0 = 0.
Proof.
  intros Hm. destruct fuel as [|fuel]; cbn [excess_digits]; [reflexivity|].
  rewrite Z.add_0_r.
  destruct (Z.ltb_spec m (10 ^ prec)); [reflexivity | lia].
Qed.

Lemma fix_fits (d : t) : fits d = true -> fix_ d = d.
Proof.
  unfold fits, fix_. intros H. apply Z.ltb_lt in H.
  rewrite excess_digits_zero by exact H. reflexivity.
Qed.

(** The search only stops at [k > 0] after seeing
    [10 ^ (prec + k - 1) <= m]. *)
Lemma excess_digits_lower (fuel : nat) (m k : Z) :
  (k = 0 \/ 10 ^ (prec + k - 1) <= m) ->
  excess_digits fuel m k = 0 \/
  10 ^ (prec + excess_digits fuel m k - 1) <= m.
Proof.
  revert k. induction fuel as [|fuel IH]; intros k Hk; cbn [excess_digits].
  - exact Hk.
  - destruct (Z.ltb_spec m (10 ^ (prec + k))) as [Hlt|Hge].
    + exact Hk.
    + apply IH. right. replace (prec + (k + 1) - 1) with (prec + k) by lia.
      exact Hge.
Qed.

Lemma excess_digits_ge (fuel : nat) (m k : Z) :
  k <= excess_digits fuel m k.
Proof.
  revert k. induction fuel as [|fuel IH]; intros k; cbn [excess_digits].
  - lia.
  - destruct (m <? 10 ^ (prec + k)); [lia|].
    specialize (IH (k + 1)). lia.
Qed.

Lemma round_half_even_lower (m k : Z) : m / 10 ^ k <= round_half_even m k.
Proof.
  unfold round_half_even.
  destruct (2 * (m mod 10 ^ k) <? 10 ^ k); [lia|].
  destruct (10 ^ k <? 2 * (m mod 10 ^ k)); [lia|].
  destruct (Z.even (m / 10 ^ k)); lia.
Qed.

Lemma div_pow10_nonneg (m k : Z) : 0 <= m -> 0 <= m / 10 ^ k.
Proof.
  intros Hm. destruct (Z.eq_dec (10 ^ k) 0) as [E|E].
  - rewrite E. rewrite Z.div_0_r. lia.
  - apply Z.div_pos; [exact Hm|]. pose proof (Z.pow_nonneg 10 k). lia.
Qed.

Lemma round_half_even_nonneg (m k : Z) : 0 <= m -> 0 <= round_half_even m k.
Proof.
  intros Hm. pose proof (round_half_even_lower m k).
  pose proof (div_pow10_nonneg m k Hm). lia.
Qed.

Lemma fix_nonneg (d : t) : 0 <= coef d -> 0 <= coef (fix_ d).
Proof.
  intros Hd. unfold fix_.
  destruct (excess_digits _ _ 0 =? 0); simpl; [exact Hd|].
  pose proof (round_half_even_nonneg (Z.abs (coef d))
                (excess_digits (Z.to_nat (Z.log2 (Z.abs (coef d))))
                               (Z.abs (coef d)) 0) (Z.abs_nonneg _)).
  nia.
Qed.

(** [abs] and the rounding commute. *)
Lemma abs_exact_fix (d : t) : abs_exact (fix_ d) = fix_ (abs_exact d).
Proof.
  unfold fix_, abs_exact; cbn [coef expo]. rewrite Z.abs_idemp.
  set (m := Z.abs (coef d)).
  set (k := excess_digits (Z.to_nat (Z.log2 m)) m 0).
  destruct (k =? 0); cbn [coef expo]; [reflexivity|].
  f_equal.
  pose proof (round_half_even_nonneg m k (Z.abs_nonneg _)) as Hr.
  subst m. destruct (Z.abs_spec (coef d)) as [[? E]|[? E]];
    destruct (Z.sgn_spec (coef d)) as [[? S]|[[? S]|[? S]]];
    destruct (Z.sgn_spec (Z.abs (coef d))) as [[? S']|[[? S']|[? S']]];
    try lia; rewrite S, S'; lia.
Qed.

(** What [cent <= d] means for [d >= 0], exponent by exponent. *)
Lemma leb_cent_iff (m e : Z) :
  0 <= m ->
  leb cent (mk m e) = true <->
  (e <= -2 /\ 10 ^ (-2 - e) <= m) \/ (-2 < e /\ 1 <= m).
Proof.
  intros Hm. unfold leb, align, cent; cbn [coef expo].
  rewrite Z.leb_le.
  destruct (Z.le_gt_cases e (-2)) as [He|He].
  - rewrite Z.min_r by lia. rewrite Z.sub_diag, Z.pow_0_r.
    split; [intros H; left; split; [exact He|lia] | intros [[_ H]|[H _]]; lia].
  - rewrite Z.min_l by lia. rewrite Z.sub_diag, Z.pow_0_r.
    pose proof (pow10_pos (e - -2) ltac:(lia)) as Hp.
    split.
    + intros H. right. split; [lia|]. nia.
    + intros [[H _]|[_ H]]; [lia | nia].
Qed.

(** Rounding never takes a magnitude of one cent or more below one
    cent. *)
Lemma cent_le_fix (d : t) :
  0 <= coef d -> leb cent d = true -> leb cent (fix_ d) = true.
Proof.
  intros Hd H. destruct d as [m e]; cbn [coef] in Hd.
  unfold fix_; cbn [coef expo]. rewrite (Z.abs_eq m) by exact Hd.
  set (k := excess_digits (Z.to_nat (Z.log2 m)) m 0).
  destruct (Z.eqb_spec k 0) as [Hk|Hk]; [exact H|].
  assert (Hk0 : 0 <= k) by (apply excess_digits_ge).
  destruct (excess_digits_lower (Z.to_nat (Z.log2 m)) m 0 (or_introl eq_refl))
    as [Hz|Hlow]; [contradiction|]. fold k in Hlow.
  assert (Hmpos : 0 < m).
  { pose proof (pow10_pos (prec + k - 1) ltac:(unfold prec; lia)). lia. }
  rewrite Z.sgn_pos by exact Hmpos. rewrite Z.mul_1_l.
  pose proof (round_half_even_lower m k) as Hr.
  pose proof (pow10_pos k ltac:(lia)) as Hpk.
  apply leb_cent_iff; [pose proof (div_pow10_nonneg m k); lia|].
  apply leb_cent_iff in H; [|exact Hd].
  assert (Hq : 1 <= m / 10 ^ k).
  { apply Z.div_le_lower_bound; [exact Hpk|].
    replace (prec + k - 1) with (27 + k) in Hlow by (unfold prec; lia).
    rewrite Z.pow_add_r in Hlow by lia.
    pose proof (pow10_pos 27 ltac:(lia)). nia. }
  destruct (Z.le_gt_cases (e + k) (-2)) as [He|He].
  - left. split; [exact He|].
    destruct H as [[_ H]|[H _]]; [|lia].
    replace (-2 - e) with ((-2 - (e + k)) + k) in H by lia.
    rewrite Z.pow_add_r in H by lia.
    assert (10 ^ (-2 - (e + k)) <= m / 10 ^ k).
    { apply Z.div_le_lower_bound; [exact Hpk|]. lia. }
    lia.
  - right. split; [lia|lia].
Qed.

(** A declared value whose exact distance to the calculated one is a
    cent or more fails the comparison of the validator. *)
Lemma far_apart_not_within (a b : t) :
  leb cent (abs_exact (sub_exact a b)) = true ->
  ltb (abs (sub a b)) cent = false.
Proof.
  intros H. rewrite ltb_antisym. apply negb_false_iff.
  unfold abs, sub. rewrite abs_exact_fix.
  set (y := abs_exact (sub_exact a b)) in *.
  assert (Hy : 0 <= coef y) by (subst y; cbn; apply Z.abs_nonneg).
  apply cent_le_fix; [apply fix_nonneg; exact Hy|].
  apply cent_le_fix; assumption.
Qed.

(** With the fuel [fix_] gives it, the search ends on the number of
    digits to drop. *)
Lemma excess_digits_upper (fuel : nat) (m : Z) :
  forall k : Z,
    0 <= k -> m < 10 ^ (prec + k + Z.of_nat fuel) ->
    m < 10 ^ (prec + excess_digits fuel m k).
Proof.
  induction fuel as [|fuel IH]; intros k Hk Hm; cbn [excess_digits].
  - rewrite Z.add_0_r in Hm. exact Hm.
  - destruct (Z.ltb_spec m (10 ^ (prec + k))) as [Hlt|Hge]; [exact Hlt|].
    apply IH; [lia|].
    replace (prec + (k + 1) + Z.of_nat fuel)
      with (prec + k + Z.of_nat (S fuel)) by lia.
    exact Hm.
Qed.

(** The result of an operation has at most [prec] digits (the
    coefficient [10 ^ prec] stands for a one followed by zeros). *)
Lemma fix_precision (d : t) : Z.abs (coef (fix_ d)) <= 10 ^ prec.
Proof.
  unfold fix_. set (m := Z.abs (coef d)).
  assert (Hm0 : 0 <= m) by apply Z.abs_nonneg.
  assert (Hup : m < 10 ^ (prec + excess_digits (Z.to_nat (Z.log2 m)) m 0)).
  { apply excess_digits_upper; [lia|].
    rewrite Z2Nat.id by apply Z.log2_nonneg.
    destruct (Z.eq_dec m 0) as [->|Hne].
    - apply pow10_pos. pose proof (Z.log2_nonneg 0). unfold prec. lia.
    - assert (m < 2 ^ (Z.log2 m + 1)).
      { pose proof (Z.log2_spec m ltac:(lia)). replace (Z.log2 m + 1)
          with (Z.succ (Z.log2 m)) by lia. lia. }
      assert (2 ^ (Z.log2 m + 1) <= 10 ^ (prec + 0 + Z.log2 m)).
      { pose proof (Z.log2_nonneg m).
        rewrite Z.pow_add_r, Z.pow_add_r by (unfold prec; lia).
        rewrite Z.pow_1_r.
        assert (2 ^ Z.log2 m <= 10 ^ Z.log2 m)
          by (apply Z.pow_le_mono_l; lia).
        assert (0 < 2 ^ Z.log2 m) by (apply Z.pow_pos_nonneg; lia).
        assert (2 <= 10 ^ (prec + 0)) by (vm_compute; discriminate).
        nia. }
      lia. }
  set (k := excess_digits (Z.to_nat (Z.log2 m)) m 0) in *.
  assert (Hk : 0 <= k) by apply excess_digits_ge.
  destruct (Z.eqb_spec k 0) as [E|E].
  - rewrite E, Z.add_0_r in Hup. fold m. lia.
  - cbn [coef]. rewrite Z.abs_mul.
    assert (Hs : Z.abs (Z.sgn (coef d)) <= 1)
      by (destruct (coef d); cbn; lia).
    pose proof (round_half_even_nonneg m k Hm0) as Hr.
    rewrite (Z.abs_eq (round_half_even m k)) by exact Hr.
    assert (Hq : round_half_even m k <= m / 10 ^ k + 1).
    { unfold round_half_even.
      destruct (2 * (m mod 10 ^ k) <? 10 ^ k); [lia|].
      destruct (10 ^ k <? 2 * (m mod 10 ^ k)); [lia|].
      destruct (Z.even (m / 10 ^ k)); lia. }
    assert (m / 10 ^ k < 10 ^ prec).
    { apply Z.div_lt_upper_bound; [apply pow10_pos, Hk|].
      rewrite <- Z.pow_add_r by (unfold prec; lia).
      replace (k + prec) with (prec + k) by lia. exact Hup. }
    pose proof (Z.abs_nonneg (Z.sgn (coef d))). nia.
Qed.

(** *** The exact operations and comparisons, read as rationals *)

Lemma ten_power_pos (e : Z) : (0 < inject_Z 10 ^ e)%Q.
Proof. apply Qpower_0_lt. reflexivity. Qed.

Lemma ten_not_zero : ~ (inject_Z 10 == 0)%Q.
Proof. discriminate. Qed.

Lemma to_Q_align (s : Z) (d : t) :
  s <= expo d -> (to_Q d == inject_Z (align s d) * inject_Z 10 ^ s)%Q.
Proof.
  intros Hs. unfold to_Q, align.
  rewrite inject_Z_mult, Zpower_Qpower by lia.
  rewrite <- Qmult_assoc, <- Qpower_plus by exact ten_not_zero.
  replace (expo d - s + s) with (expo d) by lia. reflexivity.
Qed.

Lemma to_Q_of_int (n : Z) : (to_Q (of_int n) == inject_Z n)%Q.
Proof. unfold to_Q, of_int. cbn. ring. Qed.

Lemma to_Q_neg (a : t) : (to_Q (neg a) == - to_Q a)%Q.
Proof. unfold to_Q, neg. cbn [coef expo]. rewrite inject_Z_opp. ring. Qed.

Lemma to_Q_add_exact (a b : t) : (to_Q (add_exact a b) == to_Q a + to_Q b)%Q.
Proof.
  rewrite (to_Q_align (Z.min (expo a) (expo b)) a) by lia.
  rewrite (to_Q_align (Z.min (expo a) (expo b)) b) by lia.
  unfold to_Q, add_exact. cbn [coef expo]. rewrite inject_Z_plus. ring.
Qed.

Lemma to_Q_sub_exact (a b : t) : (to_Q (sub_exact a b) == to_Q a - to_Q b)%Q.
Proof. unfold sub_exact. rewrite to_Q_add_exact, to_Q_neg. ring. Qed.

Lemma to_Q_mul_exact (a b : t) : (to_Q (mul_exact a b) == to_Q a * to_Q b)%Q.
Proof.
  unfold to_Q, mul_exact. cbn [coef expo].
  rewrite inject_Z_mult, Qpower_plus by exact ten_not_zero. ring.
Qed.

Lemma to_Q_abs_exact (a : t) : (to_Q (abs_exact a) == Qabs (to_Q a))%Q.
Proof.
  unfold to_Q, abs_exact. cbn [coef expo]. rewrite Qabs_Qmult.
  rewrite (Qabs_pos (inject_Z 10 ^ expo a))
    by (apply Qlt_le_weak, ten_power_pos).
  reflexivity.
Qed.

Lemma leb_Qle (a b : t) : leb a b = true <-> (to_Q a <= to_Q b)%Q.
Proof.
  rewrite (to_Q_align (Z.min (expo a) (expo b)) a) by lia.
  rewrite (to_Q_align (Z.min (expo a) (expo b)) b) by lia.
  rewrite Qmult_le_r by apply ten_power_pos.
  rewrite <- Zle_Qle. unfold leb. apply Z.leb_le.
Qed.

Lemma ltb_Qlt (a b : t) : ltb a b = true <-> (to_Q a < to_Q b)%Q.
Proof.
  rewrite (to_Q_align (Z.min (expo a) (expo b)) a) by lia.
  rewrite (to_Q_align (Z.min (expo a) (expo b)) b) by lia.
  rewrite Qmult_lt_r by apply ten_power_pos.
  rewrite <- Zlt_Qlt. unfold ltb. apply Z.ltb_lt.
Qed.

Lemma to_Q_cent : (to_Q cent == 1 # 100)%Q.
Proof. reflexivity. Qed.

End PyDecimalFacts.

(* ================================================================== *)
(** ** Checkout: totals and the amount sent to the provider *)
(* ================================================================== *)

Module CheckoutFacts.
Import PyDecimalFacts.

Lemma fold_subtotal_exact (items : list Product.t) (acc : PyDecimal.t) :
  sums_fit acc items = true ->
  fold_left (fun acc item => PyDecimal.add acc (CheckoutPayload.line_total item))
            items acc
  = fold_left
      (fun acc item =>
         PyDecimal.add_exact acc
           (PyDecimal.mul_exact (Product.price item)
                                (PyDecimal.of_int (Product.quantity item))))
      items acc.
Proof.
  revert acc. induction items as [|item rest IH]; intros acc H; [reflexivity|].
  cbn [sums_fit] in H. apply andb_true_iff in H as [H Hrest].
  apply andb_true_iff in H as [Hline Hsum].
  cbn [fold_left]. unfold CheckoutPayload.line_total, PyDecimal.mul, PyDecimal.add.
  rewrite (fix_fits _ Hline), (fix_fits _ Hsum). apply IH, Hrest.
Qed.

(** Within the precision of the context the recomputed subtotal is
    the sum of price x quantity. *)
Lemma calculated_subtotal_exact (p : CheckoutPayload.t) :
  sums_fit PyDecimal.zero (CheckoutPayload.items p) = true ->
  CheckoutPayload.calculated_subtotal p = exact_subtotal (CheckoutPayload.items p).
Proof. intros H. apply fold_subtotal_exact, H. Qed.

Lemma far_apart_Q (declared calculated : PyDecimal.t) :
  far_apart declared calculated = true <->
  (1 # 100 <= Qabs (PyDecimal.to_Q declared - PyDecimal.to_Q calculated))%Q.
Proof.
  unfold far_apart. rewrite leb_Qle, to_Q_abs_exact, to_Q_sub_exact, to_Q_cent.
  reflexivity.
Qed.

Lemma fold_subtotal_Q (items : list Product.t) :
  forall acc : PyDecimal.t,
    (PyDecimal.to_Q
       (fold_left
          (fun acc item =>
             PyDecimal.add_exact acc
               (PyDecimal.mul_exact (Product.price item)
                                    (PyDecimal.of_int (Product.quantity item))))
          items acc)
     == PyDecimal.to_Q acc + subtotal_Q items)%Q.
Proof.
  induction items as [|item rest IH]; intros acc; cbn [fold_left subtotal_Q fold_right].
  - ring.
  - rewrite IH, to_Q_add_exact, to_Q_mul_exact, to_Q_of_int.
    fold (subtotal_Q rest). ring.
Qed.

(** The exact sum denotes the sum of price x quantity. *)
Lemma exact_subtotal_Q (items : list Product.t) :
  (PyDecimal.to_Q (exact_subtotal items) == subtotal_Q items)%Q.
Proof.
  unfold exact_subtotal. rewrite fold_subtotal_Q. unfold PyDecimal.to_Q. cbn. ring.
Qed.

Lemma within_tolerance_far_apart (declared calculated : PyDecimal.t) :
  far_apart declared calculated = true ->
  CheckoutPayload.within_tolerance declared calculated = false.
Proof. apply far_apart_not_within. Qed.

(** A payload with a declared figure a cent or more off does not
    validate. *)
Lemma model_validate_far_apart (p : CheckoutPayload.t) :
  far_apart (CheckoutPayload.subtotal p) (CheckoutPayload.calculated_subtotal p)
    = true
  \/ far_apart (CheckoutPayload.total_cost p) (CheckoutPayload.calculated_total p)
    = true ->
  exists msg, CheckoutPayload.model_validate p = ValueError msg.
Proof.
  intros H. unfold CheckoutPayload.model_validate.
  destruct (CheckoutPayload.fields_ok p); [|eauto].
  unfold CheckoutPayload.validate_and_recalculate_totals.
  destruct (CheckoutPayload.within_tolerance (CheckoutPayload.subtotal p) _)
    eqn:Hs; cbn [negb]; [|eauto].
  destruct (CheckoutPayload.within_tolerance (CheckoutPayload.total_cost p) _)
    eqn:Ht; cbn [negb]; [|eauto].
  destruct H as [H|H]; apply within_tolerance_far_apart in H; congruence.
Qed.

(** A payload that validates is returned as it came. *)
Lemma model_validate_valid (p p' : CheckoutPayload.t) :
  CheckoutPayload.model_validate p = Valid p' ->
  p' = p /\ CheckoutPayload.fields_ok p = true.
Proof.
  unfold CheckoutPayload.model_validate,
    CheckoutPayload.validate_and_recalculate_totals.
  destruct (CheckoutPayload.fields_ok p); [|discriminate].
  destruct (negb _); [discriminate|].
  destruct (negb _); [discriminate|].
  intros H. inversion H. auto.
Qed.

Lemma zero_le_coef (d : PyDecimal.t) :
  PyDecimal.leb PyDecimal.zero d = true -> 0 <= PyDecimal.coef d.
Proof.
  unfold PyDecimal.leb, PyDecimal.align, PyDecimal.zero, PyDecimal.of_int.
  cbn [PyDecimal.coef PyDecimal.expo]. rewrite Z.leb_le. intros H.
  pose proof (pow10_pos (PyDecimal.expo d - Z.min 0 (PyDecimal.expo d))
                ltac:(lia)).
  nia.
Qed.

(** [int] of a decimal that is not negative is its integer part:
    [int(d) <= d < int(d) + 1]. *)
Lemma trunc_floor (d : PyDecimal.t) :
  PyDecimal.leb PyDecimal.zero d = true ->
  PyDecimal.leb (PyDecimal.of_int (PyDecimal.trunc d)) d = true
  /\ PyDecimal.ltb d (PyDecimal.of_int (PyDecimal.trunc d + 1)) = true.
Proof.
  intros H. apply zero_le_coef in H. destruct d as [m e]. cbn in H.
  unfold PyDecimal.leb, PyDecimal.ltb, PyDecimal.align, PyDecimal.of_int,
    PyDecimal.trunc.
  cbn [PyDecimal.coef PyDecimal.expo]. rewrite Z.leb_le, Z.ltb_lt.
  destruct (Z.leb_spec 0 e) as [He|He].
  - rewrite (Z.min_l 0 e), (Z.min_r e 0) by lia. rewrite !Z.sub_0_r.
    rewrite Z.pow_0_r. lia.
  - rewrite (Z.min_r 0 e), (Z.min_l e 0) by lia. rewrite Z.sub_diag, Z.pow_0_r.
    replace (0 - e) with (- e) by lia.
    pose proof (pow10_pos (- e) ltac:(lia)) as Hp.
    rewrite Z.quot_div_nonneg by lia.
    pose proof (Z.mul_div_le m (10 ^ (- e)) Hp).
    pose proof (Z.mul_succ_div_gt m (10 ^ (- e)) Hp).
    lia.
Qed.

(** Comparing a decimal that is not negative with an integer is
    comparing its integer part. *)
Lemma trunc_bounds (d : PyDecimal.t) (n : Z) :
  PyDecimal.leb PyDecimal.zero d = true ->
  0 <= PyDecimal.trunc d
  /\ (PyDecimal.ltb d (PyDecimal.of_int n) = true -> PyDecimal.trunc d < n)
  /\ (PyDecimal.leb (PyDecimal.of_int n) d = true -> n <= PyDecimal.trunc d).
Proof.
  intros H0. destruct (trunc_floor d H0) as [Hle Hlt].
  apply leb_Qle in Hle, H0. apply ltb_Qlt in Hlt.
  unfold PyDecimal.zero in H0.
  rewrite to_Q_of_int in Hle, Hlt. rewrite to_Q_of_int in H0.
  repeat split.
  - assert (inject_Z 0 < inject_Z (PyDecimal.trunc d + 1))%Q as H
        by (eapply Qle_lt_trans; [exact H0|exact Hlt]).
    rewrite <- Zlt_Qlt in H. lia.
  - intros H. apply ltb_Qlt in H. rewrite to_Q_of_int in H.
    assert (inject_Z (PyDecimal.trunc d) < inject_Z n)%Q as H'
        by (eapply Qle_lt_trans; [exact Hle|exact H]).
    rewrite <- Zlt_Qlt in H'. exact H'.
  - intros H. apply leb_Qle in H. rewrite to_Q_of_int in H.
    assert (inject_Z n < inject_Z (PyDecimal.trunc d + 1))%Q as H'
        by (eapply Qle_lt_trans; [exact H|exact Hlt]).
    rewrite <- Zlt_Qlt in H'. lia.
Qed.

(** Below [2 ^ 53], [int(x)] drops the fraction:
    [int(x) <= x < int(x) + 1]. *)
Lemma to_int_floor (d : PyDecimal.t) :
  PyDecimal.leb PyDecimal.zero d = true ->
  PyDecimal.ltb d (PyDecimal.of_int PyDecimal.two53) = true ->
  PyDecimal.leb (PyDecimal.of_int (PyDecimal.to_int d)) d = true
  /\ PyDecimal.ltb d (PyDecimal.of_int (PyDecimal.to_int d + 1)) = true.
Proof.
  intros H0 Hlt.
  destruct (trunc_bounds d PyDecimal.two53 H0) as (Hn & Hb & _).
  specialize (Hb Hlt).
  unfold PyDecimal.to_int. rewrite Z.abs_eq by exact Hn.
  apply Z.ltb_lt in Hb. rewrite Hb. apply trunc_floor, H0.
Qed.

(** The rounded quotient is within half a unit of the quotient. *)
Lemma div_half_even_near (num den : Z) :
  0 <= num -> 0 < den ->
  2 * Z.abs (PyDecimal.div_half_even num den * den - num) <= den
  /\ num / den <= PyDecimal.div_half_even num den <= num / den + 1.
Proof.
  intros Hn Hd. unfold PyDecimal.div_half_even.
  pose proof (Z.div_mod num den ltac:(lia)) as E.
  pose proof (Z.mod_pos_bound num den Hd) as Hr.
  set (q := num / den) in *. set (r := num mod den) in *.
  destruct (Z.ltb_spec (2 * r) den) as [H1|H1].
  - split; [|lia]. replace (q * den - num) with (- r) by lia.
    rewrite Z.abs_opp, Z.abs_eq; lia.
  - destruct (Z.ltb_spec den (2 * r)) as [H2|H2].
    + split; [|lia]. replace ((q + 1) * den - num) with (den - r) by lia.
      rewrite Z.abs_eq; lia.
    + destruct (Z.even q).
      * split; [|lia]. replace (q * den - num) with (- r) by lia.
        rewrite Z.abs_opp, Z.abs_eq; lia.
      * split; [|lia]. replace ((q + 1) * den - num) with (den - r) by lia.
        rewrite Z.abs_eq; lia.
Qed.

(** From [2 ^ 53] on, [int(x)] is the float itself: a number
    [m * 2 ^ k] with a significand [m] of 53 bits, [2 ^ k] being the
    unit in the last place at [d], and at most half that unit away
    from [d]. *)
Lemma to_int_binary64 (d : PyDecimal.t) :
  PyDecimal.leb (PyDecimal.of_int PyDecimal.two53) d = true ->
  exists k m,
    1 <= k
    /\ 2 ^ 52 <= m <= 2 ^ 53
    /\ PyDecimal.to_int d = m * 2 ^ k
    /\ PyDecimal.leb
         (PyDecimal.abs_exact
            (PyDecimal.sub_exact (PyDecimal.of_int (PyDecimal.to_int d)) d))
         (PyDecimal.of_int (2 ^ (k - 1))) = true.
Proof.
  intros Hge.
  assert (H0 : PyDecimal.leb PyDecimal.zero d = true).
  { apply leb_Qle. apply leb_Qle in Hge. unfold PyDecimal.zero.
    rewrite to_Q_of_int in *.
    eapply Qle_trans; [|exact Hge]. rewrite <- Zle_Qle. unfold PyDecimal.two53.
    lia. }
  destruct (trunc_bounds d PyDecimal.two53 H0) as (Hn & _ & Hb).
  specialize (Hb Hge).
  pose proof (zero_le_coef d H0) as Hc.
  set (t := PyDecimal.trunc d) in *.
  set (k := Z.log2 t - 52).
  set (num := PyDecimal.coef d * 10 ^ Z.max (PyDecimal.expo d) 0).
  set (den := 10 ^ Z.max (- PyDecimal.expo d) 0).
  assert (Hden : 0 < den) by (apply pow10_pos; lia).
  assert (Hnum : 0 <= num).
  { subst num. apply Z.mul_nonneg_nonneg; [exact Hc|].
    apply Z.lt_le_incl, pow10_pos. lia. }
  assert (Ht : t = num / den).
  { subst t num den. unfold PyDecimal.trunc.
    destruct (Z.leb_spec 0 (PyDecimal.expo d)) as [He|He].
    - rewrite (Z.max_l _ 0), (Z.max_r _ 0) by lia.
      rewrite Z.pow_0_r, Z.div_1_r. reflexivity.
    - rewrite (Z.max_r _ 0), (Z.max_l _ 0) by lia.
      rewrite Z.pow_0_r, Z.mul_1_r.
      apply Z.quot_div_nonneg; [exact Hc|apply pow10_pos; lia]. }
  assert (Htpos : 0 < t) by (unfold PyDecimal.two53 in Hb; lia).
  assert (Hlog : 53 <= Z.log2 t).
  { apply Z.log2_le_pow2; [exact Htpos|]. unfold PyDecimal.two53 in Hb.
    change (2 ^ 53) with 9007199254740992. exact Hb. }
  assert (Hk : 1 <= k) by (subst k; lia).
  destruct (Z.log2_spec t Htpos) as [Hlo Hhi].
  set (ulp := 2 ^ k).
  assert (Hulp : 0 < ulp) by (apply Z.pow_pos_nonneg; lia).
  assert (Hsplit : 2 ^ Z.log2 t = 2 ^ 52 * ulp).
  { subst ulp k. rewrite <- Z.pow_add_r by lia. f_equal. lia. }
  assert (Hsucc : 2 ^ Z.succ (Z.log2 t) = 2 ^ 53 * ulp).
  { subst ulp k. rewrite <- Z.pow_add_r by lia. f_equal. lia. }
  rewrite Hsplit in Hlo. rewrite Hsucc in Hhi.
  assert (HD : 0 < den * ulp) by lia.
  destruct (div_half_even_near num (den * ulp) Hnum HD) as [Hnear Hq].
  set (m := PyDecimal.div_half_even num (den * ulp)) in *.
  assert (Hquot : num / (den * ulp) = t / ulp).
  { rewrite Ht. rewrite Z.div_div by lia. reflexivity. }
  rewrite Hquot in Hq.
  assert (Hm : 2 ^ 52 <= m <= 2 ^ 53).
  { assert (2 ^ 52 <= t / ulp) by (apply Z.div_le_lower_bound; lia).
    assert (t / ulp < 2 ^ 53) by (apply Z.div_lt_upper_bound; lia).
    lia. }
  assert (Eint : PyDecimal.to_int d = m * ulp).
  { unfold PyDecimal.to_int. fold t. rewrite Z.abs_eq by exact Hn.
    destruct (Z.ltb_spec t PyDecimal.two53) as [Hlt|_]; [lia|].
    unfold PyDecimal.binary64. fold t. rewrite (Z.abs_eq t) by exact Hn.
    fold k. fold ulp. rewrite (Z.abs_eq (PyDecimal.coef d)) by exact Hc.
    fold num den. fold m.
    assert (0 < PyDecimal.coef d) as Hcpos.
    { destruct (Z.eq_dec (PyDecimal.coef d) 0) as [E|E]; [|lia].
      exfalso. subst num. rewrite E, Z.mul_0_l in Ht.
      rewrite Z.div_0_l in Ht by lia. lia. }
    rewrite Z.sgn_pos by exact Hcpos. lia. }
  exists k, m. split; [exact Hk|]. split; [exact Hm|]. split; [exact Eint|].
  rewrite Eint.
  unfold PyDecimal.leb, PyDecimal.abs_exact, PyDecimal.sub_exact,
    PyDecimal.add_exact, PyDecimal.neg, PyDecimal.of_int, PyDecimal.align.
  cbn [PyDecimal.coef PyDecimal.expo]. apply Z.leb_le.
  replace (Z.min (Z.min 0 (PyDecimal.expo d)) 0)
    with (Z.min 0 (PyDecimal.expo d)) by lia.
  replace (Z.min 0 (PyDecimal.expo d) - Z.min 0 (PyDecimal.expo d)) with 0
    by lia.
  replace (0 - Z.min 0 (PyDecimal.expo d))
    with (Z.max (- PyDecimal.expo d) 0) by lia.
  replace (PyDecimal.expo d - Z.min 0 (PyDecimal.expo d))
    with (Z.max (PyDecimal.expo d) 0) by lia.
  fold den. rewrite Z.pow_0_r, Z.mul_1_r.
  replace (m * ulp * den + - PyDecimal.coef d * 10 ^ Z.max (PyDecimal.expo d) 0)
    with (m * (den * ulp) - num) by (subst num; ring).
  assert (Hhalf : ulp = 2 * 2 ^ (k - 1)).
  { subst ulp. rewrite <- Z.pow_succ_r by lia. f_equal. lia. }
  rewrite Hhalf in Hnear. nia.
Qed.

Section Handler.
Variable settings : Orders.Settings.
Variable render_svg : string -> string.

(** The handler before its [await], case by case. *)
Lemma checkout_begin_cases (db : Store) (user : TokenData.t)
      (p : CheckoutPayload.t) (oid : string) (now : Z) :
  (exists r, Orders.checkout_begin settings db user p oid now
             = (db, Orders.Answered r))
  \/ (role_required Orders.allowed_roles user = None
      /\ CheckoutPayload.model_validate p = Valid p
      /\ CheckoutPayload.items p <> []
      /\ Orders.checkout_begin settings db user p oid now
         = (set_order_history
              (insert_one
                 (OrderHistoryItem.mk p oid (TokenData.identity user) now
                                      OrderStatus.PENDING)
                 (order_history db)) db,
            Orders.AwaitingProvider oid
              (Orders.mkPost "https://api.vietqr.io/v2/generate"
                 (VietQRGenerateRequest.mk
                    (Orders.VIETQR_ACCOUNT_NO settings)
                    (Orders.VIETQR_ACCOUNT_NAME settings)
                    (Orders.VIETQR_BANK_BIN settings)
                    (PyDecimal.to_int (CheckoutPayload.total_cost p))
                    ("Thanh toan don hang " ++ oid)%string
                    "compact2")
                 (PyDecimal.mk 100 (-1))))).
Proof.
  unfold Orders.checkout_begin.
  destruct (role_required Orders.allowed_roles user); [left; eauto|].
  destruct (CheckoutPayload.model_validate p) as [p'|msg] eqn:Hv;
    [|left; eauto].
  apply model_validate_valid in Hv as Hp. destruct Hp as [-> _].
  destruct (CheckoutPayload.items p) eqn:Hi; [left; eauto|].
  unfold OrderHistoryItem.model_validate. cbn [OrderHistoryItem.payload].
  rewrite Hv. destruct (bson_encodable _); cbn [negb]; [|left; eauto].
  right. repeat split; congruence.
Qed.

(** A checkout that reaches the provider has stored its order, so the
    order was one [insert_one] can encode. *)
Lemma checkout_begin_encodable (db db' : Store) (user : TokenData.t)
      (p : CheckoutPayload.t) (oid oid' : string) (now : Z)
      (call : Orders.HttpPost) :
  Orders.checkout_begin settings db user p oid now
  = (db', Orders.AwaitingProvider oid' call) ->
  bson_encodable (OrderHistoryItem.mk p oid (TokenData.identity user) now
                                      OrderStatus.PENDING) = true.
Proof.
  unfold Orders.checkout_begin.
  destruct (role_required Orders.allowed_roles user); [discriminate|].
  destruct (CheckoutPayload.model_validate p) as [p'|msg] eqn:Hv;
    [|discriminate].
  apply model_validate_valid in Hv as Hp. destruct Hp as [-> _].
  destruct (CheckoutPayload.items p) eqn:Hi; [discriminate|].
  unfold OrderHistoryItem.model_validate. cbn [OrderHistoryItem.payload].
  rewrite Hv. destruct (bson_encodable _); cbn [negb];
    [reflexivity|discriminate].
Qed.

(** A request that does not validate leaves the store alone and is
    answered 422 (403 when the role check fails first). *)
Lemma checkout_invalid (post : Orders.HttpPost -> Orders.ProviderOutcome)
      (db : Store) (user : TokenData.t) (p : CheckoutPayload.t)
      (oid : string) (now : Z) (msg : string) :
  CheckoutPayload.model_validate p = ValueError msg ->
  fst (Orders.initiate_checkout_and_generate_qr settings render_svg post
         db user p oid now) = db
  /\ (role_required Orders.allowed_roles user = None ->
      snd (Orders.initiate_checkout_and_generate_qr settings render_svg post
             db user p oid now) = RequestValidationError).
Proof.
  intros Hv. unfold Orders.initiate_checkout_and_generate_qr,
    Orders.checkout_begin.
  destruct (role_required Orders.allowed_roles user); cbn; [split; [reflexivity|discriminate]|].
  rewrite Hv. cbn. auto.
Qed.
(** Once the handler is suspended on the provider, the order is in
    the store; the call carries the 10 second timeout; whatever the
    provider does, the store stays as it is; a transport error or
    timeout, an answer without data or with a code other than "00" is
    answered 503. *)
Lemma checkout_persists_before_await (db db' : Store) (user : TokenData.t)
      (p : CheckoutPayload.t) (oid oid' : string) (now : Z)
      (call : Orders.HttpPost) :
  Orders.checkout_begin settings db user p oid now
  = (db', Orders.AwaitingProvider oid' call) ->
  order_history db'
  = order_history db
    ++ [OrderHistoryItem.mk p oid (TokenData.identity user) now
                            OrderStatus.PENDING]
  /\ Orders.timeout call = PyDecimal.mk 100 (-1)
  /\ (forall post,
        fst (Orders.initiate_checkout_and_generate_qr settings render_svg post
               db user p oid now) = db')
  /\ (forall post,
        post call = Orders.RequestError ->
        snd (Orders.initiate_checkout_and_generate_qr settings render_svg post
               db user p oid now)
        = HTTPException HTTP_503_SERVICE_UNAVAILABLE
                        "Could not connect to the payment QR service.")
  /\ (forall post r,
        post call = Orders.Answer r ->
        VietQRGenerateResponse.code r <> "00"
        \/ VietQRGenerateResponse.data r = None ->
        snd (Orders.initiate_checkout_and_generate_qr settings render_svg post
               db user p oid now)
        = HTTPException HTTP_503_SERVICE_UNAVAILABLE
            ("Failed to generate QR code: " ++ VietQRGenerateResponse.desc r)%string).
Proof.
  intros Hb.
  destruct (checkout_begin_cases db user p oid now)
    as [[r Hr]|(_ & _ & _ & Heq)]; [congruence|].
  unfold Orders.initiate_checkout_and_generate_qr. rewrite Hb.
  rewrite Heq in Hb. inversion Hb; subst; clear Hb. cbn [fst snd].
  repeat split.
  - intros post ->. reflexivity.
  - intros post r -> H. cbn [Orders.checkout_resume].
    destruct (VietQRGenerateResponse.data r) as [d|]; [|reflexivity].
    destruct H as [H|H]; [|discriminate].
    destruct (String.eqb_spec (VietQRGenerateResponse.code r) "00");
      [contradiction|reflexivity].
Qed.

End Handler.

End CheckoutFacts.

(* ================================================================== *)
(** ** Facts about the collections *)
(* ================================================================== *)

Section CollectionFacts.
Context {A : Type}.
Implicit Types (f g : A -> bool) (u : A -> A) (c : list A).

Lemma update_one_matched f u c :
  snd (update_one f u c) = if existsb f c then 1 else 0.
Proof.
  induction c as [|d c IH]; cbn; [reflexivity|].
  destruct (f d); cbn; [reflexivity|].
  destruct (update_one f u c) as [c' n]. cbn in *. exact IH.
Qed.

Lemma update_one_no_match f u c :
  existsb f c = false -> update_one f u c = (c, 0).
Proof.
  induction c as [|d c IH]; cbn; [reflexivity|].
  destruct (f d); cbn; [discriminate|]. intros H. rewrite (IH H). reflexivity.
Qed.

Lemma update_one_find_none f u c :
  find f c = None -> update_one f u c = (c, 0).
Proof.
  intros H. apply update_one_no_match.
  destruct (existsb f c) eqn:E; [|reflexivity].
  apply existsb_exists in E as (d & Hin & Hd).
  pose proof (find_none f c H d Hin). congruence.
Qed.

(** The rewritten document is the one [find_one] returns. *)
Lemma update_one_forallb (P : A -> bool) f u c :
  forallb P c = true ->
  (forall d, find f c = Some d -> P d = true -> P (u d) = true) ->
  forallb P (fst (update_one f u c)) = true.
Proof.
  induction c as [|d c IH]; cbn; [auto|]. intros H Hu.
  apply andb_true_iff in H as [Hd Hc].
  destruct (f d) eqn:Hf; cbn.
  - rewrite (Hu d eq_refl Hd), Hc. reflexivity.
  - destruct (update_one f u c) as [c' n] eqn:E. cbn in *.
    rewrite Hd. apply IH; assumption.
Qed.

Lemma update_one_map {B : Type} (k : A -> B) f u c :
  (forall d, k (u d) = k d) ->
  map k (fst (update_one f u c)) = map k c.
Proof.
  intros Hk. induction c as [|d c IH]; cbn; [reflexivity|].
  destruct (f d); cbn; [rewrite Hk; reflexivity|].
  destruct (update_one f u c) as [c' n]. cbn in *. rewrite IH. reflexivity.
Qed.

(** A filter that does not look at what the update changes finds
    the updated document afterwards. *)
Lemma find_update_one f u c :
  (forall d, f (u d) = f d) ->
  find f (fst (update_one f u c)) = option_map u (find f c).
Proof.
  intros Hf. induction c as [|d c IH]; cbn; [reflexivity|].
  destruct (f d) eqn:E; cbn.
  - rewrite Hf, E. reflexivity.
  - destruct (update_one f u c) as [c' n]. cbn in *. rewrite E. exact IH.
Qed.

Lemma update_one_pointwise (R : A -> A -> Prop) f u c :
  (forall d, R d d) ->
  (forall d, f d = true -> R d (u d)) ->
  Forall2 R c (fst (update_one f u c)).
Proof.
  intros Hrefl Hu. induction c as [|d c IH]; cbn; [constructor|].
  destruct (f d) eqn:E; cbn.
  - constructor; [apply Hu, E|]. clear IH. induction c; constructor; auto.
  - destruct (update_one f u c) as [c' n]. cbn in *. constructor; auto.
Qed.
End CollectionFacts.

(* ================================================================== *)
(** ** The inventory worker *)
(* ================================================================== *)

Module TasksFacts.

Lemma order_validate_valid (o o' : OrderHistoryItem.t) :
  OrderHistoryItem.model_validate o = Valid o' ->
  o' = o /\ quantities_nonneg (OrderHistoryItem.items o) = true.
Proof.
  unfold OrderHistoryItem.model_validate.
  destruct (CheckoutPayload.model_validate _) as [p|msg] eqn:Hv; [|discriminate].
  intros H. inversion H; subst. split; [reflexivity|].
  apply CheckoutFacts.model_validate_valid in Hv as [_ Hf].
  unfold CheckoutPayload.fields_ok in Hf.
  repeat (apply andb_true_iff in Hf as [Hf _]).
  unfold quantities_nonneg, OrderHistoryItem.items.
  rewrite forallb_forall in *. intros x Hx. specialize (Hf x Hx).
  unfold Product.fields_ok in Hf. apply andb_true_iff in Hf as [_ Hf]. exact Hf.
Qed.

Lemma quantities_nonneg_snoc (items : list Product.t) (item : Product.t) :
  quantities_nonneg items = true -> 0 <= Product.quantity item ->
  quantities_nonneg (items ++ [item]) = true.
Proof.
  unfold quantities_nonneg. intros H Hq. rewrite forallb_app, H. cbn.
  apply Z.leb_le in Hq. rewrite Hq. reflexivity.
Qed.

(** A guarded decrement leaves no negative stock behind. *)
Lemma decrement_nonneg (item : Product.t) (ps : list Product.t) :
  stock_nonneg ps = true ->
  stock_nonneg
    (fst (update_one (Tasks.in_stock_for item)
                     (Tasks.inc_quantity (- Product.quantity item)) ps)) = true.
Proof.
  intros H. apply update_one_forallb; [exact H|].
  intros p Hfind _. apply find_some in Hfind as [_ Hp].
  unfold Tasks.in_stock_for in Hp. apply andb_true_iff in Hp as [_ Hq].
  apply Z.leb_le in Hq. cbn. apply Z.leb_le. lia.
Qed.

Lemma increment_nonneg (item : Product.t) (ps : list Product.t) :
  0 <= Product.quantity item ->
  stock_nonneg ps = true ->
  stock_nonneg
    (fst (update_one (Tasks.has_id item)
                     (Tasks.inc_quantity (Product.quantity item)) ps)) = true.
Proof.
  intros Hq H. apply update_one_forallb; [exact H|].
  intros p _ Hp. apply Z.leb_le in Hp. cbn. apply Z.leb_le. lia.
Qed.

(** One store call of a worker keeps the stock and the worker's
    local quantities non-negative. *)
Lemma worker_step_invariant (db db' : Store) (w w' : Tasks.worker) :
  Tasks.step db w = (db', w') ->
  stock_nonneg (products db) = true -> worker_ok w = true ->
  stock_nonneg (products db') = true /\ worker_ok w' = true.
Proof.
  intros Hs Hdb Hw. destruct w as [oid|oid todo utp|oid item utp|item utp|r];
    cbn [Tasks.step] in Hs.
  - destruct (find_one _ _) as [o|]; [|inversion Hs; subst; auto].
    destruct (negb _); [inversion Hs; subst; auto|].
    destruct (OrderHistoryItem.model_validate o) as [o'|msg] eqn:Hv;
      inversion Hs; subst; [|auto].
    apply order_validate_valid in Hv as [-> Hq]. cbn. rewrite Hq. auto.
  - cbn in Hw. apply andb_true_iff in Hw as [Htodo Hutp].
    destruct todo as [|item rest]; [inversion Hs; subst; auto|].
    cbn in Htodo. apply andb_true_iff in Htodo as [Hq Hrest].
    pose proof (decrement_nonneg item (products db) Hdb) as Hdec.
    destruct (update_one _ _ (products db)) as [ps n]. cbn in Hdec.
    destruct (n =? 0); inversion Hs; subst; cbn; [auto|].
    split; [exact Hdec|]. apply andb_true_iff. split; [exact Hrest|].
    apply quantities_nonneg_snoc; [exact Hutp|]. apply Z.leb_le, Hq.
  - inversion Hs; subst. auto.
  - destruct utp as [|u rest]; inversion Hs; subst; [auto|].
    cbn in Hw. apply andb_true_iff in Hw as [Hq Hrest].
    cbn. split; [|exact Hrest].
    apply increment_nonneg; [apply Z.leb_le, Hq | exact Hdb].
  - inversion Hs; subst. auto.
Qed.

(** Whatever a worker step takes from a product it takes through
    the guarded decrement. *)
Lemma step_decrements_guarded (db db' : Store) (w w' : Tasks.worker) :
  Tasks.step db w = (db', w') -> worker_ok w = true ->
  Forall2
    (fun p p' =>
       Product.quantity p' < Product.quantity p ->
       exists item, Tasks.in_stock_for item p = true
                    /\ p' = Tasks.inc_quantity (- Product.quantity item) p)
    (products db) (products db').
Proof.
  intros Hs Hw.
  assert (Hsame : forall ps : list Product.t,
             Forall2 (fun p p' =>
               Product.quantity p' < Product.quantity p ->
               exists item, Tasks.in_stock_for item p = true
                 /\ p' = Tasks.inc_quantity (- Product.quantity item) p) ps ps).
  { induction ps; constructor; auto. intros; lia. }
  destruct w as [oid|oid todo utp|oid item utp|item utp|r];
    cbn [Tasks.step] in Hs.
  - destruct (find_one _ _) as [o|]; [|inversion Hs; subst; auto].
    destruct (negb _); [inversion Hs; subst; auto|].
    destruct (OrderHistoryItem.model_validate o); inversion Hs; subst; auto.
  - destruct todo as [|item rest]; [inversion Hs; subst; cbn; auto|].
    pose proof (update_one_pointwise
                  (fun p p' =>
                     Product.quantity p' < Product.quantity p ->
                     exists item, Tasks.in_stock_for item p = true
                       /\ p' = Tasks.inc_quantity (- Product.quantity item) p)
                  (Tasks.in_stock_for item)
                  (Tasks.inc_quantity (- Product.quantity item))
                  (products db)) as Hp.
    destruct (update_one _ _ (products db)) as [ps n]. cbn in Hp.
    destruct (n =? 0); inversion Hs; subst; cbn; [auto|].
    apply Hp; [intros; lia|]. intros p Hin _. exists item. auto.
  - inversion Hs; subst. cbn. auto.
  - destruct utp as [|u rest]; inversion Hs; subst; [auto|]. cbn.
    cbn in Hw. apply andb_true_iff in Hw as [Hq _]. apply Z.leb_le in Hq.
    apply update_one_pointwise; [intros; lia|].
    intros p _. cbn. intros; lia.
  - inversion Hs; subst. auto.
Qed.

(** *** Running a worker alone *)

Lemma run_done (n : nat) (db : Store) (r : Tasks.task_result) :
  Tasks.run n db (Tasks.Done r) = (db, Tasks.Done r).
Proof. induction n as [|n IH]; cbn; [reflexivity|exact IH]. Qed.

Lemma run_add (n m : nat) (db : Store) (w : Tasks.worker) :
  Tasks.run (n + m) db w
  = let '(db1, w1) := Tasks.run n db w in Tasks.run m db1 w1.
Proof.
  revert db w. induction n as [|n IH]; intros db w; cbn; [reflexivity|].
  destruct (Tasks.step db w) as [db1 w1]. apply IH.
Qed.

(** A run that has ended has the same end however long it is left. *)
Lemma run_done_unique (n m : nat) (db db1 db2 : Store) (w : Tasks.worker)
      (r1 r2 : Tasks.task_result) :
  Tasks.run n db w = (db1, Tasks.Done r1) ->
  Tasks.run m db w = (db2, Tasks.Done r2) ->
  db1 = db2 /\ r1 = r2.
Proof.
  intros H1 H2.
  pose proof (run_add n m db w) as E1. rewrite H1, run_done in E1.
  pose proof (run_add m n db w) as E2. rewrite H2, run_done in E2.
  rewrite Nat.add_comm in E2. rewrite E1 in E2. inversion E2. auto.
Qed.

Lemma rolling_back_run (item : Product.t) (utp : list Product.t) :
  forall db : Store,
    Tasks.run (List.length utp + 1) db (Tasks.RollingBack item utp)
    = (set_products (Tasks.rollback (products db) utp) db,
       Tasks.Done (Tasks.insufficient item)).
Proof.
  induction utp as [|u utp IH]; intros db.
  - cbn. destruct db; reflexivity.
  - cbn [List.length Nat.add Tasks.run Tasks.step]. rewrite IH.
    cbn. reflexivity.
Qed.

Lemma marking_failed_run (oid : string) (item : Product.t)
      (utp : list Product.t) (db : Store) :
  Tasks.run (List.length utp + 2) db (Tasks.MarkingFailed oid item utp)
  = (set_products
       (Tasks.rollback (products db) utp)
       (set_order_history
          (Tasks.set_status oid OrderStatus.FAILED (order_history db)) db),
     Tasks.Done (Tasks.insufficient item)).
Proof.
  replace (List.length utp + 2)%nat with (S (List.length utp + 1)) by lia.
  cbn [Tasks.run Tasks.step]. rewrite rolling_back_run. reflexivity.
Qed.

(** The loop of [process_order] is the run of the worker from the
    top of the loop. *)
Lemma reserve_run (oid : string) (todo : list Product.t) :
  forall (db : Store) (utp : list Product.t),
  exists n,
    Tasks.run n db (Tasks.Reserving oid todo utp)
    = (fst (Tasks.reserve db oid todo utp),
       Tasks.Done (snd (Tasks.reserve db oid todo utp))).
Proof.
  induction todo as [|item rest IH]; intros db utp.
  - exists 1%nat. reflexivity.
  - cbn [Tasks.reserve].
    destruct (update_one (Tasks.in_stock_for item) _ (products db))
      as [ps n] eqn:E.
    destruct (n =? 0) eqn:Hn.
    + exists (S (List.length utp + 2)). cbn [Tasks.run Tasks.step].
      rewrite E, Hn. rewrite marking_failed_run. reflexivity.
    + destruct (IH (set_products ps db) (utp ++ [item])) as [k Hk].
      exists (S k). cbn [Tasks.run Tasks.step]. rewrite E, Hn. exact Hk.
Qed.

(** [process_order] is the worker left alone until it is done. *)
Lemma process_order_run (db : Store) (oid : string) :
  exists n,
    Tasks.run n db (Tasks.Fetch oid)
    = (fst (Tasks.process_order db oid),
       Tasks.Done (snd (Tasks.process_order db oid))).
Proof.
  unfold Tasks.process_order.
  destruct (find_one _ _) as [o|] eqn:Hf;
    [|exists 1%nat; cbn; rewrite Hf; reflexivity].
  destruct (negb _) eqn:Hs; [exists 1%nat; cbn; rewrite Hf, Hs; reflexivity|].
  destruct (OrderHistoryItem.model_validate o) as [o'|msg] eqn:Hv;
    [|exists 1%nat; cbn; rewrite Hf, Hs, Hv; reflexivity].
  destruct (reserve_run oid (OrderHistoryItem.items o') db []) as [k Hk].
  exists (S k). cbn [Tasks.run Tasks.step]. rewrite Hf, Hs, Hv. exact Hk.
Qed.

(** *** Undoing the decrements *)

Lemma inc_quantity_zero (p : Product.t) : Tasks.inc_quantity 0 p = p.
Proof.
  destruct p. unfold Tasks.inc_quantity, Product.set_quantity. cbn.
  f_equal. lia.
Qed.

Lemma inc_quantity_inc (a b : Z) (p : Product.t) :
  Tasks.inc_quantity a (Tasks.inc_quantity b p) = Tasks.inc_quantity (b + a) p.
Proof.
  destruct p. unfold Tasks.inc_quantity, Product.set_quantity. cbn.
  f_equal. lia.
Qed.

Lemma add_stock_cons (item : Product.t) (delta : Z) (p : Product.t)
      (ps : list Product.t) :
  add_stock item delta (p :: ps)
  = if Tasks.has_id item p then Tasks.inc_quantity delta p :: ps
    else p :: add_stock item delta ps.
Proof.
  unfold add_stock. cbn. destruct (Tasks.has_id item p); [reflexivity|].
  destruct (update_one _ _ ps). reflexivity.
Qed.

Lemma add_stock_comm (i j : Product.t) (a b : Z) (ps : list Product.t) :
  add_stock i a (add_stock j b ps) = add_stock j b (add_stock i a ps).
Proof.
  induction ps as [|p ps IH]; [reflexivity|].
  rewrite !add_stock_cons.
  destruct (Tasks.has_id i p) eqn:Hi, (Tasks.has_id j p) eqn:Hj;
    rewrite !add_stock_cons; unfold Tasks.has_id in *; cbn [Tasks.inc_quantity
      Product.set_quantity Product.id]; rewrite ?Hi, ?Hj.
  - rewrite !inc_quantity_inc. f_equal. f_equal. lia.
  - reflexivity.
  - reflexivity.
  - rewrite IH. reflexivity.
Qed.

Lemma add_stock_inverse (i : Product.t) (a : Z) (ps : list Product.t) :
  add_stock i a (add_stock i (- a) ps) = ps.
Proof.
  induction ps as [|p ps IH]; [reflexivity|].
  rewrite add_stock_cons. destruct (Tasks.has_id i p) eqn:Hi;
    rewrite add_stock_cons; unfold Tasks.has_id in *;
    cbn [Tasks.inc_quantity Product.set_quantity Product.id]; rewrite Hi.
  - rewrite inc_quantity_inc. replace (- a + a) with 0 by lia.
    rewrite inc_quantity_zero. reflexivity.
  - rewrite IH. reflexivity.
Qed.

Lemma rollback_add_stock (i : Product.t) (a : Z) (utp : list Product.t) :
  forall ps : list Product.t,
    Tasks.rollback (add_stock i a ps) utp = add_stock i a (Tasks.rollback ps utp).
Proof.
  induction utp as [|u utp IH]; intros ps; [reflexivity|].
  cbn [Tasks.rollback]. fold (add_stock u (Product.quantity u) (add_stock i a ps)).
  fold (add_stock u (Product.quantity u) ps).
  rewrite add_stock_comm. apply IH.
Qed.

Lemma rollback_snoc (utp : list Product.t) (u : Product.t) :
  forall ps : list Product.t,
    Tasks.rollback ps (utp ++ [u])
    = add_stock u (Product.quantity u) (Tasks.rollback ps utp).
Proof.
  induction utp as [|v utp IH]; intros ps; [reflexivity|].
  cbn [app Tasks.rollback]. apply IH.
Qed.

(** With one product per id, the guarded decrement that matched is
    the plain decrement of that product. *)
Lemma decrement_is_add_stock (item : Product.t) (ps : list Product.t) :
  unique_ids ps = true ->
  existsb (Tasks.in_stock_for item) ps = true ->
  fst (update_one (Tasks.in_stock_for item)
                  (Tasks.inc_quantity (- Product.quantity item)) ps)
  = add_stock item (- Product.quantity item) ps.
Proof.
  induction ps as [|p ps IH]; intros Hu He; [discriminate|].
  rewrite add_stock_cons. cbn [update_one].
  cbn [unique_ids] in Hu. apply andb_true_iff in Hu as [Hp Hu].
  unfold Tasks.in_stock_for at 1.
  destruct (Tasks.has_id item p) eqn:Hid; unfold Tasks.has_id in Hid; rewrite Hid.
  - destruct (Product.quantity item <=? Product.quantity p) eqn:Hq;
      cbn; [reflexivity|].
    exfalso. cbn [existsb] in He. unfold Tasks.in_stock_for at 1 in He.
    rewrite Hid, Hq in He. cbn in He.
    apply existsb_exists in He as (p' & Hin & Hp').
    unfold Tasks.in_stock_for in Hp'. apply andb_true_iff in Hp' as [Hid' _].
    apply negb_true_iff in Hp.
    assert (existsb (Tasks.has_id p) ps = true) as Hex; [|congruence].
    apply existsb_exists. exists p'. split; [exact Hin|].
    unfold Tasks.has_id. apply Z.eqb_eq in Hid, Hid'. apply Z.eqb_eq. lia.
  - cbn [andb]. cbn [existsb] in He. unfold Tasks.in_stock_for at 1 in He.
    rewrite Hid in He. cbn [andb orb] in He.
    specialize (IH Hu He). unfold add_stock in *.
    destruct (update_one (Tasks.in_stock_for item) _ ps).
    destruct (update_one (Tasks.has_id item) _ ps). cbn in *. congruence.
Qed.

Lemma existsb_has_id_ids (p : Product.t) (ps ps' : list Product.t) :
  map Product.id ps = map Product.id ps' ->
  existsb (Tasks.has_id p) ps = existsb (Tasks.has_id p) ps'.
Proof.
  revert ps'. induction ps as [|q ps IH]; intros [|q' ps'] H;
    try discriminate; [reflexivity|].
  cbn in H. inversion H as [[Hq Hps]]. cbn. unfold Tasks.has_id at 1 3.
  rewrite Hq. f_equal. apply IH, Hps.
Qed.

Lemma unique_ids_ids (ps : list Product.t) :
  forall ps', map Product.id ps = map Product.id ps' ->
              unique_ids ps = unique_ids ps'.
Proof.
  induction ps as [|q ps IH]; intros [|q' ps'] H; try discriminate;
    [reflexivity|].
  cbn in H. inversion H as [[Hq Hps]]. cbn.
  rewrite (IH _ Hps), (existsb_has_id_ids q ps ps' Hps).
  unfold Tasks.has_id. rewrite Hq. reflexivity.
Qed.

Lemma unique_ids_update_one (f : Product.t -> bool) (delta : Z)
      (ps : list Product.t) :
  unique_ids (fst (update_one f (Tasks.inc_quantity delta) ps)) = unique_ids ps.
Proof. apply unique_ids_ids, update_one_map. reflexivity. Qed.

(** The invariant of the reservation loop. *)
Lemma reserving_from_step (db0 : Store) (oid : string)
      (items0 : list Product.t) (db db' : Store) (w w' : Tasks.worker) :
  reserving_from db0 oid items0 db w ->
  match w with Tasks.Fetch _ => False | _ => True end ->
  Tasks.step db w = (db', w') ->
  reserving_from db0 oid items0 db' w'
  /\ match w' with Tasks.Fetch _ => False | _ => True end.
Proof.
  intros Hinv Hw Hs.
  destruct w as [o|o todo utp|o item utp|item utp|r]; [contradiction| | | |];
    cbn [Tasks.step] in Hs.
  - destruct Hinv as (-> & Hitems & Hoh & Hc & Hu & Hr).
    destruct todo as [|item rest]; [inversion Hs; subst; cbn; auto|].
    pose proof (update_one_matched (Tasks.in_stock_for item)
                  (Tasks.inc_quantity (- Product.quantity item))
                  (products db)) as Hm.
    pose proof (decrement_is_add_stock item (products db) Hu) as Hd.
    pose proof (unique_ids_update_one (Tasks.in_stock_for item)
                  (- Product.quantity item) (products db)) as Hu'.
    destruct (update_one _ _ (products db)) as [ps n]. cbn [fst snd] in *.
    destruct (existsb (Tasks.in_stock_for item) (products db)) eqn:He;
      subst n; cbn in Hs; inversion Hs; subst; clear Hs.
    + split; [|exact I]. cbn. repeat split; auto.
      * rewrite <- app_assoc. reflexivity.
      * congruence.
      * rewrite rollback_snoc, (Hd eq_refl), rollback_add_stock.
        rewrite add_stock_inverse. exact Hr.
    + split; [|exact I]. cbn. repeat split; eauto.
  - inversion Hs; subst. cbn. auto.
  - destruct utp; inversion Hs; subst; cbn; auto.
  - inversion Hs; subst. cbn. auto.
Qed.

Lemma reserving_from_run (db0 : Store) (oid : string)
      (items0 : list Product.t) (n : nat) :
  forall (db db' : Store) (w w' : Tasks.worker),
    reserving_from db0 oid items0 db w ->
    match w with Tasks.Fetch _ => False | _ => True end ->
    Tasks.run n db w = (db', w') ->
    reserving_from db0 oid items0 db' w'.
Proof.
  induction n as [|n IH]; intros db db' w w' Hinv Hw Hr; cbn in Hr.
  - inversion Hr; subst. exact Hinv.
  - destruct (Tasks.step db w) as [db1 w1] eqn:E.
    destruct (reserving_from_step _ _ _ _ _ _ _ Hinv Hw E) as [H1 H2].
    exact (IH _ _ _ _ H1 H2 Hr).
Qed.

Lemma find_set_status (oid : string) (s : OrderStatus.t)
      (os : list OrderHistoryItem.t) :
  find_one (Orders.order_is oid) (Tasks.set_status oid s os)
  = option_map (OrderHistoryItem.set_status s)
               (find_one (Orders.order_is oid) os).
Proof. unfold Tasks.set_status, find_one. apply find_update_one. reflexivity. Qed.

Lemma reserve_order_history (oid : string) (todo : list Product.t) :
  forall (db : Store) (utp : list Product.t),
  exists s,
    (s = OrderStatus.COMPLETED \/ s = OrderStatus.FAILED)
    /\ order_history (fst (Tasks.reserve db oid todo utp))
       = Tasks.set_status oid s (order_history db).
Proof.
  induction todo as [|item rest IH]; intros db utp; cbn [Tasks.reserve].
  - exists OrderStatus.COMPLETED. auto.
  - destruct (update_one _ _ (products db)) as [ps n].
    destruct (n =? 0).
    + exists OrderStatus.FAILED. auto.
    + destruct (IH (set_products ps db) (utp ++ [item])) as (s & Hs & E).
      exists s. auto.
Qed.

(** Run without interruption, the worker either leaves the store as it
    is or takes a [paid] order to [completed] or [failed]. *)
Lemma process_order_status_forward (db : Store) (oid : string) :
  fst (Tasks.process_order db oid) = db
  \/ (status_of db oid = Some OrderStatus.PAID
      /\ exists s,
          (s = OrderStatus.COMPLETED \/ s = OrderStatus.FAILED)
          /\ order_history (fst (Tasks.process_order db oid))
             = Tasks.set_status oid s (order_history db)
          /\ status_of (fst (Tasks.process_order db oid)) oid = Some s).
Proof.
  unfold Tasks.process_order.
  destruct (find_one _ _) as [o|] eqn:Hf; [|auto].
  destruct (OrderStatus.eqb _ _) eqn:Hs; cbn [negb]; [|auto].
  destruct (OrderHistoryItem.model_validate o) as [o'|msg]; [|auto].
  right. split.
  - unfold status_of. rewrite Hf. cbn.
    destruct (OrderHistoryItem.status o); try discriminate; reflexivity.
  - destruct (reserve_order_history oid (OrderHistoryItem.items o') db [])
      as (s & Hs' & E).
    exists s. repeat split; [exact Hs'|exact E|].
    unfold status_of. rewrite E, find_set_status, Hf. reflexivity.
Qed.

End TasksFacts.

(* ================================================================== *)
(** ** The engine *)
(* ================================================================== *)

Module EngineFacts.

Lemma cart_operation_products (db : Store) (user : TokenData.t)
      (request : CartOpRequest.t) :
  products (fst (Cart.cart_operation db user request)) = products db
  /\ order_history (fst (Cart.cart_operation db user request))
     = order_history db.
Proof.
  unfold Cart.cart_operation.
  destruct (find_one _ (products db)); [|auto].
  destruct (_ && _); [auto|].
  destruct (_ && _); [auto|].
  destruct (Cart.execute _ _ _ _ _) as [cs|]; [|auto].
  destruct (find_one _ cs); auto.
Qed.

Lemma checkout_products (settings : Orders.Settings)
      (render_svg : string -> string)
      (post : Orders.HttpPost -> Orders.ProviderOutcome)
      (db : Store) (user : TokenData.t) (p : CheckoutPayload.t)
      (oid : string) (now : Z) :
  products (fst (Orders.initiate_checkout_and_generate_qr
                   settings render_svg post db user p oid now))
  = products db.
Proof.
  unfold Orders.initiate_checkout_and_generate_qr.
  destruct (CheckoutFacts.checkout_begin_cases settings db user p oid now)
    as [[r ->]|(_ & _ & _ & ->)]; reflexivity.
Qed.

Lemma handle_products (secret : string)
      (mac : string -> VietQRWebhookPayload.t -> string)
      (db : Store) (queue : list string) (payload : VietQRWebhookPayload.t) :
  products (fst (fst (PaymentConfirmation.handle secret mac db queue payload)))
  = products db.
Proof.
  unfold PaymentConfirmation.handle.
  destruct (negb _); [reflexivity|].
  destruct (find_one _ _); [|reflexivity].
  destruct (negb _); [reflexivity|].
  destruct (negb _); [reflexivity|].
  destruct (VietQRWebhookPayload.state payload); reflexivity.
Qed.

Lemma guarded_change_refl (ps : list Product.t) :
  Forall2 guarded_change ps ps.
Proof. induction ps; constructor; auto. unfold guarded_change. intros; lia. Qed.

Lemma step_worker_invariant (ws : list Tasks.worker) :
  forall (i : nat) (db db' : Store) (ws' : list Tasks.worker),
    Engine.step_worker db ws i = (db', ws') ->
    stock_nonneg (products db) = true -> forallb worker_ok ws = true ->
    stock_nonneg (products db') = true
    /\ forallb worker_ok ws' = true
    /\ Forall2 guarded_change (products db) (products db').
Proof.
  induction ws as [|w ws IH]; intros i db db' ws' Hs Hdb Hws.
  - destruct i; inversion Hs; subst; auto using guarded_change_refl.
  - cbn in Hws. apply andb_true_iff in Hws as [Hw Hws].
    destruct i as [|i]; cbn [Engine.step_worker] in Hs.
    + destruct (Tasks.step db w) as [db1 w1] eqn:E. inversion Hs; subst.
      destruct (TasksFacts.worker_step_invariant _ _ _ _ E Hdb Hw) as [H1 H2].
      cbn. rewrite H2, Hws. repeat split; auto.
      exact (TasksFacts.step_decrements_guarded _ _ _ _ E Hw).
    + destruct (Engine.step_worker db ws i) as [db1 ws1] eqn:E.
      inversion Hs; subst.
      destruct (IH _ _ _ _ E Hdb Hws) as (H1 & H2 & H3).
      cbn. rewrite Hw, H2. auto.
Qed.

Section Step.
Variable settings : Orders.Settings.
Variable render_svg : string -> string.
Variable secret : string.
Variable mac : string -> VietQRWebhookPayload.t -> string.

Let step := Engine.step settings render_svg secret mac.

(** Only a worker step touches the catalog. *)
Lemma step_products (s : Engine.t) (e : Engine.event) :
  is_worker_step e = false ->
  products (Engine.store (step s e)) = products (Engine.store s)
  /\ Engine.workers (step s e) = Engine.workers s
     \/ exists oid, Engine.workers (step s e)
                    = Engine.workers s ++ [Tasks.Fetch oid]
                    /\ products (Engine.store (step s e))
                       = products (Engine.store s).
Proof.
  intros He. destruct e; try discriminate; cbn.
  - left. split; [apply cart_operation_products|reflexivity].
  - left. split; [apply checkout_products|reflexivity].
  - left. pose proof (handle_products secret mac (Engine.store s)
                        (Engine.queue s) payload) as H.
    destruct (PaymentConfirmation.handle _ _ _ _ _) as [[db q] v].
    cbn in *. auto.
  - destruct (nth_error _ _); cbn; eauto.
Qed.

Lemma engine_step_invariant (s : Engine.t) (e : Engine.event) :
  stock_nonneg (products (Engine.store s)) = true ->
  forallb worker_ok (Engine.workers s) = true ->
  stock_nonneg (products (Engine.store (step s e))) = true
  /\ forallb worker_ok (Engine.workers (step s e)) = true
  /\ Forall2 guarded_change (products (Engine.store s))
                            (products (Engine.store (step s e))).
Proof.
  intros Hdb Hws. destruct (is_worker_step e) eqn:He.
  - destruct e; try discriminate. cbn.
    destruct (Engine.step_worker _ _ _) as [db ws] eqn:E. cbn.
    exact (step_worker_invariant _ _ _ _ _ E Hdb Hws).
  - destruct (step_products s e He) as [[Hp Hw]|[oid [Hw Hp]]];
      rewrite Hp, Hw; repeat split; auto using guarded_change_refl.
    rewrite forallb_app, Hws. reflexivity.
Qed.

Lemma states_invariant (es : list Engine.event) :
  forall s : Engine.t,
    stock_nonneg (products (Engine.store s)) = true ->
    forallb worker_ok (Engine.workers s) = true ->
    Forall
      (fun s' =>
         stock_nonneg (products (Engine.store s')) = true
         /\ forall e, Forall2 guarded_change
                        (products (Engine.store s'))
                        (products (Engine.store (step s' e))))
      (Engine.states settings render_svg secret mac s es).
Proof.
  induction es as [|e es IH]; intros s Hdb Hws; cbn [Engine.states].
  - constructor; [|constructor]. split; [exact Hdb|].
    intros e. apply engine_step_invariant; assumption.
  - constructor.
    + split; [exact Hdb|]. intros e'. apply engine_step_invariant; assumption.
    + destruct (engine_step_invariant s e Hdb Hws) as (H1 & H2 & _).
      apply IH; assumption.
Qed.
End Step.

End EngineFacts.

(* ================================================================== *)
(** ** The cart *)
(* ================================================================== *)

Module CartFacts.

Lemma find_none_existsb {A : Type} (f : A -> bool) (l : list A) :
  find f l = None -> existsb f l = false.
Proof.
  induction l as [|a l IH]; cbn; [reflexivity|].
  destruct (f a); [discriminate|exact IH].
Qed.

Lemma find_some_existsb {A : Type} (f : A -> bool) (l : list A) (a : A) :
  find f l = Some a -> existsb f l = true.
Proof.
  intros H. apply find_some in H as [Hin Hf].
  apply existsb_exists. eauto.
Qed.

Lemma existsb_filter_false {A : Type} (f g : A -> bool) (l : list A) :
  existsb f l = false -> existsb f (filter g l) = false.
Proof.
  induction l as [|a l IH]; cbn; [reflexivity|]. intros H.
  apply orb_false_iff in H as [Ha Hl]. destruct (g a); cbn; [rewrite Ha|]; auto.
Qed.

(** *** [$inc] on a line *)

Lemma existsb_inc_line (x b : string) (delta : Z) (ls : list CartLine.t) :
  existsb (Cart.line_is x) (Cart.inc_line b delta ls)
  = existsb (Cart.line_is x) ls.
Proof.
  induction ls as [|l ls IH]; cbn; [reflexivity|].
  destruct (Cart.line_is b l); cbn; [reflexivity|]. rewrite IH. reflexivity.
Qed.

Lemma unique_inc_line (b : string) (delta : Z) (ls : list CartLine.t) :
  unique_barcodes (Cart.inc_line b delta ls) = unique_barcodes ls.
Proof.
  induction ls as [|l ls IH]; cbn; [reflexivity|].
  destruct (Cart.line_is b l); cbn; [reflexivity|].
  rewrite existsb_inc_line, IH. reflexivity.
Qed.

Lemma positive_inc_line (b : string) (delta : Z) (ls : list CartLine.t)
      (item : CartLine.t) :
  positive_lines ls = true ->
  find (Cart.line_is b) ls = Some item ->
  0 < CartLine.quantity item + delta ->
  positive_lines (Cart.inc_line b delta ls) = true.
Proof.
  induction ls as [|l ls IH]; cbn; [discriminate|]. intros Hp Hf Hq.
  apply andb_true_iff in Hp as [Hl Hls].
  destruct (Cart.line_is b l); cbn.
  - inversion Hf; subst. rewrite Hls. apply Z.ltb_lt in Hq. rewrite Hq. reflexivity.
  - rewrite Hl. apply IH; assumption.
Qed.

(** *** [$pull] of a barcode *)

Lemma unique_pull_lines (b : string) (ls : list CartLine.t) :
  unique_barcodes ls = true -> unique_barcodes (Cart.pull_lines b ls) = true.
Proof.
  unfold Cart.pull_lines. induction ls as [|l ls IH]; cbn; [reflexivity|].
  intros H. apply andb_true_iff in H as [Hl Hls].
  destruct (negb (Cart.line_is b l)); cbn; [|auto].
  rewrite (IH Hls), andb_true_r. apply negb_true_iff.
  apply existsb_filter_false. apply negb_true_iff, Hl.
Qed.

Lemma positive_pull_lines (b : string) (ls : list CartLine.t) :
  positive_lines ls = true -> positive_lines (Cart.pull_lines b ls) = true.
Proof.
  unfold positive_lines, Cart.pull_lines. rewrite !forallb_forall.
  intros H l Hin. apply filter_In in Hin as [Hin _]. auto.
Qed.

Lemma find_pull_lines (b : string) (ls : list CartLine.t) :
  find (Cart.line_is b) (Cart.pull_lines b ls) = None.
Proof.
  unfold Cart.pull_lines. induction ls as [|l ls IH]; cbn; [reflexivity|].
  destruct (Cart.line_is b l) eqn:E; cbn; [exact IH|]. rewrite E. exact IH.
Qed.

(** *** [$push] of a new line *)

Lemma unique_push_line (l : CartLine.t) (ls : list CartLine.t) :
  unique_barcodes ls = true ->
  existsb (Cart.line_is (CartLine.barcode l)) ls = false ->
  unique_barcodes (Cart.push_line l ls) = true.
Proof.
  unfold Cart.push_line. induction ls as [|h ls IH]; cbn; [reflexivity|].
  intros Hu He. apply andb_true_iff in Hu as [Hh Hu].
  apply orb_false_iff in He as [Hl He].
  rewrite (IH Hu He), andb_true_r. rewrite existsb_app. cbn.
  apply negb_true_iff in Hh. rewrite Hh. cbn. rewrite orb_false_r.
  unfold Cart.line_is in *. rewrite String.eqb_sym, Hl. reflexivity.
Qed.

Lemma positive_push_line (l : CartLine.t) (ls : list CartLine.t) :
  positive_lines ls = true -> 0 < CartLine.quantity l ->
  positive_lines (Cart.push_line l ls) = true.
Proof.
  unfold positive_lines, Cart.push_line. intros H Hq.
  rewrite forallb_app, H. cbn. apply Z.ltb_lt in Hq. rewrite Hq. reflexivity.
Qed.

(** *** Which document an update reaches *)

Lemma find_owned_with_line (u b : string) (cs : list CartDoc.t) (c : CartDoc.t) :
  find (Cart.owned_by u) cs = Some c ->
  existsb (Cart.line_is b) (CartDoc.items c) = true ->
  find (Cart.owned_with_line u b) cs = Some c.
Proof.
  induction cs as [|d cs IH]; cbn; [discriminate|]. intros Hf He.
  unfold Cart.owned_with_line at 1.
  destruct (Cart.owned_by u d) eqn:Hd; cbn.
  - inversion Hf; subst. rewrite He. reflexivity.
  - apply IH; assumption.
Qed.

Lemma find_on_items (u : string) (f : list CartLine.t -> list CartLine.t)
      (cs : list CartDoc.t) :
  find (Cart.owned_by u) (fst (update_one (Cart.owned_by u) (Cart.on_items f) cs))
  = option_map (Cart.on_items f) (find (Cart.owned_by u) cs).
Proof. apply find_update_one. reflexivity. Qed.

Lemma carts_ok_snoc (cs : list CartDoc.t) (c : CartDoc.t) :
  carts_ok cs = true -> cart_ok c = true -> carts_ok (cs ++ [c]) = true.
Proof.
  unfold carts_ok. intros H Hc. rewrite forallb_app, H. cbn. rewrite Hc.
  reflexivity.
Qed.

Lemma carts_ok_find (f : CartDoc.t -> bool) (cs : list CartDoc.t) (c : CartDoc.t) :
  carts_ok cs = true -> find f cs = Some c ->
  unique_barcodes (CartDoc.items c) = true
  /\ positive_lines (CartDoc.items c) = true.
Proof.
  unfold carts_ok. intros H Hf. apply find_some in Hf as [Hin _].
  rewrite forallb_forall in H. specialize (H c Hin).
  unfold cart_ok in H. apply andb_true_iff in H. exact H.
Qed.

Lemma cart_ok_on_items (f : list CartLine.t -> list CartLine.t)
      (c : CartDoc.t) :
  unique_barcodes (f (CartDoc.items c)) = true ->
  positive_lines (f (CartDoc.items c)) = true ->
  cart_ok (Cart.on_items f c) = true.
Proof.
  intros Hu Hp. unfold cart_ok, Cart.on_items, CartDoc.set_items.
  cbn [CartDoc.items]. rewrite Hu, Hp. reflexivity.
Qed.

(** The lines read at step 2 of the handler. *)
Lemma lines_of_find (cs : list CartDoc.t) (u : string) :
  match find_one (Cart.owned_by u) cs with
  | Some user_cart => CartDoc.items user_cart
  | None => []
  end = lines_of cs u.
Proof. reflexivity. Qed.

(** Step 4 keeps the invariant, given what steps 2 and 3 established. *)
Lemma execute_carts_ok (cs cs' : list CartDoc.t) (u : string)
      (request : CartOpRequest.t) (product : Product.t) :
  carts_ok cs = true ->
  0 < CartOpRequest.quantity request ->
  (CartOpRequest.action request = "remove" ->
   forall item,
     find (Cart.line_is (CartOpRequest.barcode request)) (lines_of cs u)
     = Some item ->
     CartOpRequest.quantity request <= CartLine.quantity item) ->
  Cart.execute cs u request product
               (find (Cart.line_is (CartOpRequest.barcode request)) (lines_of cs u))
  = Some cs' ->
  carts_ok cs' = true.
Proof.
  intros Hok Hq Hrem. unfold Cart.execute, lines_of, find_one.
  set (b := CartOpRequest.barcode request) in *.
  set (q := CartOpRequest.quantity request) in *.
  destruct (String.eqb (CartOpRequest.action request) "add") eqn:Hadd.
  - (* add *)
    destruct (find (Cart.owned_by u) cs) as [c|] eqn:Hc.
    + destruct (carts_ok_find _ _ _ Hok Hc) as [Hu Hp].
      destruct (find (Cart.line_is b) (CartDoc.items c)) as [item|] eqn:Hi;
        intros H; inversion H; subst cs'; clear H.
      * (* the line exists: $inc *)
        apply update_one_forallb; [exact Hok|].
        intros d Hd _.
        rewrite (find_owned_with_line u b cs c Hc (find_some_existsb _ _ _ Hi))
          in Hd. inversion Hd; subst d.
        apply cart_ok_on_items; [rewrite unique_inc_line; exact Hu|].
        apply (positive_inc_line b q _ item Hp Hi).
        unfold positive_lines in Hp. rewrite forallb_forall in Hp.
        apply find_some in Hi as [Hin _]. specialize (Hp _ Hin).
        apply Z.ltb_lt in Hp. lia.
      * (* no such line: $push *)
        unfold update_one_upsert.
        pose proof (update_one_matched (Cart.owned_by u)
                      (Cart.on_items
                         (Cart.push_line
                            (CartLine.mk b (Product.name product)
                                         (Product.price product) q))) cs) as Hm.
        pose proof (update_one_forallb cart_ok (Cart.owned_by u)
                      (Cart.on_items
                         (Cart.push_line
                            (CartLine.mk b (Product.name product)
                                         (Product.price product) q))) cs Hok)
          as Hf.
        destruct (update_one _ _ cs) as [cs1 n]. cbn [fst snd] in *.
        rewrite (find_some_existsb _ _ _ Hc) in Hm. subst n. cbn.
        apply Hf. intros d Hd _. rewrite Hc in Hd. inversion Hd; subst d.
        apply cart_ok_on_items.
        -- apply unique_push_line; [exact Hu|apply find_none_existsb, Hi].
        -- apply positive_push_line; auto.
    + (* no cart yet: upsert *)
      cbn [find]. intros H. inversion H; subst cs'; clear H.
      unfold update_one_upsert. rewrite (update_one_find_none _ _ _ Hc). cbn.
      apply carts_ok_snoc; [exact Hok|].
      unfold cart_ok. cbn. apply Z.ltb_lt in Hq. fold q. rewrite Hq. reflexivity.
  - destruct (String.eqb (CartOpRequest.action request) "remove") eqn:Hremove;
      [|intros H; inversion H; subst; exact Hok].
    apply String.eqb_eq in Hremove. specialize (Hrem Hremove).
    unfold lines_of, find_one in Hrem.
    destruct (find (Cart.owned_by u) cs) as [c|] eqn:Hc; [|discriminate].
    destruct (carts_ok_find _ _ _ Hok Hc) as [Hu Hp].
    destruct (find (Cart.line_is b) (CartDoc.items c)) as [item|] eqn:Hi;
      [|discriminate].
    specialize (Hrem item eq_refl).
    destruct (Z.eqb_spec (CartLine.quantity item) q) as [Heq|Hne];
      intros H; inversion H; subst cs'; clear H.
    + (* the whole line: $pull *)
      apply update_one_forallb; [exact Hok|].
      intros d Hd _. rewrite Hc in Hd. inversion Hd; subst d.
      apply cart_ok_on_items;
        [apply unique_pull_lines | apply positive_pull_lines]; assumption.
    + (* part of the line: $inc by -q *)
      apply update_one_forallb; [exact Hok|].
      intros d Hd _.
      rewrite (find_owned_with_line u b cs c Hc (find_some_existsb _ _ _ Hi))
        in Hd. inversion Hd; subst d.
      apply cart_ok_on_items; [rewrite unique_inc_line; exact Hu|].
      apply (positive_inc_line b (- q) _ item Hp Hi). lia.
Qed.

(** Every response for a barcode of the catalog carries the item
    count of the user's cart as the handler leaves it. *)
Lemma cart_operation_reports_total (db : Store) (user : TokenData.t)
      (request : CartOpRequest.t) (r : CartOpResponse.t) :
  find_one (Cart.has_barcode (CartOpRequest.barcode request)) (products db)
  <> None ->
  snd (Cart.cart_operation db user request) = Response r ->
  CartOpResponse.cart_total_items r
  = Cart.total_items
      (lines_of (carts (fst (Cart.cart_operation db user request)))
                (TokenData.identity user)).
Proof.
  intros Hp. unfold Cart.cart_operation.
  destruct (find_one _ (products db)) as [product|]; [clear Hp|contradiction].
  rewrite lines_of_find.
  destruct (_ && _); [cbn; intros H; inversion H; reflexivity|].
  destruct (_ && _); [cbn; intros H; inversion H; reflexivity|].
  destruct (Cart.execute _ _ _ _ _) as [cs|]; [|discriminate].
  destruct (find_one _ cs) as [updated_cart|] eqn:Hu; [|discriminate].
  cbn. intros H. inversion H; subst. cbn. unfold lines_of. rewrite Hu.
  reflexivity.
Qed.

End CartFacts.

(* ================================================================== *)
(** ** The payment confirmation *)
(* ================================================================== *)

Module PaymentConfirmationFacts.

(** The conditional status write reaches the order [find_one] returns
    when that order is pending. *)
Lemma find_update_pending (oid : string) (s : OrderStatus.t)
      (os : list OrderHistoryItem.t) (o : OrderHistoryItem.t) :
  find_one (Orders.order_is oid) os = Some o ->
  OrderHistoryItem.status o = OrderStatus.PENDING ->
  find_one (Orders.order_is oid)
           (fst (update_one (PaymentConfirmation.pending_order_is oid)
                            (OrderHistoryItem.set_status s) os))
  = Some (OrderHistoryItem.set_status s o).
Proof.
  unfold find_one. induction os as [|h os IH]; cbn; [discriminate|].
  intros Hf Hs. unfold PaymentConfirmation.pending_order_is at 1.
  destruct (Orders.order_is oid h) eqn:Hh; cbn [andb].
  - inversion Hf; subst h. rewrite Hs. cbn.
    unfold Orders.order_is in *. cbn. rewrite Hh. reflexivity.
  - specialize (IH Hf Hs).
    destruct (update_one _ _ os) as [os' n]. cbn in *. rewrite Hh. exact IH.
Qed.

End PaymentConfirmationFacts.

(** C3. The server recomputes the subtotal as the sum of price x
    quantity over the declared items and the total as subtotal plus
    shipping cost, in decimal arithmetic (the recomputed values are
    those sums whenever no intermediate result needs more than 28
    digits); a request whose declared subtotal or total is 0.01 or more
    away from the recomputed value does not validate, is answered with
    the validation error and leaves the store, and so the order
    collection, as it was.  For one item of price 10.00 and quantity 2
    with shipping 5.00 the server computes 20.00 and 25.00, and a
    declared subtotal of 19.99 is rejected. *)
Theorem checkout_totals_recomputed_and_enforced :
  (forall p : CheckoutPayload.t,
      sums_fit PyDecimal.zero (CheckoutPayload.items p) = true ->
      (PyDecimal.to_Q (CheckoutPayload.calculated_subtotal p)
       == subtotal_Q (CheckoutPayload.items p))%Q
      /\ (PyDecimal.fits
            (PyDecimal.add_exact (exact_subtotal (CheckoutPayload.items p))
                                 (CheckoutPayload.shipping_cost p)) = true ->
          (PyDecimal.to_Q (CheckoutPayload.calculated_total p)
           == subtotal_Q (CheckoutPayload.items p)
              + PyDecimal.to_Q (CheckoutPayload.shipping_cost p))%Q))
  /\ (forall settings render_svg post db user (p : CheckoutPayload.t) oid now,
        (1 # 100 <= Qabs (PyDecimal.to_Q (CheckoutPayload.subtotal p)
                          - PyDecimal.to_Q (CheckoutPayload.calculated_subtotal p))
         \/ 1 # 100 <= Qabs (PyDecimal.to_Q (CheckoutPayload.total_cost p)
                             - PyDecimal.to_Q (CheckoutPayload.calculated_total p)))%Q ->
        (exists msg, CheckoutPayload.model_validate p = ValueError msg)
        /\ fst (Orders.initiate_checkout_and_generate_qr
                  settings render_svg post db user p oid now) = db
        /\ (role_required Orders.allowed_roles user = None ->
            snd (Orders.initiate_checkout_and_generate_qr
                   settings render_svg post db user p oid now)
            = RequestValidationError))
  /\ (CheckoutPayload.calculated_subtotal Sample.ten_times_two
      = PyDecimal.mk 200 (-1)
      /\ CheckoutPayload.calculated_total Sample.ten_times_two
         = PyDecimal.mk 250 (-1)
      /\ CheckoutPayload.model_validate Sample.ten_times_two
         = Valid Sample.ten_times_two
      /\ CheckoutPayload.model_validate Sample.ten_times_two_tampered
         = ValueError "Subtotal mismatch.").
Proof.
  split; [|split].
  - intros p Hfit. pose proof (CheckoutFacts.calculated_subtotal_exact p Hfit) as E.
    split; [rewrite E; apply CheckoutFacts.exact_subtotal_Q|]. intros Hship.
    unfold CheckoutPayload.calculated_total, PyDecimal.add. rewrite E.
    rewrite (PyDecimalFacts.fix_fits _ Hship), PyDecimalFacts.to_Q_add_exact.
    rewrite CheckoutFacts.exact_subtotal_Q. reflexivity.
  - intros settings render_svg post db user p oid now H.
    rewrite <- !CheckoutFacts.far_apart_Q in H.
    destruct (CheckoutFacts.model_validate_far_apart p H) as [msg Hm].
    split; [eauto|].
    apply (CheckoutFacts.checkout_invalid settings render_svg post db user p
             oid now msg Hm).
  - repeat split; vm_compute; reflexivity.
Qed.

Lemma checkout_totals_recomputed_and_enforced_witness :
  fst (Orders.initiate_checkout_and_generate_qr
         Sample.settings (fun data => data) (fun _ => Orders.RequestError)
         Sample.empty_store Sample.shopper Sample.ten_times_two_tampered
         "order-1" 0) = Sample.empty_store.
Proof.
  apply (proj1 (proj2 checkout_totals_recomputed_and_enforced)
           Sample.settings (fun data => data) (fun _ => Orders.RequestError)
           Sample.empty_store Sample.shopper Sample.ten_times_two_tampered
           "order-1" 0).
  left. vm_compute. discriminate.
Defined.

(** C10. When a checkout reaches the provider call, the amount in the
    request is [int(total_cost)], the float total cut to an integer,
    while the order appended to the collection carries the payload,
    and so its [total_cost], as declared.  Below [2 ^ 53] the fraction
    of the total is dropped, not rounded:
    [amount <= total_cost < amount + 1].  From [2 ^ 53] on a float has
    no fraction and the amount is the float itself, which the decimal
    of [str(total_cost)] only approximates: a number [m * 2 ^ k] with
    53 bits in [m], at most half of [2 ^ k] away from that decimal;
    for [1e23] it is [99999999999999991611392]. *)
Theorem checkout_amount_is_truncated_total
        (settings : Orders.Settings) (db db' : Store) (user : TokenData.t)
        (p : CheckoutPayload.t) (oid oid' : string) (now : Z)
        (call : Orders.HttpPost) :
  Orders.checkout_begin settings db user p oid now
  = (db', Orders.AwaitingProvider oid' call) ->
  let amount := VietQRGenerateRequest.amount (Orders.json call) in
  let total := CheckoutPayload.total_cost p in
  amount = PyDecimal.to_int total
  /\ ((PyDecimal.to_Q total < inject_Z (2 ^ 53))%Q ->
      (inject_Z amount <= PyDecimal.to_Q total)%Q
      /\ (PyDecimal.to_Q total < inject_Z amount + 1)%Q)
  /\ ((inject_Z (2 ^ 53) <= PyDecimal.to_Q total)%Q ->
      exists k m,
        1 <= k
        /\ 2 ^ 52 <= m <= 2 ^ 53
        /\ amount = m * 2 ^ k
        /\ (Qabs (inject_Z amount - PyDecimal.to_Q total)
            <= inject_Z (2 ^ (k - 1)))%Q)
  /\ order_history db'
     = order_history db
       ++ [OrderHistoryItem.mk p oid (TokenData.identity user) now
                               OrderStatus.PENDING]
  /\ PyDecimal.to_int (PyDecimal.mk 2599 (-2)) = 25
  /\ PyDecimal.to_int (PyDecimal.mk 1 23) = 99999999999999991611392.
Proof.
  intros Hb.
  destruct (CheckoutFacts.checkout_begin_cases settings db user p oid now)
    as [[r Hr]|(_ & Hv & _ & Heq)]; [congruence|].
  rewrite Heq in Hb. inversion Hb; subst; clear Hb.
  cbn [Orders.json VietQRGenerateRequest.amount].
  apply CheckoutFacts.model_validate_valid in Hv as [_ Hf].
  unfold CheckoutPayload.fields_ok in Hf.
  apply andb_true_iff in Hf as [_ Ht].
  split; [reflexivity|]. split; [|split; [|split; [reflexivity|]]].
  - intros Hlt. change (2 ^ 53) with PyDecimal.two53 in Hlt.
    rewrite <- PyDecimalFacts.to_Q_of_int in Hlt.
    apply PyDecimalFacts.ltb_Qlt in Hlt.
    destruct (CheckoutFacts.to_int_floor _ Ht Hlt) as [Hle Hlt'].
    apply PyDecimalFacts.leb_Qle in Hle. apply PyDecimalFacts.ltb_Qlt in Hlt'.
    rewrite PyDecimalFacts.to_Q_of_int in Hle, Hlt'.
    rewrite inject_Z_plus in Hlt'. split; assumption.
  - intros Hge. change (2 ^ 53) with PyDecimal.two53 in Hge.
    rewrite <- PyDecimalFacts.to_Q_of_int in Hge.
    apply PyDecimalFacts.leb_Qle in Hge.
    destruct (CheckoutFacts.to_int_binary64 _ Hge)
      as (k & m & Hk & Hm & E & Hnear).
    exists k, m. split; [exact Hk|]. split; [exact Hm|]. split; [exact E|].
    apply PyDecimalFacts.leb_Qle in Hnear.
    rewrite PyDecimalFacts.to_Q_abs_exact, PyDecimalFacts.to_Q_sub_exact,
      !PyDecimalFacts.to_Q_of_int in Hnear.
    exact Hnear.
  - split; vm_compute; reflexivity.
Qed.

Lemma checkout_amount_is_truncated_total_witness :
  PyDecimal.to_int (CheckoutPayload.total_cost Sample.with_fraction) = 25
  /\ (inject_Z 25
      <= PyDecimal.to_Q (CheckoutPayload.total_cost Sample.with_fraction))%Q
  /\ (PyDecimal.to_Q (CheckoutPayload.total_cost Sample.with_fraction)
      < inject_Z 25 + 1)%Q.
Proof.
  pose proof (checkout_amount_is_truncated_total
                Sample.settings Sample.empty_store _ Sample.shopper
                Sample.with_fraction "order-1" _ 0 _ eq_refl) as H.
  cbv zeta in H. destruct H as (H1 & H2 & _).
  split; [rewrite <- H1; reflexivity|].
  apply H2. vm_compute. reflexivity.
Defined.

(** C1. Along every sequence of cart operations, checkouts, payment
    notifications, deliveries and worker steps, taken one store call
    at a time and in any interleaving, no product's stock is negative
    at any point; at each point, whatever event comes next, a product
    whose quantity goes down went through the guarded decrement of the
    worker (the filter [quantity >= item.quantity] held on it), and an
    event that is not a worker step leaves the catalog as it was. *)
Theorem stock_never_negative
        (settings : Orders.Settings) (render_svg : string -> string)
        (secret : string) (mac : string -> VietQRWebhookPayload.t -> string)
        (s : Engine.t) (es : list Engine.event) :
  stock_nonneg (products (Engine.store s)) = true ->
  forallb worker_ok (Engine.workers s) = true ->
  Forall
    (fun s' =>
       stock_nonneg (products (Engine.store s')) = true
       /\ (forall e,
             Forall2 guarded_change
                     (products (Engine.store s'))
                     (products (Engine.store
                                  (Engine.step settings render_svg secret mac s' e))))
       /\ (forall e,
             is_worker_step e = false ->
             products (Engine.store
                         (Engine.step settings render_svg secret mac s' e))
             = products (Engine.store s')))
    (Engine.states settings render_svg secret mac s es).
Proof.
  intros Hdb Hws.
  pose proof (EngineFacts.states_invariant settings render_svg secret mac
                es s Hdb Hws) as H.
  eapply Forall_impl; [|exact H].
  intros s' [H1 H2]. repeat split; [exact H1|exact H2|].
  intros e He.
  destruct (EngineFacts.step_products settings render_svg secret mac s' e He)
    as [[Hp _]|[oid [_ Hp]]]; exact Hp.
Qed.

Lemma stock_never_negative_witness :
  Forall (fun s' => stock_nonneg (products (Engine.store s')) = true)
         (Engine.states Sample.settings (fun data => data) "secret" Sample.mac
                        Sample.last_pieces Sample.double_delivery).
Proof.
  eapply Forall_impl;
    [|exact (stock_never_negative
               Sample.settings (fun data => data) "secret" Sample.mac
               Sample.last_pieces Sample.double_delivery eq_refl eq_refl)].
  intros s' H. exact (proj1 H).
Defined.

(** C2. When a worker that runs alone on a paid order sees the guarded
    decrement of a line fail (no product with that id has enough
    stock), the lines it holds in [updates_to_perform] are the lines
    of the order before the failing one, its compensation loop gives
    every one of them back, so that the catalog is what it was before
    the worker started, the order is marked [failed], and the task
    returns the failure that names the failing line.  The products
    have one document per id (the unique index of [ensure_indexes]). *)
Theorem failed_reservation_is_rolled_back
        (db dbn : Store) (oid oid' : string) (n : nat)
        (item : Product.t) (utp : list Product.t) :
  unique_ids (products db) = true ->
  Tasks.run n db (Tasks.Fetch oid) = (dbn, Tasks.MarkingFailed oid' item utp) ->
  let db' := set_order_history
               (Tasks.set_status oid OrderStatus.FAILED (order_history db)) db in
  status_of db oid = Some OrderStatus.PAID
  /\ (exists order rest,
        find_one (Orders.order_is oid) (order_history db) = Some order
        /\ OrderHistoryItem.items order = utp ++ item :: rest)
  /\ existsb (Tasks.in_stock_for item) (products dbn) = false
  /\ Tasks.rollback (products dbn) utp = products db
  /\ Tasks.run (n + (List.length utp + 2)) db (Tasks.Fetch oid)
     = (db', Tasks.Done (Tasks.insufficient item))
  /\ Tasks.process_order db oid = (db', Tasks.insufficient item)
  /\ products db' = products db
  /\ status_of db' oid = Some OrderStatus.FAILED.
Proof.
  intros Hu Hrun db'.
  destruct n as [|n]; [discriminate|]. cbn [Tasks.run Tasks.step] in Hrun.
  destruct (find_one (Orders.order_is oid) (order_history db)) as [o|] eqn:Hf;
    [|rewrite TasksFacts.run_done in Hrun; discriminate].
  destruct (OrderStatus.eqb (OrderHistoryItem.status o) OrderStatus.PAID) eqn:Hs;
    cbn [negb] in Hrun; [|rewrite TasksFacts.run_done in Hrun; discriminate].
  destruct (OrderHistoryItem.model_validate o) as [o'|msg] eqn:Hv;
    [|rewrite TasksFacts.run_done in Hrun; discriminate].
  destruct (TasksFacts.order_validate_valid _ _ Hv) as [-> _].
  assert (Hinv : reserving_from db oid (OrderHistoryItem.items o) dbn
                   (Tasks.MarkingFailed oid' item utp)).
  { eapply TasksFacts.reserving_from_run; [| |exact Hrun]; [|exact I].
    cbn. repeat split; auto. }
  destruct Hinv as (-> & [rest Hrest] & (Hoh & Hc & _ & Hr) & He).
  assert (Hend : Tasks.run (S n + (List.length utp + 2)) db (Tasks.Fetch oid)
                 = (db', Tasks.Done (Tasks.insufficient item))).
  { rewrite TasksFacts.run_add.
    assert (Tasks.run (S n) db (Tasks.Fetch oid)
            = (dbn, Tasks.MarkingFailed oid item utp)) as ->.
    { cbn [Tasks.run Tasks.step]. rewrite Hf, Hs. cbn [negb].
      rewrite Hv. exact Hrun. }
    rewrite TasksFacts.marking_failed_run. rewrite Hr, Hoh. subst db'.
    destruct db, dbn. cbn in *. subst. reflexivity. }
  assert (Hst : OrderHistoryItem.status o = OrderStatus.PAID)
    by (destruct (OrderHistoryItem.status o); try discriminate; reflexivity).
  repeat split.
  - unfold status_of. rewrite Hf. cbn. rewrite Hst. reflexivity.
  - exists o, rest. auto.
  - exact He.
  - exact Hr.
  - exact Hend.
  - destruct (TasksFacts.process_order_run db oid) as [k Hk].
    destruct (TasksFacts.run_done_unique _ _ _ _ _ _ _ _ Hk Hend) as [E1 E2].
    destruct (Tasks.process_order db oid) as [d r]. cbn in *. congruence.
  - unfold status_of. subst db'. cbn [order_history set_order_history].
    rewrite TasksFacts.find_set_status, Hf. reflexivity.
Qed.

Lemma failed_reservation_is_rolled_back_witness :
  Tasks.process_order Sample.short_of_noodles "order-1"
  = (set_order_history
       (Tasks.set_status "order-1" OrderStatus.FAILED
                         (order_history Sample.short_of_noodles))
       Sample.short_of_noodles,
     Tasks.insufficient (Sample.noodles 3)).
Proof.
  exact (proj1 (proj2 (proj2 (proj2 (proj2 (proj2
           (failed_reservation_is_rolled_back
              Sample.short_of_noodles
              (mkStore [Sample.chips 5; Sample.noodles 2] []
                       (order_history Sample.short_of_noodles))
              "order-1" "order-1" 3 (Sample.noodles 3) [Sample.chips 5]
              eq_refl eq_refl))))))).
Defined.

(** C5. When the order is absent or its status is not [paid], the
    worker changes nothing in the store, neither stock nor status, and
    returns (it does not raise); this is so at its first store call.
    Run again on the store it has left, it does the same. *)
Theorem process_order_noop_unless_paid (db : Store) (oid : string) :
  status_of db oid <> Some OrderStatus.PAID ->
  Tasks.process_order db oid = (db, Tasks.not_paid)
  /\ Tasks.step db (Tasks.Fetch oid) = (db, Tasks.Done Tasks.not_paid)
  /\ Tasks.process_order (fst (Tasks.process_order db oid)) oid
     = (db, Tasks.not_paid).
Proof.
  intros H.
  assert (E : Tasks.process_order db oid = (db, Tasks.not_paid)
              /\ Tasks.step db (Tasks.Fetch oid) = (db, Tasks.Done Tasks.not_paid)).
  { unfold Tasks.process_order, status_of in *. cbn [Tasks.step].
    destruct (find_one _ _) as [o|]; [|auto]. cbn [option_map] in H.
    destruct (OrderStatus.eqb (OrderHistoryItem.status o) OrderStatus.PAID)
      eqn:Hs; cbn [negb]; [|auto].
    exfalso. apply H. f_equal.
    destruct (OrderHistoryItem.status o); try discriminate; reflexivity. }
  destruct E as [E1 E2]. rewrite E1. cbn [fst]. auto.
Qed.

Lemma process_order_noop_unless_paid_witness :
  Tasks.process_order
    (fst (Tasks.process_order Sample.already_completed "order-1")) "order-1"
  = (Sample.already_completed, Tasks.not_paid).
Proof.
  apply (process_order_noop_unless_paid Sample.already_completed "order-1").
  discriminate.
Defined.

(** C8. A cart operation with a well-formed request ([action] is
    [add] or [remove], [quantity > 0]) keeps the cart invariant: every
    cart document has at most one line per barcode and only lines of
    positive quantity.  A [remove] of exactly the quantity of the line
    succeeds and leaves no line with that barcode in the user's cart. *)
Theorem cart_operation_keeps_cart_invariant
        (db : Store) (user : TokenData.t) (request : CartOpRequest.t) :
  carts_ok (carts db) = true ->
  CartOpRequest.well_formed request ->
  let u := TokenData.identity user in
  let b := CartOpRequest.barcode request in
  let db' := fst (Cart.cart_operation db user request) in
  carts_ok (carts db') = true
  /\ (forall line,
        CartOpRequest.action request = "remove" ->
        find_one (Cart.has_barcode b) (products db) <> None ->
        line_of (carts db) u b = Some line ->
        CartLine.quantity line = CartOpRequest.quantity request ->
        line_of (carts db') u b = None
        /\ exists r, snd (Cart.cart_operation db user request) = Response r
                     /\ CartOpResponse.success r = true).
Proof.
  intros Hok [Hact Hq] u b db'. split.
  - subst db'. unfold Cart.cart_operation.
    destruct (find_one _ (products db)) as [product|]; [|exact Hok].
    rewrite CartFacts.lines_of_find. fold u b.
    destruct (_ && _); [exact Hok|].
    destruct (negb _ && _ && _) eqn:Hc2; [exact Hok|].
    destruct (Cart.execute _ _ _ _ _) as [cs|] eqn:He; [|exact Hok].
    assert (Hcs : carts_ok cs = true).
    { apply (CartFacts.execute_carts_ok (carts db) cs u request product Hok Hq);
        [|exact He].
      intros Hrem item Hitem. fold b in Hitem. rewrite Hitem, Hrem in Hc2.
      cbn in Hc2. apply Z.ltb_ge in Hc2. exact Hc2. }
    destruct (find_one _ cs); exact Hcs.
  - intros line Hrem Hprod Hline Hqty. subst db'.
    unfold Cart.cart_operation.
    destruct (find_one _ (products db)) as [product|]; [|contradiction].
    rewrite CartFacts.lines_of_find. fold u b.
    unfold line_of in Hline.
    destruct (find_one (Cart.owned_by u) (carts db)) as [c|] eqn:Hc;
      [|discriminate].
    assert (Hl : lines_of (carts db) u = CartDoc.items c)
      by (unfold lines_of; rewrite Hc; reflexivity).
    rewrite Hl, Hline. unfold Cart.execute. fold b. rewrite Hrem. cbn [String.eqb
      Ascii.eqb Bool.eqb andb negb].
    rewrite Hqty, Z.ltb_irrefl, Z.eqb_refl.
    pose proof (CartFacts.find_on_items u (Cart.pull_lines b) (carts db)) as Hf.
    unfold find_one in *. rewrite Hc in Hf. cbn [option_map] in Hf.
    rewrite Hf. cbn [fst snd carts set_carts]. split.
    + unfold line_of, find_one. rewrite Hf. cbn.
      apply CartFacts.find_pull_lines.
    + eexists. split; reflexivity.
Qed.

Lemma cart_operation_keeps_cart_invariant_witness :
  carts_ok (carts (fst (Cart.cart_operation Sample.one_line_cart Sample.shopper
                                            Sample.remove_two_chips))) = true
  /\ line_of (carts (fst (Cart.cart_operation Sample.one_line_cart
                             Sample.shopper Sample.remove_two_chips)))
             "CARD123" "8850718820634" = None.
Proof.
  pose proof (cart_operation_keeps_cart_invariant
                Sample.one_line_cart Sample.shopper Sample.remove_two_chips
                eq_refl (conj (or_intror eq_refl) eq_refl)) as [H1 H2].
  split; [exact H1|].
  apply (H2 (CartLine.mk "8850718820634" "Lay stax original yellow 150g"
                         (PyDecimal.mk 100 (-1)) 2));
    [reflexivity|discriminate|reflexivity|reflexivity].
Defined.

(** C9. For a barcode that is not in the catalog the handler answers
    with [cart_total_items = 0] whatever the cart holds: here the cart
    of the user has one line of two pieces. *)
Theorem unknown_barcode_reports_zero_items :
  Cart.cart_operation Sample.one_line_cart Sample.shopper Sample.add_unknown
  = (Sample.one_line_cart,
     Response (CartOpResponse.mk false "Unknown barcode: 0000000000000" 0))
  /\ Cart.total_items
       (lines_of (carts Sample.one_line_cart)
                 (TokenData.identity Sample.shopper)) = 2.
Proof. split; reflexivity. Qed.

(** C7. A checkout that has stored its pending order and whose
    provider call ends in an HTTP error status raises
    [httpx.HTTPStatusError] past the [except httpx.RequestError]
    clause: the caller gets the 500 of an uncaught exception, not a
    503, and the pending order stays in the store.  A transport error
    on the same request is answered 503. *)
Theorem checkout_http_status_error_is_uncaught
        (settings : Orders.Settings) (render_svg : string -> string) :
  Orders.initiate_checkout_and_generate_qr
    settings render_svg (fun _ => Orders.HTTPStatusError)
    Sample.empty_store Sample.shopper Sample.ten_times_two
    "order-1" 1700000000
  = (mkStore [] [] [Sample.pending_ten_times_two], Uncaught)
  /\ Orders.initiate_checkout_and_generate_qr
       settings render_svg (fun _ => Orders.RequestError)
       Sample.empty_store Sample.shopper Sample.ten_times_two
       "order-1" 1700000000
     = (mkStore [] [] [Sample.pending_ten_times_two],
        HTTPException HTTP_503_SERVICE_UNAVAILABLE
                      "Could not connect to the payment QR service.").
Proof. split; reflexivity. Qed.

(** C4. The same message delivered to two workers, whose store calls
    interleave.  Both read the order while it is [paid].  With one
    piece of each product in stock, one worker finds no stock and
    writes [failed], and the other goes on and writes [completed] over
    it: the order leaves the terminal state [failed].  With two pieces
    of each in stock, both workers reserve the lines and both write
    [completed]: both transitions succeed and the stock of one order is
    taken twice.  The status writes of [process_order] filter on
    [order_id] alone. *)
Theorem double_delivery_overwrites_failed_order :
  let trace := Engine.states Sample.settings (fun data => data) "secret"
                             Sample.mac Sample.last_pieces
                             Sample.double_delivery in
  let trace' := Engine.states Sample.settings (fun data => data) "secret"
                              Sample.mac Sample.two_pieces_each
                              Sample.taking_turns in
  map (fun s => status_of (Engine.store s) "order-1") trace
  = [Some OrderStatus.PAID; Some OrderStatus.PAID; Some OrderStatus.PAID;
     Some OrderStatus.PAID; Some OrderStatus.PAID; Some OrderStatus.PAID;
     Some OrderStatus.PAID;
     Some OrderStatus.FAILED; Some OrderStatus.FAILED; Some OrderStatus.FAILED;
     Some OrderStatus.COMPLETED]
  /\ Orders.get_order_status (Engine.store (nth 7 trace Sample.last_pieces))
                             "order-1"
     = Response ("order-1", OrderStatus.FAILED)
  /\ Orders.get_order_status (Engine.store (last trace Sample.last_pieces))
                             "order-1"
     = Response ("order-1", OrderStatus.COMPLETED)
  /\ Engine.workers (last trace Sample.last_pieces)
     = [Tasks.Done Tasks.completed;
        Tasks.Done (Tasks.insufficient (Sample.chips 1))]
  /\ products (Engine.store (last trace Sample.last_pieces))
     = [Sample.chips 0; Sample.noodles 0]
  /\ Engine.workers (last trace' Sample.two_pieces_each)
     = [Tasks.Done Tasks.completed; Tasks.Done Tasks.completed]
  /\ products (Engine.store (last trace' Sample.two_pieces_each))
     = [Sample.chips 0; Sample.noodles 0].
Proof. repeat split; vm_compute; reflexivity. Qed.

(** C6. The handler checks the signature against the shared secret
    before anything else, and a notification that does not verify
    changes nothing.  A verified [SUCCESS] for a [pending] order with
    the expected amount moves that order to [paid], leaves the rest of
    the store alone and appends its [order_id] to the work queue.  An
    unknown [order_id], an order that is not [pending] or a wrong
    amount is rejected with store and queue unchanged. *)
Theorem payment_confirmation_handler
        (secret : string) (mac : string -> VietQRWebhookPayload.t -> string)
        (db : Store) (queue : list string) (payload : VietQRWebhookPayload.t) :
  let oid := VietQRWebhookPayload.referenceId payload in
  (PaymentConfirmation.verified secret mac payload = false ->
   PaymentConfirmation.handle secret mac db queue payload
   = (db, queue, PaymentConfirmation.Rejected))
  /\ (forall order,
        PaymentConfirmation.verified secret mac payload = true ->
        find_one (Orders.order_is oid) (order_history db) = Some order ->
        OrderHistoryItem.status order = OrderStatus.PENDING ->
        VietQRWebhookPayload.amount payload
        = PaymentConfirmation.expected_amount order ->
        VietQRWebhookPayload.state payload = VietQRTransactionState.SUCCESS ->
        exists db',
          PaymentConfirmation.handle secret mac db queue payload
          = (db', queue ++ [oid], PaymentConfirmation.Confirmed)
          /\ status_of db' oid = Some OrderStatus.PAID
          /\ products db' = products db
          /\ carts db' = carts db)
  /\ (status_of db oid <> Some OrderStatus.PENDING
      \/ (exists order,
             find_one (Orders.order_is oid) (order_history db) = Some order
             /\ VietQRWebhookPayload.amount payload
                <> PaymentConfirmation.expected_amount order) ->
      PaymentConfirmation.handle secret mac db queue payload
      = (db, queue, PaymentConfirmation.Rejected)).
Proof.
  intros oid. unfold PaymentConfirmation.handle. fold oid. repeat split.
  - intros ->. reflexivity.
  - intros order -> Hf Hs Ha Hst. rewrite Hf, Hs, Ha, Hst, Z.eqb_refl. cbn.
    eexists. split; [reflexivity|]. repeat split.
    unfold status_of. cbn [order_history set_order_history].
    rewrite (PaymentConfirmationFacts.find_update_pending _ _ _ _ Hf Hs).
    reflexivity.
  - intros H. destruct (negb _); [reflexivity|].
    unfold status_of in H.
    destruct (find_one _ _) as [o|]; [|reflexivity]. cbn [option_map] in H.
    destruct (OrderStatus.eqb _ _) eqn:Hs; cbn [negb]; [|reflexivity].
    destruct H as [H|(o' & Ho' & Ha)].
    + exfalso. apply H. f_equal.
      destruct (OrderHistoryItem.status o); try discriminate; reflexivity.
    + inversion Ho'; subst o'. apply Z.eqb_neq in Ha. rewrite Ha. reflexivity.
Qed.

Lemma payment_confirmation_handler_witness :
  exists db',
    PaymentConfirmation.handle
      "secret" Sample.mac (mkStore [] [] [Sample.pending_ten_times_two]) []
      Sample.paid_notification
    = (db', ["order-1"], PaymentConfirmation.Confirmed)
    /\ status_of db' "order-1" = Some OrderStatus.PAID
    /\ products db' = []
    /\ carts db' = [].
Proof.
  exact (proj1 (proj2 (payment_confirmation_handler
                         "secret" Sample.mac
                         (mkStore [] [] [Sample.pending_ten_times_two]) []
                         Sample.paid_notification))
               Sample.pending_ten_times_two
               eq_refl eq_refl eq_refl eq_refl eq_refl).
Defined.

(* ================================================================== *)
(** ** More about the cart *)
(* ================================================================== *)

Module CartEffects.

Lemma total_items_from (ls : list CartLine.t) (acc : Z) :
  fold_left (fun acc item => acc + CartLine.quantity item) ls acc
  = acc + Cart.total_items ls.
Proof.
  unfold Cart.total_items. revert acc.
  induction ls as [|l ls IH]; intros acc; cbn [fold_left]; [lia|].
  rewrite IH, (IH (0 + CartLine.quantity l)). lia.
Qed.

Lemma total_items_cons (l : CartLine.t) (ls : list CartLine.t) :
  Cart.total_items (l :: ls) = CartLine.quantity l + Cart.total_items ls.
Proof. unfold Cart.total_items at 1. cbn [fold_left]. apply total_items_from. Qed.

Lemma total_items_push (l : CartLine.t) (ls : list CartLine.t) :
  Cart.total_items (Cart.push_line l ls)
  = Cart.total_items ls + CartLine.quantity l.
Proof.
  unfold Cart.push_line. induction ls as [|h ls IH]; cbn [app].
  - reflexivity.
  - rewrite !total_items_cons, IH. lia.
Qed.

Lemma total_items_inc_line (b : string) (delta : Z) (ls : list CartLine.t) :
  existsb (Cart.line_is b) ls = true ->
  Cart.total_items (Cart.inc_line b delta ls) = Cart.total_items ls + delta.
Proof.
  induction ls as [|h ls IH]; cbn [existsb Cart.inc_line]; [discriminate|].
  destruct (Cart.line_is b h); cbn [orb]; intros H.
  - rewrite !total_items_cons. cbn. lia.
  - rewrite !total_items_cons, (IH H). lia.
Qed.

Lemma pull_lines_absent (b : string) (ls : list CartLine.t) :
  existsb (Cart.line_is b) ls = false -> Cart.pull_lines b ls = ls.
Proof.
  unfold Cart.pull_lines. induction ls as [|h ls IH]; cbn; [reflexivity|].
  intros H. apply orb_false_iff in H as [Hh Hls]. rewrite Hh. cbn.
  rewrite (IH Hls). reflexivity.
Qed.

(** With one line per barcode, pulling a barcode takes the quantity of
    its line off the total. *)
Lemma total_items_pull (b : string) (ls : list CartLine.t) (item : CartLine.t) :
  unique_barcodes ls = true ->
  find (Cart.line_is b) ls = Some item ->
  Cart.total_items (Cart.pull_lines b ls)
  = Cart.total_items ls - CartLine.quantity item.
Proof.
  induction ls as [|h ls IH]; cbn [find unique_barcodes]; [discriminate|].
  intros Hu Hf. apply andb_true_iff in Hu as [Hh Hu].
  unfold Cart.pull_lines in *. cbn [filter].
  destruct (Cart.line_is b h) eqn:E; cbn [negb].
  - inversion Hf; subst h. rewrite total_items_cons.
    apply negb_true_iff in Hh.
    unfold Cart.line_is in E. apply String.eqb_eq in E. rewrite E in Hh.
    fold (Cart.pull_lines b ls). rewrite (pull_lines_absent b ls Hh). lia.
  - rewrite !total_items_cons, (IH Hu Hf). lia.
Qed.

Lemma inc_line_undo (b : string) (delta : Z) (ls : list CartLine.t) :
  Cart.inc_line b (- delta) (Cart.inc_line b delta ls) = ls.
Proof.
  induction ls as [|h ls IH]; cbn [Cart.inc_line]; [reflexivity|].
  destruct (Cart.line_is b h) eqn:E; cbn [Cart.inc_line].
  - unfold Cart.line_is in *. cbn [CartLine.add_quantity CartLine.barcode].
    rewrite E. destruct h. unfold CartLine.add_quantity. cbn. f_equal. f_equal. lia.
  - rewrite E, IH. reflexivity.
Qed.

Lemma find_inc_line (b : string) (delta : Z) (ls : list CartLine.t) :
  find (Cart.line_is b) (Cart.inc_line b delta ls)
  = option_map (CartLine.add_quantity delta) (find (Cart.line_is b) ls).
Proof.
  induction ls as [|h ls IH]; cbn [Cart.inc_line find]; [reflexivity|].
  destruct (Cart.line_is b h) eqn:E; cbn [find].
  - unfold Cart.line_is in *. cbn [CartLine.add_quantity CartLine.barcode].
    rewrite E. reflexivity.
  - rewrite E. exact IH.
Qed.

Lemma find_push_line (b : string) (l : CartLine.t) (ls : list CartLine.t) :
  find (Cart.line_is b) ls = None ->
  Cart.line_is b l = true ->
  find (Cart.line_is b) (Cart.push_line l ls) = Some l.
Proof.
  unfold Cart.push_line. induction ls as [|h ls IH]; cbn [find app]; intros Hn Hl.
  - rewrite Hl. reflexivity.
  - destruct (Cart.line_is b h); [discriminate|]. apply IH; assumption.
Qed.

(** *** Which cart document a write reaches *)

Lemma find_app_none {A : Type} (f : A -> bool) (l : list A) (a : A) :
  f a = false -> find f (l ++ [a]) = find f l.
Proof.
  intros Ha. induction l as [|h l IH]; cbn; [rewrite Ha; reflexivity|].
  destruct (f h); [reflexivity|exact IH].
Qed.

Lemma find_app_last {A : Type} (f : A -> bool) (l : list A) (a : A) :
  find f l = None -> f a = true -> find f (l ++ [a]) = Some a.
Proof.
  intros Hn Ha. induction l as [|h l IH]; cbn in *; [rewrite Ha; reflexivity|].
  destruct (f h); [discriminate|]. apply IH, Hn.
Qed.

(** An update whose filter excludes what [g] accepts is not seen
    through [g]. *)
Lemma find_update_one_other {A : Type} (f g : A -> bool) (u : A -> A)
      (c : list A) :
  (forall d, f d = true -> g d = false) ->
  (forall d, g (u d) = g d) ->
  find g (fst (update_one f u c)) = find g c.
Proof.
  intros Hfg Hu. induction c as [|d c IH]; cbn; [reflexivity|].
  destruct (f d) eqn:E; cbn.
  - rewrite Hu, (Hfg d E). reflexivity.
  - destruct (update_one f u c) as [c' n]. cbn in *. rewrite IH. reflexivity.
Qed.

(** An update that reaches the document [g] finds first shows through
    [g] as the updated document. *)
Lemma find_update_one_same {A : Type} (f g : A -> bool) (u : A -> A)
      (c : list A) (d : A) :
  (forall x, g (u x) = g x) ->
  find f c = Some d -> find g c = Some d ->
  find g (fst (update_one f u c)) = Some (u d).
Proof.
  intros Hu. induction c as [|h c IH]; cbn; [discriminate|]. intros Hf Hg.
  destruct (f h) eqn:Ef; cbn.
  - inversion Hf; subst h. rewrite Hu.
    destruct (g d) eqn:Eg; [reflexivity|].
    apply find_some in Hg as [_ Hg]. congruence.
  - destruct (g h) eqn:Eg.
    + inversion Hg; subst h. apply find_some in Hf as [_ Hf]. congruence.
    + destruct (update_one f u c) as [c' n]. cbn in *. rewrite Eg.
      apply IH; assumption.
Qed.

Lemma owned_by_other (u u' : string) (c : CartDoc.t) :
  u' <> u -> Cart.owned_by u c = true -> Cart.owned_by u' c = false.
Proof.
  unfold Cart.owned_by. intros Hne H. apply String.eqb_eq in H.
  apply String.eqb_neq. congruence.
Qed.

(** The lines of a user after step 4, branch by branch, and the lines
    of everybody else. *)
Lemma execute_lines (cs cs' : list CartDoc.t) (u : string)
      (request : CartOpRequest.t) (product : Product.t) :
  let b := CartOpRequest.barcode request in
  let q := CartOpRequest.quantity request in
  let ls := lines_of cs u in
  Cart.execute cs u request product (find (Cart.line_is b) ls) = Some cs' ->
  (forall u', u' <> u -> lines_of cs' u' = lines_of cs u')
  /\ lines_of cs' u
     = if String.eqb (CartOpRequest.action request) "add" then
         match find (Cart.line_is b) ls with
         | Some _ => Cart.inc_line b q ls
         | None =>
             Cart.push_line
               (CartLine.mk b (Product.name product) (Product.price product) q)
               ls
         end
       else if String.eqb (CartOpRequest.action request) "remove" then
         match find (Cart.line_is b) ls with
         | Some item =>
             if CartLine.quantity item =? q then Cart.pull_lines b ls
             else Cart.inc_line b (- q) ls
         | None => ls
         end
       else ls.
Proof.
  intros b q ls. unfold Cart.execute. fold b q.
  assert (Hother : forall (f : CartDoc.t -> bool)
                          (g : list CartLine.t -> list CartLine.t) u',
             u' <> u -> (forall d, f d = true -> Cart.owned_by u d = true) ->
             lines_of (fst (update_one f (Cart.on_items g) cs)) u'
             = lines_of cs u').
  { intros f g u' Hne Hf. unfold lines_of, find_one.
    rewrite find_update_one_other; [reflexivity| |reflexivity].
    intros d Hd. apply (owned_by_other u u' d Hne), Hf, Hd. }
  assert (Hwith : forall d, Cart.owned_with_line u b d = true ->
                            Cart.owned_by u d = true).
  { intros d Hd. unfold Cart.owned_with_line in Hd.
    apply andb_true_iff in Hd as [Hd _]. exact Hd. }
  subst ls.
  destruct (find (Cart.owned_by u) cs) as [c|] eqn:Hc.
  - (* the user has a cart document *)
    assert (Hls : lines_of cs u = CartDoc.items c)
      by (unfold lines_of, find_one; rewrite Hc; reflexivity).
    rewrite !Hls.
    assert (Hsame : forall g,
               lines_of (fst (update_one (Cart.owned_by u) (Cart.on_items g) cs)) u
               = g (CartDoc.items c)).
    { intros g. unfold lines_of, find_one.
      rewrite CartFacts.find_on_items, Hc. reflexivity. }
    assert (Hline : forall g item,
               find (Cart.line_is b) (CartDoc.items c) = Some item ->
               lines_of (fst (update_one (Cart.owned_with_line u b)
                                         (Cart.on_items g) cs)) u
               = g (CartDoc.items c)).
    { intros g item Hi. unfold lines_of, find_one.
      rewrite (find_update_one_same _ _ _ _ c); [reflexivity|reflexivity| |exact Hc].
      apply CartFacts.find_owned_with_line; [exact Hc|].
      apply (CartFacts.find_some_existsb _ _ _ Hi). }
    destruct (String.eqb (CartOpRequest.action request) "add").
    + destruct (find (Cart.line_is b) (CartDoc.items c)) as [item|] eqn:Hi;
        intros H; inversion H; subst cs'; clear H.
      * split; [intros u' Hne; apply Hother; auto|]. apply (Hline _ item eq_refl).
      * unfold update_one_upsert.
        pose proof (update_one_matched (Cart.owned_by u)
                      (Cart.on_items
                         (Cart.push_line
                            (CartLine.mk b (Product.name product)
                                         (Product.price product) q))) cs) as Hm.
        rewrite (CartFacts.find_some_existsb _ _ _ Hc) in Hm.
        pose proof (Hsame (Cart.push_line
                             (CartLine.mk b (Product.name product)
                                          (Product.price product) q))) as Hs.
        pose proof (fun u' Hne =>
                      Hother (Cart.owned_by u)
                             (Cart.push_line
                                (CartLine.mk b (Product.name product)
                                             (Product.price product) q))
                             u' Hne (fun d H => H)) as Ho.
        destruct (update_one _ _ cs) as [cs1 n]. cbn [fst snd] in *. subst n.
        cbn. split; assumption.
    + destruct (String.eqb (CartOpRequest.action request) "remove");
        [|intros H; inversion H; subst; split; [reflexivity|exact Hls]].
      destruct (find (Cart.line_is b) (CartDoc.items c)) as [item|] eqn:Hi;
        [|discriminate].
      destruct (CartLine.quantity item =? q);
        intros H; inversion H; subst cs'; clear H.
      * split; [intros u' Hne; apply Hother; auto|]. apply Hsame.
      * split; [intros u' Hne; apply Hother; auto|]. apply (Hline _ item eq_refl).
  - (* no cart document yet *)
    assert (Hls : lines_of cs u = [])
      by (unfold lines_of, find_one; rewrite Hc; reflexivity).
    rewrite !Hls. cbn [find].
    destruct (String.eqb (CartOpRequest.action request) "add").
    + intros H; inversion H; subst cs'; clear H.
      unfold update_one_upsert. rewrite (update_one_find_none _ _ _ Hc). cbn.
      unfold lines_of, find_one. split.
      * intros u' Hne. rewrite find_app_none; [reflexivity|].
        unfold Cart.owned_by. cbn. apply String.eqb_neq. congruence.
      * rewrite find_app_last; [reflexivity|exact Hc|].
        unfold Cart.owned_by. cbn. apply String.eqb_refl.
    + destruct (String.eqb (CartOpRequest.action request) "remove");
        [discriminate|].
      intros H; inversion H; subst. split; [reflexivity|exact Hls].
Qed.

End CartEffects.

Module CartOutcomes.

(** When the handler finds no cart document after step 4, step 4 has
    written nothing. *)
Lemma execute_without_cart (cs cs' : list CartDoc.t) (u : string)
      (request : CartOpRequest.t) (product : Product.t) :
  Cart.execute cs u request product
    (find (Cart.line_is (CartOpRequest.barcode request)) (lines_of cs u))
  = Some cs' ->
  find_one (Cart.owned_by u) cs' = None -> cs' = cs.
Proof.
  intros He Hn.
  destruct (CartEffects.execute_lines cs cs' u request product He) as [_ Hl].
  assert (Hnil : lines_of cs' u = []) by (unfold lines_of; rewrite Hn; reflexivity).
  rewrite Hnil in Hl. clear Hnil.
  unfold Cart.execute in He.
  destruct (String.eqb (CartOpRequest.action request) "add").
  - exfalso.
    destruct (find _ (lines_of cs u)) as [item|] eqn:Hi.
    + destruct (lines_of cs u) as [|h t]; [discriminate|].
      cbn in Hl. destruct (Cart.line_is _ h); discriminate.
    + unfold Cart.push_line in Hl. destruct (lines_of cs u); discriminate.
  - destruct (String.eqb (CartOpRequest.action request) "remove");
      [|inversion He; reflexivity].
    destruct (find _ (lines_of cs u)) as [item|] eqn:Hi; [|discriminate].
    exfalso. unfold lines_of, find_one in Hi.
    destruct (find (Cart.owned_by u) cs) as [c|] eqn:Hc; [|discriminate].
    unfold find_one in Hn.
    destruct (CartLine.quantity item =? _); inversion He; subst cs'.
    + rewrite CartFacts.find_on_items, Hc in Hn. discriminate.
    + rewrite (CartEffects.find_update_one_same _ _ _ _ c) in Hn;
        [discriminate|reflexivity| |exact Hc].
      apply CartFacts.find_owned_with_line; [exact Hc|].
      apply (CartFacts.find_some_existsb _ _ _ Hi).
Qed.

Lemma set_carts_same (db : Store) : set_carts (carts db) db = db.
Proof. destruct db. reflexivity. Qed.

(** The handler on a barcode of the catalog once steps 1 to 3 let the
    request through. *)
Lemma cart_operation_executes (db : Store) (user : TokenData.t)
      (request : CartOpRequest.t) (product : Product.t)
      (cs : list CartDoc.t) :
  let u := TokenData.identity user in
  let b := CartOpRequest.barcode request in
  let q := CartOpRequest.quantity request in
  let action := CartOpRequest.action request in
  let ls := lines_of (carts db) u in
  find_one (Cart.has_barcode b) (products db) = Some product ->
  String.eqb action "add" && (Product.quantity product <? q) = false ->
  negb (String.eqb action "add") && String.eqb action "remove"
  && (match find (Cart.line_is b) ls with
      | Some item => CartLine.quantity item
      | None => 0
      end <? q) = false ->
  Cart.execute (carts db) u request product (find (Cart.line_is b) ls)
  = Some cs ->
  lines_of cs u <> [] ->
  exists msg,
    Cart.cart_operation db user request
    = (set_carts cs db,
       Response (CartOpResponse.mk true msg (Cart.total_items (lines_of cs u)))).
Proof.
  intros u b q action ls Hp H1 H2 He Hne. unfold Cart.cart_operation.
  fold u b q action. rewrite Hp, CartFacts.lines_of_find. fold ls.
  rewrite H1, H2, He. unfold lines_of in *.
  destruct (find_one (Cart.owned_by u) cs); [eauto|contradiction].
Qed.

Lemma inc_line_nonempty (b : string) (delta : Z) (l : list CartLine.t)
      (item : CartLine.t) :
  find (Cart.line_is b) l = Some item -> Cart.inc_line b delta l <> [].
Proof.
  destruct l as [|h tl]; [discriminate|]. cbn.
  destruct (Cart.line_is b h); discriminate.
Qed.

Lemma push_line_nonempty (new : CartLine.t) (l : list CartLine.t) :
  Cart.push_line new l <> [].
Proof. unfold Cart.push_line. destruct l; discriminate. Qed.

Lemma find_nonempty {A : Type} (f : A -> bool) (l : list A) (a : A) :
  find f l = Some a -> l <> [].
Proof. destruct l; discriminate. Qed.

End CartOutcomes.

Module CartSuccess.

Lemma add_effect
        (db : Store) (user : TokenData.t) (request : CartOpRequest.t)
        (product : Product.t) :
  let u := TokenData.identity user in
  let b := CartOpRequest.barcode request in
  let q := CartOpRequest.quantity request in
  let ls := lines_of (carts db) u in
  CartOpRequest.action request = "add" ->
  find_one (Cart.has_barcode b) (products db) = Some product ->
  (q <= Product.quantity product ->
   (exists msg,
       snd (Cart.cart_operation db user request)
       = Response (CartOpResponse.mk true msg (Cart.total_items ls + q)))
   /\ lines_of (carts (fst (Cart.cart_operation db user request))) u
      = match find (Cart.line_is b) ls with
        | Some _ => Cart.inc_line b q ls
        | None =>
            Cart.push_line
              (CartLine.mk b (Product.name product) (Product.price product) q)
              ls
        end)
  /\ (Product.quantity product < q ->
      exists msg,
        Cart.cart_operation db user request
        = (db, Response (CartOpResponse.mk false msg (Cart.total_items ls)))).
Proof.
  intros u b q ls Hadd Hp. split.
  - intros Hq.
    assert (H1 : String.eqb (CartOpRequest.action request) "add"
                 && (Product.quantity product <? q) = false).
    { apply andb_false_iff. right. apply Z.ltb_ge. exact Hq. }
    assert (H2 : negb (String.eqb (CartOpRequest.action request) "add")
                 && String.eqb (CartOpRequest.action request) "remove"
                 && (match find (Cart.line_is b) ls with
                     | Some item => CartLine.quantity item
                     | None => 0
                     end <? q) = false).
    { rewrite Hadd. reflexivity. }
    destruct (Cart.execute (carts db) u request product (find (Cart.line_is b) ls))
      as [cs|] eqn:He.
    2:{ unfold Cart.execute in He. rewrite Hadd in He. cbn in He.
        destruct (find _ ls); discriminate. }
    destruct (CartEffects.execute_lines _ _ _ _ _ He) as [_ Hl].
    rewrite Hadd in Hl. cbn [String.eqb Ascii.eqb Bool.eqb andb] in Hl.
    fold b q ls in Hl.
    assert (Hne : lines_of cs u <> []).
    { rewrite Hl. destruct (find (Cart.line_is b) ls) eqn:Hi.
      - apply (CartOutcomes.inc_line_nonempty _ _ _ _ Hi).
      - apply CartOutcomes.push_line_nonempty. }
    destruct (CartOutcomes.cart_operation_executes db user request product cs
                Hp H1 H2 He Hne) as [msg Hop].
    unfold ls, u, b, q in *. rewrite Hop. cbn [fst snd carts set_carts]. split; [|exact Hl].
    exists msg. do 2 f_equal. rewrite Hl.
    destruct (find (Cart.line_is _) (lines_of (carts db) _)) eqn:Hi.
    + apply CartEffects.total_items_inc_line.
      apply (CartFacts.find_some_existsb _ _ _ Hi).
    + apply CartEffects.total_items_push.
  - intros Hq. unfold Cart.cart_operation. fold u b q.
    rewrite Hp, CartFacts.lines_of_find, Hadd. fold ls.
    apply Z.ltb_lt in Hq. rewrite Hq. cbn. eauto.
Qed.

Lemma remove_effect
        (db : Store) (user : TokenData.t) (request : CartOpRequest.t)
        (product : Product.t) :
  let u := TokenData.identity user in
  let b := CartOpRequest.barcode request in
  let q := CartOpRequest.quantity request in
  let ls := lines_of (carts db) u in
  let held := match find (Cart.line_is b) ls with
              | Some item => CartLine.quantity item
              | None => 0
              end in
  CartOpRequest.action request = "remove" ->
  find_one (Cart.has_barcode b) (products db) = Some product ->
  (forall item,
      find (Cart.line_is b) ls = Some item ->
      q <= CartLine.quantity item ->
      (exists msg total,
          snd (Cart.cart_operation db user request)
          = Response (CartOpResponse.mk true msg total)
          /\ (unique_barcodes ls = true -> total = Cart.total_items ls - q))
      /\ lines_of (carts (fst (Cart.cart_operation db user request))) u
         = if CartLine.quantity item =? q then Cart.pull_lines b ls
           else Cart.inc_line b (- q) ls)
  /\ (held < q ->
      exists msg,
        Cart.cart_operation db user request
        = (db, Response (CartOpResponse.mk false msg (Cart.total_items ls)))).
Proof.
  intros u b q ls held Hrem Hp. split.
  - intros item Hi Hq.
    assert (H1 : String.eqb (CartOpRequest.action request) "add"
                 && (Product.quantity product <? q) = false)
      by (rewrite Hrem; reflexivity).
    assert (H2 : negb (String.eqb (CartOpRequest.action request) "add")
                 && String.eqb (CartOpRequest.action request) "remove"
                 && (match find (Cart.line_is b) ls with
                     | Some item => CartLine.quantity item
                     | None => 0
                     end <? q) = false).
    { rewrite Hi. apply andb_false_iff. right. apply Z.ltb_ge. exact Hq. }
    assert (Hls : ls <> []) by apply (CartOutcomes.find_nonempty _ _ _ Hi).
    destruct (Cart.execute (carts db) u request product (find (Cart.line_is b) ls))
      as [cs|] eqn:He.
    2:{ unfold Cart.execute in He. rewrite Hrem, Hi in He. cbn in He.
        destruct (CartLine.quantity item =? _); discriminate. }
    destruct (CartEffects.execute_lines _ _ _ _ _ He) as [_ Hl].
    rewrite Hrem in Hl. cbn [String.eqb Ascii.eqb Bool.eqb andb] in Hl.
    fold b q ls in Hl. rewrite Hi in Hl.
    assert (Htotal : unique_barcodes ls = true ->
                     Cart.total_items (lines_of cs u) = Cart.total_items ls - q).
    { intros Hu. rewrite Hl. destruct (Z.eqb_spec (CartLine.quantity item) q) as [E|E].
      - rewrite (CartEffects.total_items_pull b ls item Hu Hi). lia.
      - rewrite CartEffects.total_items_inc_line; [lia|].
        apply (CartFacts.find_some_existsb _ _ _ Hi). }
    unfold Cart.cart_operation. fold u b q.
    rewrite Hp, CartFacts.lines_of_find. fold ls. rewrite H1, H2, He.
    unfold lines_of in Hl, Htotal.
    destruct (find_one (Cart.owned_by u) cs) as [c|] eqn:Hc.
    + cbn [fst snd carts set_carts]. unfold lines_of. rewrite Hc.
      split; [eauto|exact Hl].
    + exfalso. unfold Cart.execute in He. rewrite Hrem, Hi in He.
      cbn [String.eqb Ascii.eqb Bool.eqb] in He.
      unfold ls, lines_of, find_one in Hi, Hls.
      destruct (find (Cart.owned_by u) (carts db)) as [c0|] eqn:Hc0;
        [|contradiction].
      unfold find_one in Hc.
      destruct (CartLine.quantity item =? _); inversion He; subst cs.
      * rewrite CartFacts.find_on_items, Hc0 in Hc. discriminate.
      * rewrite (CartEffects.find_update_one_same _ _ _ _ c0) in Hc;
          [discriminate|reflexivity| |exact Hc0].
        apply CartFacts.find_owned_with_line; [exact Hc0|].
        apply (CartFacts.find_some_existsb _ _ _ Hi).
  - intros Hq. unfold Cart.cart_operation. fold u b q.
    rewrite Hp, CartFacts.lines_of_find, Hrem. fold ls held.
    apply Z.ltb_lt in Hq. rewrite Hq. cbn. eauto.
Qed.

End CartSuccess.

(** X1. Whatever the request, a cart operation that does not answer
    with [success = true] (a failure response or the 500 of the
    handler) leaves the whole store as it was. *)
Theorem cart_operation_failure_leaves_store
        (db : Store) (user : TokenData.t) (request : CartOpRequest.t) :
  (forall r, snd (Cart.cart_operation db user request) = Response r ->
             CartOpResponse.success r = false) ->
  fst (Cart.cart_operation db user request) = db.
Proof.
  unfold Cart.cart_operation.
  destruct (find_one _ (products db)) as [product|]; [|reflexivity].
  rewrite CartFacts.lines_of_find.
  destruct (_ && _); [reflexivity|].
  destruct (_ && _); [reflexivity|].
  destruct (Cart.execute _ _ _ _ _) as [cs|] eqn:He; [|reflexivity].
  destruct (find_one _ cs) as [c|] eqn:Hc; cbn [fst snd]; intros H.
  - specialize (H _ eq_refl). discriminate.
  - rewrite (CartOutcomes.execute_without_cart _ _ _ _ _ He Hc).
    apply CartOutcomes.set_carts_same.
Qed.

Lemma cart_operation_failure_leaves_store_witness :
  fst (Cart.cart_operation Sample.one_line_cart Sample.shopper
         (CartOpRequest.mk "8850718820634" "add" 11)) = Sample.one_line_cart.
Proof.
  apply cart_operation_failure_leaves_store.
  intros r H. inversion H. reflexivity.
Defined.

(** X2. A cart operation of one user never changes the catalog, the
    orders, or the cart lines of any other user. *)
Theorem cart_operation_touches_one_cart
        (db : Store) (user : TokenData.t) (request : CartOpRequest.t) :
  let db' := fst (Cart.cart_operation db user request) in
  products db' = products db
  /\ order_history db' = order_history db
  /\ forall u', u' <> TokenData.identity user ->
                lines_of (carts db') u' = lines_of (carts db) u'.
Proof.
  cbv zeta. split; [apply EngineFacts.cart_operation_products|].
  split; [apply EngineFacts.cart_operation_products|].
  intros u' Hne. unfold Cart.cart_operation.
  destruct (find_one _ (products db)) as [product|]; [|reflexivity].
  rewrite CartFacts.lines_of_find.
  destruct (_ && _); [reflexivity|].
  destruct (_ && _); [reflexivity|].
  destruct (Cart.execute _ _ _ _ _) as [cs|] eqn:He; [|reflexivity].
  destruct (CartEffects.execute_lines _ _ _ _ _ He) as [Ho _].
  destruct (find_one _ cs); cbn; apply Ho, Hne.
Qed.

Lemma cart_operation_touches_one_cart_witness :
  lines_of (carts (fst (Cart.cart_operation Sample.one_line_cart
                          (TokenData.mk "GUEST456" (Some "guest"))
                          (CartOpRequest.mk "8850718820634" "add" 1))))
           "CARD123"
  = lines_of (carts Sample.one_line_cart) "CARD123".
Proof.
  apply (cart_operation_touches_one_cart
           Sample.one_line_cart (TokenData.mk "GUEST456" (Some "guest"))
           (CartOpRequest.mk "8850718820634" "add" 1)).
  discriminate.
Defined.

(** X3. An [add] for a barcode of the catalog succeeds exactly when
    the requested quantity does not exceed the product's stock, however
    many pieces the cart already holds.  When it succeeds, the line of
    that barcode grows by the quantity, or a new line with the name and
    price of the catalog is appended, and the response reports the old
    item count plus the quantity; when it fails the store is unchanged
    and the response reports the current item count. *)
Theorem cart_add_effect
        (db : Store) (user : TokenData.t) (request : CartOpRequest.t)
        (product : Product.t) :
  let u := TokenData.identity user in
  let b := CartOpRequest.barcode request in
  let q := CartOpRequest.quantity request in
  let ls := lines_of (carts db) u in
  CartOpRequest.action request = "add" ->
  find_one (Cart.has_barcode b) (products db) = Some product ->
  (q <= Product.quantity product ->
   (exists msg,
       snd (Cart.cart_operation db user request)
       = Response (CartOpResponse.mk true msg (Cart.total_items ls + q)))
   /\ lines_of (carts (fst (Cart.cart_operation db user request))) u
      = match find (Cart.line_is b) ls with
        | Some _ => Cart.inc_line b q ls
        | None =>
            Cart.push_line
              (CartLine.mk b (Product.name product) (Product.price product) q)
              ls
        end)
  /\ (Product.quantity product < q ->
      exists msg,
        Cart.cart_operation db user request
        = (db, Response (CartOpResponse.mk false msg (Cart.total_items ls)))).
Proof. exact (CartSuccess.add_effect db user request product). Qed.

Lemma cart_add_effect_witness :
  lines_of (carts (fst (Cart.cart_operation Sample.one_line_cart Sample.shopper
                          (CartOpRequest.mk "8850718820634" "add" 3))))
           "CARD123"
  = [CartLine.mk "8850718820634" "Lay stax original yellow 150g"
                 (PyDecimal.mk 100 (-1)) 5].
Proof.
  exact (proj2 (proj1 (cart_add_effect
                         Sample.one_line_cart Sample.shopper
                         (CartOpRequest.mk "8850718820634" "add" 3)
                         (Sample.chips 10) eq_refl eq_refl)
                      ltac:(cbn; lia))).
Defined.

(** X4. A [remove] for a barcode of the catalog whose line holds at
    least the requested quantity succeeds: the line is pulled when the
    quantities are equal and shrinks by the quantity otherwise, and,
    the cart having one line per barcode, the response reports the old
    item count minus the quantity.  When the line holds less, or there
    is no line and the quantity is positive, the store is unchanged
    and the response reports the current item count. *)
Theorem cart_remove_effect
        (db : Store) (user : TokenData.t) (request : CartOpRequest.t)
        (product : Product.t) :
  let u := TokenData.identity user in
  let b := CartOpRequest.barcode request in
  let q := CartOpRequest.quantity request in
  let ls := lines_of (carts db) u in
  let held := match find (Cart.line_is b) ls with
              | Some item => CartLine.quantity item
              | None => 0
              end in
  CartOpRequest.action request = "remove" ->
  find_one (Cart.has_barcode b) (products db) = Some product ->
  (forall item,
      find (Cart.line_is b) ls = Some item ->
      q <= CartLine.quantity item ->
      unique_barcodes ls = true ->
      (exists msg,
          snd (Cart.cart_operation db user request)
          = Response (CartOpResponse.mk true msg (Cart.total_items ls - q)))
      /\ lines_of (carts (fst (Cart.cart_operation db user request))) u
         = if CartLine.quantity item =? q then Cart.pull_lines b ls
           else Cart.inc_line b (- q) ls)
  /\ (held < q ->
      exists msg,
        Cart.cart_operation db user request
        = (db, Response (CartOpResponse.mk false msg (Cart.total_items ls)))).
Proof.
  intros u b q ls held Hrem Hp.
  destruct (CartSuccess.remove_effect db user request product Hrem Hp)
    as [H1 H2].
  split; [|exact H2]. intros item Hi Hq Hu.
  destruct (H1 item Hi Hq) as [(msg & total & Hr & Ht) Hl].
  split; [|exact Hl]. exists msg. rewrite Hr, (Ht Hu). reflexivity.
Qed.

Lemma cart_remove_effect_witness :
  lines_of (carts (fst (Cart.cart_operation Sample.one_line_cart Sample.shopper
                          (CartOpRequest.mk "8850718820634" "remove" 1))))
           "CARD123"
  = [CartLine.mk "8850718820634" "Lay stax original yellow 150g"
                 (PyDecimal.mk 100 (-1)) 1].
Proof.
  exact (proj2 (proj1 (cart_remove_effect
                         Sample.one_line_cart Sample.shopper
                         (CartOpRequest.mk "8850718820634" "remove" 1)
                         (Sample.chips 10) eq_refl eq_refl)
                      (CartLine.mk "8850718820634"
                                   "Lay stax original yellow 150g"
                                   (PyDecimal.mk 100 (-1)) 2)
                      eq_refl ltac:(cbn; lia) eq_refl)).
Defined.

Module CartRoundTrip.

Lemma pull_pushed_line (b : string) (new : CartLine.t) (ls : list CartLine.t) :
  find (Cart.line_is b) ls = None ->
  Cart.line_is b new = true ->
  Cart.pull_lines b (Cart.push_line new ls) = ls.
Proof.
  intros Hn Hb. unfold Cart.pull_lines, Cart.push_line.
  rewrite filter_app. cbn. rewrite Hb. cbn. rewrite app_nil_r.
  apply (CartEffects.pull_lines_absent b ls).
  apply CartFacts.find_none_existsb, Hn.
Qed.

Lemma add_then_remove (db : Store) (user : TokenData.t) (b : string) (q : Z)
      (product : Product.t) :
  find_one (Cart.has_barcode b) (products db) = Some product ->
  q <= Product.quantity product ->
  positive_lines (lines_of (carts db) (TokenData.identity user)) = true ->
  lines_of
    (carts (fst (Cart.cart_operation
                   (fst (Cart.cart_operation db user (CartOpRequest.mk b "add" q)))
                   user (CartOpRequest.mk b "remove" q))))
    (TokenData.identity user)
  = lines_of (carts db) (TokenData.identity user).
Proof.
  intros Hp Hq Hpos.
  destruct (CartSuccess.add_effect db user (CartOpRequest.mk b "add" q) product
              eq_refl Hp) as [Hadd _].
  destruct (Hadd Hq) as [_ Hl1]. clear Hadd.
  cbn [CartOpRequest.barcode CartOpRequest.quantity] in Hl1.
  set (db1 := fst (Cart.cart_operation db user (CartOpRequest.mk b "add" q))) in *.
  assert (Hp1 : find_one (Cart.has_barcode b) (products db1) = Some product).
  { unfold db1.
    rewrite (proj1 (EngineFacts.cart_operation_products db user _)). exact Hp. }
  destruct (CartSuccess.remove_effect db1 user (CartOpRequest.mk b "remove" q)
              product eq_refl Hp1) as [Hrem _].
  cbn [CartOpRequest.barcode CartOpRequest.quantity] in Hrem.
  destruct (find (Cart.line_is b) (lines_of (carts db) (TokenData.identity user)))
    as [item|] eqn:Hi.
  - (* the line was there *)
    assert (Hitem : 0 < CartLine.quantity item).
    { unfold positive_lines in Hpos. rewrite forallb_forall in Hpos.
      apply find_some in Hi as [Hin _]. apply Z.ltb_lt, Hpos, Hin. }
    assert (Hf : find (Cart.line_is b) (lines_of (carts db1) (TokenData.identity user))
                 = Some (CartLine.add_quantity q item)).
    { rewrite Hl1, CartEffects.find_inc_line, Hi. reflexivity. }
    destruct (Hrem _ Hf ltac:(cbn; lia)) as [_ Hl2]. rewrite Hl2.
    cbn [CartLine.add_quantity CartLine.quantity].
    destruct (Z.eqb_spec (CartLine.quantity item + q) q) as [E|E]; [lia|].
    rewrite Hl1. apply CartEffects.inc_line_undo.
  - (* the line was new *)
    assert (Hb : Cart.line_is b (CartLine.mk b (Product.name product)
                                             (Product.price product) q) = true)
      by (unfold Cart.line_is; cbn; apply String.eqb_refl).
    assert (Hf : find (Cart.line_is b) (lines_of (carts db1) (TokenData.identity user))
                 = Some (CartLine.mk b (Product.name product)
                                     (Product.price product) q)).
    { rewrite Hl1. apply CartEffects.find_push_line; assumption. }
    destruct (Hrem _ Hf ltac:(cbn; lia)) as [_ Hl2]. rewrite Hl2.
    cbn [CartLine.quantity]. rewrite Z.eqb_refl, Hl1.
    apply pull_pushed_line; assumption.
Qed.

End CartRoundTrip.

(** X5. Adding a quantity of a product to a cart whose lines are
    positive and then removing the same quantity gives the user's cart
    lines back exactly, whether the line existed before or was created
    by the [add]. *)
Theorem cart_add_then_remove_restores_lines
        (db : Store) (user : TokenData.t) (b : string) (q : Z)
        (product : Product.t) :
  find_one (Cart.has_barcode b) (products db) = Some product ->
  q <= Product.quantity product ->
  positive_lines (lines_of (carts db) (TokenData.identity user)) = true ->
  lines_of
    (carts (fst (Cart.cart_operation
                   (fst (Cart.cart_operation db user (CartOpRequest.mk b "add" q)))
                   user (CartOpRequest.mk b "remove" q))))
    (TokenData.identity user)
  = lines_of (carts db) (TokenData.identity user).
Proof. exact (CartRoundTrip.add_then_remove db user b q product). Qed.

Lemma cart_add_then_remove_restores_lines_witness :
  lines_of
    (carts (fst (Cart.cart_operation
                   (fst (Cart.cart_operation Sample.one_line_cart Sample.shopper
                           (CartOpRequest.mk "8850718820634" "add" 4)))
                   Sample.shopper (CartOpRequest.mk "8850718820634" "remove" 4))))
    "CARD123"
  = lines_of (carts Sample.one_line_cart) "CARD123".
Proof.
  apply (cart_add_then_remove_restores_lines
           Sample.one_line_cart Sample.shopper "8850718820634" 4
           (Sample.chips 10)); [reflexivity|cbn; lia|reflexivity].
Defined.

(* ================================================================== *)
(** ** Reading the cart *)
(* ================================================================== *)

Module GetCartFacts.

Lemma by_barcode_get_some (found : list Product.t) (bc : string)
      (meta : Product.t) :
  Cart.by_barcode_get found bc = Some meta ->
  In meta found /\ Product.barcode meta = Some bc.
Proof.
  unfold Cart.by_barcode_get. intros H. apply find_some in H as [Hin Hb].
  split; [apply in_rev, Hin|].
  unfold Cart.has_barcode in Hb. destruct (Product.barcode meta) as [b'|];
    [|discriminate].
  apply String.eqb_eq in Hb. congruence.
Qed.

Lemma by_barcode_get_found (found : list Product.t) (bc : string)
      (p : Product.t) :
  In p found -> Product.barcode p = Some bc ->
  exists meta, Cart.by_barcode_get found bc = Some meta.
Proof.
  intros Hin Hb. unfold Cart.by_barcode_get.
  destruct (find (Cart.has_barcode bc) (rev found)) as [meta|] eqn:Hf; [eauto|].
  exfalso. pose proof (find_none _ _ Hf p (proj1 (in_rev found p) Hin)) as Hn.
  unfold Cart.has_barcode in Hn. rewrite Hb, String.eqb_refl in Hn. discriminate.
Qed.

(** What the merge loop returns. *)
Lemma merge_lines_result (found : list Product.t) (cart_items : list CartLine.t) :
  forall result,
    Cart.merge_lines found cart_items = Some result ->
    Forall
      (fun p =>
         0 <= Product.quantity p
         /\ exists it meta,
             In it cart_items /\ In meta found
             /\ Product.barcode meta = Some (CartLine.barcode it)
             /\ p = Product.set_quantity (Z.max (CartLine.quantity it) 0) meta)
      result
    /\ (List.length result <= List.length cart_items)%nat.
Proof.
  induction cart_items as [|it rest IH]; intros result H; cbn [Cart.merge_lines] in H.
  - inversion H. split; [constructor|cbn; lia].
  - assert (Hweak : forall r,
               Forall (fun p =>
                 0 <= Product.quantity p
                 /\ exists it0 meta,
                     In it0 rest /\ In meta found
                     /\ Product.barcode meta = Some (CartLine.barcode it0)
                     /\ p = Product.set_quantity (Z.max (CartLine.quantity it0) 0)
                                                 meta) r ->
               Forall (fun p =>
                 0 <= Product.quantity p
                 /\ exists it0 meta,
                     In it0 (it :: rest) /\ In meta found
                     /\ Product.barcode meta = Some (CartLine.barcode it0)
                     /\ p = Product.set_quantity (Z.max (CartLine.quantity it0) 0)
                                                 meta) r).
    { intros r Hr. eapply Forall_impl; [|exact Hr].
      intros p [H0 (it0 & meta & Hin & Hrest)]. split; [exact H0|].
      exists it0, meta. split; [right; exact Hin|exact Hrest]. }
    destruct (Cart.by_barcode_get found (CartLine.barcode it)) as [meta|] eqn:Hg.
    + destruct (Product.fields_ok _); [|discriminate].
      destruct (Cart.merge_lines found rest) as [r|]; [|discriminate].
      inversion H; subst result. destruct (IH r eq_refl) as [Hr Hlen].
      destruct (by_barcode_get_some _ _ _ Hg) as [Hin Hb].
      split; [|cbn; lia]. constructor; [|apply Hweak, Hr].
      split; [cbn; lia|]. exists it, meta. repeat split; auto. left. reflexivity.
    + destruct (IH result H) as [Hr Hlen]. split; [apply Hweak, Hr|cbn; lia].
Qed.

(** With no negative price in what was found the loop does not raise,
    and every line that resolves is in the result. *)
Lemma merge_lines_complete (found : list Product.t) (cart_items : list CartLine.t) :
  prices_nonneg found = true ->
  exists result,
    Cart.merge_lines found cart_items = Some result
    /\ forall it meta,
        In it cart_items ->
        Cart.by_barcode_get found (CartLine.barcode it) = Some meta ->
        In (Product.set_quantity (Z.max (CartLine.quantity it) 0) meta) result.
Proof.
  intros Hp. induction cart_items as [|it rest IH]; cbn [Cart.merge_lines].
  - exists []. split; [reflexivity|]. intros it meta [].
  - destruct IH as (r & Hr & Hall). rewrite Hr.
    destruct (Cart.by_barcode_get found (CartLine.barcode it)) as [meta|] eqn:Hg.
    + assert (Hok : Product.fields_ok
                      (Product.set_quantity (Z.max (CartLine.quantity it) 0) meta)
                    = true).
      { destruct (by_barcode_get_some _ _ _ Hg) as [Hin _].
        unfold prices_nonneg in Hp. rewrite forallb_forall in Hp.
        unfold Product.fields_ok. cbn. rewrite (Hp _ Hin). cbn.
        apply Z.leb_le. lia. }
      rewrite Hok. cbn. eexists. split; [reflexivity|].
      intros it' meta' [<-|Hin] Hg'.
      * rewrite Hg in Hg'. inversion Hg'. left. reflexivity.
      * right. eapply Hall; eassumption.
    + exists r. split; [reflexivity|].
      intros it' meta' [<-|Hin] Hg'; [congruence|]. eapply Hall; eassumption.
Qed.

Lemma prices_nonneg_filter (f : Product.t -> bool) (ps : list Product.t) :
  prices_nonneg ps = true -> prices_nonneg (filter f ps) = true.
Proof.
  unfold prices_nonneg. rewrite !forallb_forall. intros H p Hin.
  apply filter_In in Hin as [Hin _]. auto.
Qed.

Lemma barcode_in_truthy (lines : list CartLine.t) (p : Product.t) (bc : string) :
  Cart.barcode_in (filter Cart.truthy (map CartLine.barcode lines)) p = true ->
  Product.barcode p = Some bc -> Cart.truthy bc = true.
Proof.
  unfold Cart.barcode_in. intros H Hb. rewrite Hb in H.
  apply existsb_exists in H as (b' & Hin & He).
  apply String.eqb_eq in He. subst b'. apply filter_In in Hin as [_ Ht]. exact Ht.
Qed.

End GetCartFacts.

Module GetCartShows.

Lemma shows_resolving_lines (db : Store) (user : TokenData.t) :
  prices_nonneg (products db) = true ->
  exists result,
    Cart.get_cart db user = Response result
    /\ forall it product,
        In it (lines_of (carts db) (TokenData.identity user)) ->
        Cart.truthy (CartLine.barcode it) = true ->
        find_one (Cart.has_barcode (CartLine.barcode it)) (products db)
        = Some product ->
        exists p,
          In p result
          /\ Product.barcode p = Some (CartLine.barcode it)
          /\ Product.quantity p = Z.max (CartLine.quantity it) 0.
Proof.
  intros Hprices. unfold Cart.get_cart. rewrite CartFacts.lines_of_find.
  set (lines := lines_of (carts db) (TokenData.identity user)).
  destruct lines as [|l ls] eqn:El.
  - exists []. split; [reflexivity|]. intros it product [].
  - rewrite <- El. clear El.
    destruct (filter Cart.truthy (map CartLine.barcode lines)) as [|b0 bs] eqn:Eb.
    + exists []. split; [reflexivity|]. intros it product Hin Ht _. exfalso.
      assert (In (CartLine.barcode it)
                 (filter Cart.truthy (map CartLine.barcode lines))).
      { apply filter_In. split; [apply in_map, Hin|exact Ht]. }
      rewrite Eb in H. contradiction.
    + rewrite <- Eb. clear Eb.
      set (barcodes := filter Cart.truthy (map CartLine.barcode lines)).
      destruct (GetCartFacts.merge_lines_complete
                  (filter (Cart.barcode_in barcodes) (products db)) lines
                  (GetCartFacts.prices_nonneg_filter _ _ Hprices))
        as (r & Hr & Hall).
      rewrite Hr. exists r. split; [reflexivity|].
      intros it product Hin Ht Hfind.
      apply find_some in Hfind as [Hpin Hpb].
      unfold Cart.has_barcode in Hpb.
      destruct (Product.barcode product) as [b'|] eqn:Hb'; [|discriminate].
      apply String.eqb_eq in Hpb. subst b'.
      assert (Hfound : In product (filter (Cart.barcode_in barcodes) (products db))).
      { apply filter_In. split; [exact Hpin|].
        unfold Cart.barcode_in. rewrite Hb'. apply existsb_exists.
        exists (CartLine.barcode it). split; [|apply String.eqb_refl].
        apply filter_In. split; [apply in_map, Hin|exact Ht]. }
      destruct (GetCartFacts.by_barcode_get_found _ _ _ Hfound Hb') as [meta Hg].
      exists (Product.set_quantity (Z.max (CartLine.quantity it) 0) meta).
      split; [apply (Hall it meta Hin Hg)|].
      destruct (GetCartFacts.by_barcode_get_some _ _ _ Hg) as [_ Hmb].
      split; [exact Hmb|reflexivity].
Qed.

End GetCartShows.

(** X6. [get_cart] answers with the empty list for a user without a
    cart or with an empty one.  Every product it returns is a product
    of the catalog whose barcode is the non-empty barcode of one of
    the user's cart lines, with its quantity replaced by that line's
    quantity, negative quantities shown as 0; there is at most one
    product per cart line (lines that do not resolve are dropped). *)
Theorem get_cart_returns_merged_lines
        (db : Store) (user : TokenData.t) (result : list Product.t) :
  let lines := lines_of (carts db) (TokenData.identity user) in
  (lines = [] -> Cart.get_cart db user = Response [])
  /\ (Cart.get_cart db user = Response result ->
      Forall
        (fun p =>
           0 <= Product.quantity p
           /\ exists it meta,
               In it lines /\ In meta (products db)
               /\ Cart.truthy (CartLine.barcode it) = true
               /\ Product.barcode meta = Some (CartLine.barcode it)
               /\ p = Product.set_quantity (Z.max (CartLine.quantity it) 0) meta)
        result
      /\ (List.length result <= List.length lines)%nat).
Proof.
  cbv zeta. unfold Cart.get_cart. rewrite CartFacts.lines_of_find.
  set (lines := lines_of (carts db) (TokenData.identity user)).
  split; [intros ->; reflexivity|].
  destruct lines as [|l ls] eqn:El.
  - intros H. inversion H. split; [constructor|cbn; lia].
  - rewrite <- El. clear El.
    destruct (filter Cart.truthy (map CartLine.barcode lines)) as [|b0 bs] eqn:Eb.
    + intros H. inversion H. split; [constructor|cbn; lia].
    + rewrite <- Eb.
      destruct (Cart.merge_lines _ lines) as [r|] eqn:Hm; [|discriminate].
      intros H. inversion H; subst r.
      destruct (GetCartFacts.merge_lines_result _ _ _ Hm) as [Hr Hlen].
      split; [|exact Hlen]. eapply Forall_impl; [|exact Hr].
      intros p [H0 (it & meta & Hin & Hf & Hb & Hp)]. split; [exact H0|].
      apply filter_In in Hf as [Hf Hbi].
      exists it, meta. repeat split; auto.
      apply (GetCartFacts.barcode_in_truthy lines meta _ Hbi Hb).
Qed.

Lemma get_cart_returns_merged_lines_witness :
  Cart.get_cart Sample.stale_line_cart Sample.guest = Response []
  /\ Cart.get_cart Sample.stale_line_cart Sample.shopper
     = Response [Sample.chips 2; Sample.noodles 3]
  /\ Forall
       (fun p =>
          0 <= Product.quantity p
          /\ exists it meta,
              In it (lines_of (carts Sample.stale_line_cart) "CARD123")
              /\ In meta (products Sample.stale_line_cart)
              /\ Cart.truthy (CartLine.barcode it) = true
              /\ Product.barcode meta = Some (CartLine.barcode it)
              /\ p = Product.set_quantity (Z.max (CartLine.quantity it) 0) meta)
       [Sample.chips 2; Sample.noodles 3]
  /\ (List.length [Sample.chips 2; Sample.noodles 3]
      <= List.length (lines_of (carts Sample.stale_line_cart) "CARD123"))%nat.
Proof.
  split; [|split; [reflexivity|]].
  - apply (proj1 (get_cart_returns_merged_lines
                    Sample.stale_line_cart Sample.guest [])).
    reflexivity.
  - apply (proj2 (get_cart_returns_merged_lines
                    Sample.stale_line_cart Sample.shopper
                    [Sample.chips 2; Sample.noodles 3])).
    reflexivity.
Defined.

(** X7. When no product of the catalog has a negative price,
    [get_cart] does not raise, and every cart line of the user whose
    barcode is not empty and is the barcode of a product of the
    catalog is shown: with that barcode and the line's quantity
    (0 for a negative one). *)
Theorem get_cart_shows_every_resolving_line (db : Store) (user : TokenData.t) :
  prices_nonneg (products db) = true ->
  exists result,
    Cart.get_cart db user = Response result
    /\ forall it product,
        In it (lines_of (carts db) (TokenData.identity user)) ->
        Cart.truthy (CartLine.barcode it) = true ->
        find_one (Cart.has_barcode (CartLine.barcode it)) (products db)
        = Some product ->
        exists p,
          In p result
          /\ Product.barcode p = Some (CartLine.barcode it)
          /\ Product.quantity p = Z.max (CartLine.quantity it) 0.
Proof. exact (GetCartShows.shows_resolving_lines db user). Qed.

Lemma get_cart_shows_every_resolving_line_witness :
  exists result,
    Cart.get_cart Sample.one_line_cart Sample.shopper = Response result
    /\ forall it product,
        In it (lines_of (carts Sample.one_line_cart) "CARD123") ->
        Cart.truthy (CartLine.barcode it) = true ->
        find_one (Cart.has_barcode (CartLine.barcode it))
                 (products Sample.one_line_cart) = Some product ->
        exists p,
          In p result
          /\ Product.barcode p = Some (CartLine.barcode it)
          /\ Product.quantity p = Z.max (CartLine.quantity it) 0.
Proof.
  exact (get_cart_shows_every_resolving_line
           Sample.one_line_cart Sample.shopper eq_refl).
Defined.

(** X8. After a successful [add] of a barcode that is not empty, in a
    catalog without negative prices, [get_cart] answers and lists a
    product with that barcode whose quantity is what the cart held of
    it before plus the quantity added (0 if that is negative). *)
Theorem add_is_shown_by_get_cart
        (db : Store) (user : TokenData.t) (request : CartOpRequest.t)
        (product : Product.t) :
  let u := TokenData.identity user in
  let b := CartOpRequest.barcode request in
  let q := CartOpRequest.quantity request in
  let held := match line_of (carts db) u b with
              | Some item => CartLine.quantity item
              | None => 0
              end in
  CartOpRequest.action request = "add" ->
  find_one (Cart.has_barcode b) (products db) = Some product ->
  q <= Product.quantity product ->
  Cart.truthy b = true ->
  prices_nonneg (products db) = true ->
  exists result p,
    Cart.get_cart (fst (Cart.cart_operation db user request)) user
    = Response result
    /\ In p result
    /\ Product.barcode p = Some b
    /\ Product.quantity p = Z.max (held + q) 0.
Proof.
  intros u b q held Hadd Hp Hq Ht Hprices.
  destruct (CartSuccess.add_effect db user request product Hadd Hp) as [Hok _].
  destruct (Hok Hq) as [_ Hl]. clear Hok.
  pose proof (EngineFacts.cart_operation_products db user request) as [Hprod _].
  set (db' := fst (Cart.cart_operation db user request)) in *.
  assert (Hprices' : prices_nonneg (products db') = true)
    by (rewrite Hprod; exact Hprices).
  destruct (GetCartShows.shows_resolving_lines db' user Hprices')
    as (result & Hres & Hall).
  assert (Hline : exists it,
             find (Cart.line_is (CartOpRequest.barcode request))
                  (lines_of (carts db') (TokenData.identity user)) = Some it
             /\ CartLine.quantity it = held + q).
  { rewrite Hl. unfold held, line_of, u, b, lines_of.
    destruct (find_one (Cart.owned_by (TokenData.identity user)) (carts db))
      as [c|]; cbn [find].
    - destruct (find (Cart.line_is _) (CartDoc.items c)) as [item|] eqn:Hi.
      + rewrite CartEffects.find_inc_line, Hi. cbn. eauto.
      + rewrite CartEffects.find_push_line;
          [cbn; eauto|exact Hi|unfold Cart.line_is; cbn; apply String.eqb_refl].
    - unfold Cart.push_line, Cart.line_is. cbn. rewrite String.eqb_refl.
      cbn. eauto. }
  destruct Hline as (it & Hfind & Hqty).
  apply find_some in Hfind as [Hin Hb].
  unfold Cart.line_is in Hb. apply String.eqb_eq in Hb.
  destruct (Hall it product Hin) as (p & Hp1 & Hp2 & Hp3).
  - rewrite Hb. exact Ht.
  - rewrite Hb, Hprod. exact Hp.
  - exists result, p. rewrite Hb, Hqty in *. auto.
Qed.

Lemma add_is_shown_by_get_cart_witness :
  exists result p,
    Cart.get_cart (fst (Cart.cart_operation Sample.one_line_cart Sample.shopper
                          (CartOpRequest.mk "8850718820634" "add" 3)))
                  Sample.shopper
    = Response result
    /\ In p result
    /\ Product.barcode p = Some "8850718820634"
    /\ Product.quantity p = Z.max (2 + 3) 0.
Proof.
  exact (add_is_shown_by_get_cart
           Sample.one_line_cart Sample.shopper
           (CartOpRequest.mk "8850718820634" "add" 3) (Sample.chips 10)
           eq_refl eq_refl ltac:(cbn; lia) eq_refl eq_refl).
Defined.

(* ================================================================== *)
(** ** More about checkout and the order endpoints *)
(* ================================================================== *)

Module OrdersFacts.

Lemma role_required_none_iff (roles : list Role.t) (user : TokenData.t) :
  role_required roles user = None <->
  exists r, In r roles /\ TokenData.role user = Some (Role.value r).
Proof.
  unfold role_required. destruct (TokenData.role user) as [s|].
  - destruct (existsb (String.eqb s) (map Role.value roles)) eqn:E.
    + split; [intros _|reflexivity].
      apply existsb_exists in E as (v & Hin & Hv).
      apply in_map_iff in Hin as (r & <- & Hr).
      apply String.eqb_eq in Hv. subst s. eauto.
    + split; [discriminate|]. intros (r & Hr & Hs). exfalso.
      inversion Hs; subst s.
      assert (existsb (String.eqb (Role.value r)) (map Role.value roles) = true);
        [|congruence].
      apply existsb_exists. exists (Role.value r).
      split; [apply in_map, Hr|apply String.eqb_refl].
  - split; [discriminate|]. intros (r & _ & H). discriminate.
Qed.

Lemma customer_role_iff (user : TokenData.t) :
  role_required Orders.allowed_roles user = None <->
  TokenData.role user = Some "shop_client" \/ TokenData.role user = Some "guest".
Proof.
  rewrite role_required_none_iff. split.
  - intros (r & [<-|[<-|[]]] & H); auto.
  - intros [H|H]; [exists Role.SHOP_CLIENT|exists Role.GUEST];
      (split; [cbn; auto|exact H]).
Qed.

(** [validates] looks at the payload only. *)
Lemma validates_set_status (s : OrderStatus.t) (o : OrderHistoryItem.t) :
  Orders.validates (OrderHistoryItem.set_status s o) = Orders.validates o.
Proof.
  unfold Orders.validates, OrderHistoryItem.model_validate. cbn.
  destruct (CheckoutPayload.model_validate (OrderHistoryItem.payload o));
    reflexivity.
Qed.

Lemma validates_iff (o : OrderHistoryItem.t) :
  Orders.validates o = true <-> OrderHistoryItem.model_validate o = Valid o.
Proof.
  unfold Orders.validates.
  destruct (OrderHistoryItem.model_validate o) as [o'|msg] eqn:Hv.
  - destruct (TasksFacts.order_validate_valid _ _ Hv) as [-> _].
    split; reflexivity.
  - split; discriminate.
Qed.

Lemma set_status_validates (oid : string) (s : OrderStatus.t)
      (os : list OrderHistoryItem.t) :
  forallb Orders.validates os = true ->
  forallb Orders.validates (Tasks.set_status oid s os) = true.
Proof.
  intros H. unfold Tasks.set_status. apply update_one_forallb; [exact H|].
  intros d _ Hd. rewrite validates_set_status. exact Hd.
Qed.

(** The order a persisting checkout appends. *)
Lemma checkout_begin_persists (settings : Orders.Settings) (db db' : Store)
      (user : TokenData.t) (p : CheckoutPayload.t) (oid oid' : string)
      (now : Z) (call : Orders.HttpPost) :
  Orders.checkout_begin settings db user p oid now
  = (db', Orders.AwaitingProvider oid' call) ->
  db' = set_order_history
          (order_history db
           ++ [OrderHistoryItem.mk p oid (TokenData.identity user) now
                                   OrderStatus.PENDING]) db
  /\ oid' = oid
  /\ CheckoutPayload.model_validate p = Valid p
  /\ CheckoutPayload.items p <> []
  /\ role_required Orders.allowed_roles user = None.
Proof.
  intros Hb.
  destruct (CheckoutFacts.checkout_begin_cases settings db user p oid now)
    as [[r Hr]|(Hrole & Hv & Hi & Heq)]; [congruence|].
  rewrite Heq in Hb. inversion Hb; subst. auto.
Qed.

Lemma find_order_other (oid oid' : string) (s : OrderStatus.t)
      (os : list OrderHistoryItem.t) :
  oid' <> oid ->
  find_one (Orders.order_is oid') (Tasks.set_status oid s os)
  = find_one (Orders.order_is oid') os.
Proof.
  intros Hne. unfold Tasks.set_status, find_one.
  apply CartEffects.find_update_one_other; [|reflexivity].
  intros d Hd. unfold Orders.order_is in *. apply String.eqb_eq in Hd.
  apply String.eqb_neq. congruence.
Qed.

(** *** Sorting the history *)

Lemma insert_newest_first_perm (o : OrderHistoryItem.t)
      (l : list OrderHistoryItem.t) :
  forall x, In x (Orders.insert_newest_first o l) <-> x = o \/ In x l.
Proof.
  induction l as [|h t IH]; intros x; cbn.
  - split; [intros [H|[]]; auto|intros [H|[]]; auto].
  - destruct (_ <=? _); cbn.
    + split; [intros [H|[H|H]]; auto|intros [H|[H|H]]; auto].
    + rewrite IH. split; [intros [H|[H|H]]; auto|intros [H|[H|H]]; auto].
Qed.

Lemma sort_newest_first_in (l : list OrderHistoryItem.t) :
  forall x, In x (Orders.sort_newest_first l) <-> In x l.
Proof.
  unfold Orders.sort_newest_first.
  induction l as [|h t IH]; intros x; cbn; [reflexivity|].
  rewrite insert_newest_first_perm, IH. split; intros [H|H]; auto.
Qed.

Lemma insert_newest_first_length (o : OrderHistoryItem.t)
      (l : list OrderHistoryItem.t) :
  List.length (Orders.insert_newest_first o l) = S (List.length l).
Proof.
  induction l as [|h t IH]; cbn; [reflexivity|].
  destruct (_ <=? _); cbn; [reflexivity|]. rewrite IH. reflexivity.
Qed.

Lemma sort_newest_first_length (l : list OrderHistoryItem.t) :
  List.length (Orders.sort_newest_first l) = List.length l.
Proof.
  unfold Orders.sort_newest_first.
  induction l as [|h t IH]; cbn; [reflexivity|].
  rewrite insert_newest_first_length, IH. reflexivity.
Qed.

Lemma insert_newest_first_sorted (o : OrderHistoryItem.t)
      (l : list OrderHistoryItem.t) :
  newest_first l = true -> newest_first (Orders.insert_newest_first o l) = true.
Proof.
  induction l as [|h t IH]; cbn [Orders.insert_newest_first newest_first];
    [reflexivity|].
  intros H. apply andb_true_iff in H as [Hh Ht].
  destruct (Z.leb_spec (OrderHistoryItem.created_at h)
                       (OrderHistoryItem.created_at o)) as [Hle|Hgt];
    cbn [newest_first forallb].
  - rewrite Hh, Ht. apply Z.leb_le in Hle. rewrite Hle. cbn.
    rewrite andb_true_r. rewrite forallb_forall in *. intros x Hx.
    specialize (Hh x Hx). apply Z.leb_le in Hh. apply Z.leb_le. lia.
  - rewrite (IH Ht), andb_true_r. rewrite forallb_forall in *.
    intros x Hx. apply insert_newest_first_perm in Hx as [->|Hx];
      [apply Z.leb_le; lia|apply Hh, Hx].
Qed.

Lemma sort_newest_first_sorted (l : list OrderHistoryItem.t) :
  newest_first (Orders.sort_newest_first l) = true.
Proof.
  unfold Orders.sort_newest_first.
  induction l as [|h t IH]; cbn; [reflexivity|].
  apply insert_newest_first_sorted, IH.
Qed.

End OrdersFacts.

(** X9. Checkout and order history are open to the roles
    [shop_client] and [guest] only.  Any other caller, an [admin] or a
    token without a role included, is answered 403 by both; the
    checkout then stores nothing. *)
Theorem orders_require_customer_role
        (settings : Orders.Settings) (render_svg : string -> string)
        (post : Orders.HttpPost -> Orders.ProviderOutcome)
        (db : Store) (user : TokenData.t) (p : CheckoutPayload.t)
        (oid : string) (now : Z) :
  (role_required Orders.allowed_roles user = None <->
   TokenData.role user = Some "shop_client"
   \/ TokenData.role user = Some "guest")
  /\ (TokenData.role user <> Some "shop_client" ->
      TokenData.role user <> Some "guest" ->
      exists detail,
        Orders.initiate_checkout_and_generate_qr settings render_svg post
                                                 db user p oid now
        = (db, HTTPException HTTP_403_FORBIDDEN detail)
        /\ Orders.get_order_history db user
           = HTTPException HTTP_403_FORBIDDEN detail).
Proof.
  split; [apply OrdersFacts.customer_role_iff|].
  intros H1 H2.
  unfold Orders.initiate_checkout_and_generate_qr, Orders.checkout_begin,
    Orders.get_order_history.
  destruct (role_required Orders.allowed_roles user) as [detail|] eqn:Hr;
    [eauto|].
  apply OrdersFacts.customer_role_iff in Hr. tauto.
Qed.

Lemma orders_require_customer_role_witness :
  exists detail,
    Orders.initiate_checkout_and_generate_qr
      Sample.settings (fun data => data) (fun _ => Orders.RequestError)
      Sample.empty_store (TokenData.mk "boss@nova.vn" (Some "admin"))
      Sample.ten_times_two "order-1" 0
    = (Sample.empty_store, HTTPException HTTP_403_FORBIDDEN detail)
    /\ Orders.get_order_history Sample.empty_store
                                (TokenData.mk "boss@nova.vn" (Some "admin"))
       = HTTPException HTTP_403_FORBIDDEN detail.
Proof.
  apply (proj2 (orders_require_customer_role
                  Sample.settings (fun data => data)
                  (fun _ => Orders.RequestError) Sample.empty_store
                  (TokenData.mk "boss@nova.vn" (Some "admin"))
                  Sample.ten_times_two "order-1" 0)); discriminate.
Defined.

(** X10. A checkout with no items never stores an order; when the
    caller's role is allowed and the (empty) payload validates, the
    answer is 400 "Cannot checkout with an empty cart". *)
Theorem checkout_rejects_empty_cart
        (settings : Orders.Settings) (render_svg : string -> string)
        (post : Orders.HttpPost -> Orders.ProviderOutcome)
        (db : Store) (user : TokenData.t) (p : CheckoutPayload.t)
        (oid : string) (now : Z) :
  CheckoutPayload.items p = [] ->
  fst (Orders.initiate_checkout_and_generate_qr settings render_svg post
                                                db user p oid now) = db
  /\ (role_required Orders.allowed_roles user = None ->
      CheckoutPayload.model_validate p = Valid p ->
      snd (Orders.initiate_checkout_and_generate_qr settings render_svg post
                                                    db user p oid now)
      = HTTPException HTTP_400_BAD_REQUEST "Cannot checkout with an empty cart").
Proof.
  intros Hi.
  unfold Orders.initiate_checkout_and_generate_qr, Orders.checkout_begin.
  destruct (role_required Orders.allowed_roles user);
    [split; [reflexivity|discriminate]|].
  destruct (CheckoutPayload.model_validate p) as [p'|msg] eqn:Hv.
  - destruct (CheckoutFacts.model_validate_valid _ _ Hv) as [-> _].
    rewrite Hi. split; reflexivity.
  - split; [reflexivity|discriminate].
Qed.

Lemma checkout_rejects_empty_cart_witness :
  fst (Orders.initiate_checkout_and_generate_qr
         Sample.settings (fun data => data) (fun _ => Orders.RequestError)
         Sample.empty_store Sample.shopper
         (CheckoutPayload.mk [] (PyDecimal.mk 50 (-1)) (PyDecimal.mk 0 0)
                             (PyDecimal.mk 50 (-1)))
         "order-1" 0) = Sample.empty_store.
Proof.
  apply (checkout_rejects_empty_cart
           Sample.settings (fun data => data) (fun _ => Orders.RequestError)
           Sample.empty_store Sample.shopper
           (CheckoutPayload.mk [] (PyDecimal.mk 50 (-1)) (PyDecimal.mk 0 0)
                               (PyDecimal.mk 50 (-1)))
           "order-1" 0).
  reflexivity.
Defined.

Module CheckoutEffects.

(** What a checkout that passes its checks does before the provider is
    called. *)
Lemma checkout_begin_accepts (settings : Orders.Settings) (db : Store)
      (user : TokenData.t) (p : CheckoutPayload.t) (oid : string) (now : Z) :
  role_required Orders.allowed_roles user = None ->
  CheckoutPayload.model_validate p = Valid p ->
  CheckoutPayload.items p <> [] ->
  bson_encodable (OrderHistoryItem.mk p oid (TokenData.identity user) now
                                      OrderStatus.PENDING) = true ->
  Orders.checkout_begin settings db user p oid now
  = (set_order_history
       (order_history db
        ++ [OrderHistoryItem.mk p oid (TokenData.identity user) now
                                OrderStatus.PENDING]) db,
     Orders.AwaitingProvider oid
       (Orders.mkPost "https://api.vietqr.io/v2/generate"
          (VietQRGenerateRequest.mk
             (Orders.VIETQR_ACCOUNT_NO settings)
             (Orders.VIETQR_ACCOUNT_NAME settings)
             (Orders.VIETQR_BANK_BIN settings)
             (PyDecimal.to_int (CheckoutPayload.total_cost p))
             ("Thanh toan don hang " ++ oid)%string
             "compact2")
          (PyDecimal.mk 100 (-1)))).
Proof.
  intros Hr Hv Hi Hb.
  destruct (CheckoutFacts.checkout_begin_cases settings db user p oid now)
    as [[r E]|(_ & _ & _ & E)]; [|exact E].
  exfalso. revert E. unfold Orders.checkout_begin. rewrite Hr, Hv.
  destruct (CheckoutPayload.items p); [congruence|].
  unfold OrderHistoryItem.model_validate. cbn [OrderHistoryItem.payload].
  rewrite Hv, Hb. discriminate.
Qed.

(** The store after any checkout: the same, or with one more pending
    order of the caller. *)
Lemma checkout_store (settings : Orders.Settings)
      (render_svg : string -> string)
      (post : Orders.HttpPost -> Orders.ProviderOutcome)
      (db : Store) (user : TokenData.t) (p : CheckoutPayload.t)
      (oid : string) (now : Z) :
  let db' := fst (Orders.initiate_checkout_and_generate_qr
                    settings render_svg post db user p oid now) in
  db' = db
  \/ (db' = set_order_history
              (order_history db
               ++ [OrderHistoryItem.mk p oid (TokenData.identity user) now
                                       OrderStatus.PENDING]) db
      /\ CheckoutPayload.model_validate p = Valid p).
Proof.
  unfold Orders.initiate_checkout_and_generate_qr.
  destruct (CheckoutFacts.checkout_begin_cases settings db user p oid now)
    as [[r E]|(_ & Hv & _ & E)]; rewrite E; cbn; auto.
Qed.

Lemma find_snoc {A : Type} (f : A -> bool) (l : list A) (a : A) :
  find f (l ++ [a])
  = match find f l with
    | Some x => Some x
    | None => if f a then Some a else None
    end.
Proof.
  induction l as [|h l IH]; cbn; [reflexivity|].
  destruct (f h); [reflexivity|exact IH].
Qed.

Lemma find_order_snoc (os : list OrderHistoryItem.t) (o : OrderHistoryItem.t)
      (oid' : string) :
  find_one (Orders.order_is oid') (os ++ [o])
  = match find_one (Orders.order_is oid') os with
    | Some x => Some x
    | None => if Orders.order_is oid' o then Some o else None
    end.
Proof. apply find_snoc. Qed.

End CheckoutEffects.

(** X11. A checkout by an allowed role, with a payload that validates,
    has at least one item and only item ids and quantities that fit
    in 64 bits (what [insert_one] can encode), to which the provider
    answers code "00" with QR data: the answer carries the fresh
    order id and the rendering of the provider's [qrCode]; the store
    gains exactly one order, the payload as sent, pending, owned by
    the caller, at the end of the collection; catalog and carts are as
    before.  With an id or a quantity beyond 64 bits, [insert_one]
    raises instead: nothing is stored and the checkout fails with the
    500 of an uncaught exception. *)
Theorem checkout_success_effect
        (settings : Orders.Settings) (render_svg : string -> string)
        (post : Orders.HttpPost -> Orders.ProviderOutcome)
        (db : Store) (user : TokenData.t) (p : CheckoutPayload.t)
        (oid : string) (now : Z)
        (api_response : VietQRGenerateResponse.t)
        (data : VietQRGenerateResponse.data_t) :
  let pending_order :=
    OrderHistoryItem.mk p oid (TokenData.identity user) now
                        OrderStatus.PENDING in
  role_required Orders.allowed_roles user = None ->
  CheckoutPayload.model_validate p = Valid p ->
  CheckoutPayload.items p <> [] ->
  (bson_encodable pending_order = true ->
   (forall call, post call = Orders.Answer api_response) ->
   VietQRGenerateResponse.code api_response = "00" ->
   VietQRGenerateResponse.data api_response = Some data ->
   let '(db', r) := Orders.initiate_checkout_and_generate_qr
                      settings render_svg post db user p oid now in
   r = Response (Orders.mkResult
                   "Order created. Please scan the QR code to pay." oid
                   (render_svg (VietQRGenerateResponse.qrCode data)))
   /\ order_history db' = order_history db ++ [pending_order]
   /\ products db' = products db
   /\ carts db' = carts db)
  /\ (bson_encodable pending_order = false ->
      Orders.initiate_checkout_and_generate_qr
        settings render_svg post db user p oid now
      = (db, Uncaught)).
Proof.
  intros pending_order Hr Hv Hi. split.
  - intros Hb Hpost Hcode Hdata.
    unfold Orders.initiate_checkout_and_generate_qr.
    rewrite (CheckoutEffects.checkout_begin_accepts settings db user p oid now
               Hr Hv Hi Hb).
    rewrite Hpost. unfold Orders.checkout_resume. rewrite Hdata, Hcode.
    cbn. auto.
  - intros Hb. unfold Orders.initiate_checkout_and_generate_qr,
      Orders.checkout_begin. rewrite Hr, Hv.
    destruct (CheckoutPayload.items p); [congruence|].
    unfold OrderHistoryItem.model_validate. cbn [OrderHistoryItem.payload].
    rewrite Hv. fold pending_order. rewrite Hb. reflexivity.
Qed.

Lemma checkout_success_effect_witness :
  (let '(db', r) :=
     Orders.initiate_checkout_and_generate_qr
       Sample.settings (fun data => data)
       (fun _ => Orders.Answer
                   (VietQRGenerateResponse.mk
                      "00" "Gen VietQR successful!"
                      (Some (VietQRGenerateResponse.mk_data "000201010212" ""))))
       Sample.empty_store Sample.shopper Sample.ten_times_two "order-1"
       1700000000 in
   r = Response (Orders.mkResult
                   "Order created. Please scan the QR code to pay." "order-1"
                   "000201010212")
   /\ order_history db' = [Sample.pending_ten_times_two]
   /\ products db' = []
   /\ carts db' = [])
  /\ Orders.initiate_checkout_and_generate_qr
       Sample.settings (fun data => data) (fun _ => Orders.RequestError)
       Sample.empty_store Sample.shopper Sample.beyond_int64 "order-1"
       1700000000
     = (Sample.empty_store, Uncaught).
Proof.
  split.
  - apply (proj1 (checkout_success_effect
                    Sample.settings (fun data => data)
                    (fun _ => Orders.Answer
                                (VietQRGenerateResponse.mk
                                   "00" "Gen VietQR successful!"
                                   (Some (VietQRGenerateResponse.mk_data
                                            "000201010212" ""))))
                    Sample.empty_store Sample.shopper Sample.ten_times_two
                    "order-1" 1700000000
                    (VietQRGenerateResponse.mk
                       "00" "Gen VietQR successful!"
                       (Some (VietQRGenerateResponse.mk_data "000201010212" "")))
                    (VietQRGenerateResponse.mk_data "000201010212" "")
                    eq_refl eq_refl ltac:(discriminate)));
      reflexivity.
  - apply (proj2 (checkout_success_effect
                    Sample.settings (fun data => data)
                    (fun _ => Orders.RequestError)
                    Sample.empty_store Sample.shopper Sample.beyond_int64
                    "order-1" 1700000000
                    (VietQRGenerateResponse.mk "00" "" None)
                    (VietQRGenerateResponse.mk_data "" "")
                    eq_refl eq_refl ltac:(discriminate))).
    reflexivity.
Defined.

(** X12. The order a checkout stores is what the public status
    endpoint then shows as [pending] under the returned id, provided
    the id was not in use and the item ids and quantities fit in 64
    bits, so that [insert_one] stores the order; whatever the
    checkout does, the status of every order already stored reads as
    before, and an id that is neither stored nor the new one still
    reads 404. *)
Theorem checkout_order_is_pollable
        (settings : Orders.Settings) (render_svg : string -> string)
        (post : Orders.HttpPost -> Orders.ProviderOutcome)
        (db : Store) (user : TokenData.t) (p : CheckoutPayload.t)
        (oid : string) (now : Z) :
  let db' := fst (Orders.initiate_checkout_and_generate_qr
                    settings render_svg post db user p oid now) in
  (role_required Orders.allowed_roles user = None ->
   CheckoutPayload.model_validate p = Valid p ->
   CheckoutPayload.items p <> [] ->
   bson_encodable (OrderHistoryItem.mk p oid (TokenData.identity user) now
                                       OrderStatus.PENDING) = true ->
   Orders.get_order_status db oid
   = HTTPException HTTP_404_NOT_FOUND "Order not found" ->
   Orders.get_order_status db' oid = Response (oid, OrderStatus.PENDING))
  /\ (forall oid' r,
        Orders.get_order_status db oid' = Response r ->
        Orders.get_order_status db' oid' = Response r)
  /\ (forall oid',
        oid' <> oid ->
        Orders.get_order_status db' oid' = Orders.get_order_status db oid').
Proof.
  intros db'.
  pose proof (CheckoutEffects.checkout_store settings render_svg post db user
                p oid now) as Hst.
  fold db' in Hst. split; [|split].
  - intros Hr Hv Hi Hb H404. subst db'.
    unfold Orders.initiate_checkout_and_generate_qr.
    rewrite (CheckoutEffects.checkout_begin_accepts settings db user p oid now
               Hr Hv Hi Hb).
    cbn [fst]. unfold Orders.get_order_status in *. cbn [order_history set_order_history].
    rewrite CheckoutEffects.find_order_snoc.
    destruct (find_one (Orders.order_is oid) (order_history db));
      [discriminate|].
    unfold Orders.order_is. cbn. rewrite String.eqb_refl. reflexivity.
  - intros oid' r H. destruct Hst as [->|[-> _]]; [exact H|].
    revert H. unfold Orders.get_order_status. cbn [order_history set_order_history].
    rewrite CheckoutEffects.find_order_snoc.
    destruct (find_one (Orders.order_is oid') (order_history db));
      [auto|discriminate].
  - intros oid' Hne. destruct Hst as [->|[-> _]]; [reflexivity|].
    unfold Orders.get_order_status. cbn [order_history set_order_history].
    rewrite CheckoutEffects.find_order_snoc.
    destruct (find_one (Orders.order_is oid') (order_history db));
      [reflexivity|].
    unfold Orders.order_is. cbn.
    destruct (String.eqb_spec oid oid'); [congruence|reflexivity].
Qed.

Lemma checkout_order_is_pollable_witness :
  Orders.get_order_status
    (fst (Orders.initiate_checkout_and_generate_qr
            Sample.settings (fun data => data) (fun _ => Orders.RequestError)
            Sample.empty_store Sample.shopper Sample.ten_times_two "order-1"
            1700000000))
    "order-1"
  = Response ("order-1", OrderStatus.PENDING).
Proof.
  apply (proj1 (checkout_order_is_pollable
                  Sample.settings (fun data => data)
                  (fun _ => Orders.RequestError)
                  Sample.empty_store Sample.shopper Sample.ten_times_two
                  "order-1" 1700000000));
    try reflexivity; discriminate.
Defined.

Module HistoryFacts.

Lemma insert_newest_first_permutation (o : OrderHistoryItem.t)
      (l : list OrderHistoryItem.t) :
  Permutation (Orders.insert_newest_first o l) (o :: l).
Proof.
  induction l as [|h t IH]; cbn; [apply Permutation_refl|].
  destruct (_ <=? _); [apply Permutation_refl|].
  eapply perm_trans; [apply perm_skip, IH|apply perm_swap].
Qed.

Lemma sort_newest_first_permutation (l : list OrderHistoryItem.t) :
  Permutation (Orders.sort_newest_first l) l.
Proof.
  unfold Orders.sort_newest_first.
  induction l as [|h t IH]; cbn; [apply perm_nil|].
  eapply perm_trans; [apply insert_newest_first_permutation|].
  apply perm_skip, IH.
Qed.

Lemma in_history_of_iff (u : string) (o : OrderHistoryItem.t) :
  Orders.in_history_of u o = true <->
  OrderHistoryItem.user_identity o = u
  /\ OrderHistoryItem.status o <> OrderStatus.PENDING.
Proof.
  unfold Orders.in_history_of. rewrite andb_true_iff, String.eqb_eq.
  destruct (OrderHistoryItem.status o); cbn; split; intros [H1 H2];
    split; congruence.
Qed.

Lemma history_validates (u : string) (os : list OrderHistoryItem.t) :
  forallb Orders.validates os = true ->
  forallb Orders.validates
          (Orders.sort_newest_first (filter (Orders.in_history_of u) os))
  = true.
Proof.
  intros H. rewrite forallb_forall in *. intros x Hx.
  apply (proj1 (OrdersFacts.sort_newest_first_in _ _)) in Hx.
  apply (proj1 (filter_In _ _ _)) in Hx. apply H, (proj1 Hx).
Qed.

(** The worker's writes to [order_history], step by step. *)
Lemma step_order_history (db : Store) (w : Tasks.worker) :
  order_history (fst (Tasks.step db w)) = order_history db
  \/ exists oid s,
       order_history (fst (Tasks.step db w))
       = Tasks.set_status oid s (order_history db).
Proof.
  destruct w as [oid|oid todo utp|oid item utp|item utp|r]; cbn.
  - destruct (find_one _ _) as [o|]; [|auto].
    destruct (negb _); [auto|].
    destruct (OrderHistoryItem.model_validate o); auto.
  - destruct todo as [|item rest]; cbn; [eauto|].
    destruct (update_one _ _ (products db)) as [ps n].
    destruct (n =? 0); auto.
  - eauto.
  - destruct utp; auto.
  - auto.
Qed.

End HistoryFacts.

(** X13. For a caller with an allowed role, over a collection whose
    orders validate, the order history is answered with exactly the
    caller's own orders that are not pending (each as often as it is
    stored), newest first. *)
Theorem order_history_lists_own_settled_orders
        (db : Store) (user : TokenData.t) :
  role_required Orders.allowed_roles user = None ->
  forallb Orders.validates (order_history db) = true ->
  exists history,
    Orders.get_order_history db user = Response history
    /\ Permutation history
         (filter (Orders.in_history_of (TokenData.identity user))
                 (order_history db))
    /\ (forall o, In o history <->
                  In o (order_history db)
                  /\ OrderHistoryItem.user_identity o = TokenData.identity user
                  /\ OrderHistoryItem.status o <> OrderStatus.PENDING)
    /\ newest_first history = true.
Proof.
  intros Hr Hv. unfold Orders.get_order_history. rewrite Hr. cbv zeta.
  rewrite (HistoryFacts.history_validates _ _ Hv).
  eexists. split; [reflexivity|]. split; [|split].
  - apply HistoryFacts.sort_newest_first_permutation.
  - intros o. rewrite OrdersFacts.sort_newest_first_in, filter_In,
      HistoryFacts.in_history_of_iff. reflexivity.
  - apply OrdersFacts.sort_newest_first_sorted.
Qed.

Lemma order_history_lists_own_settled_orders_witness :
  exists history,
    Orders.get_order_history Sample.four_orders Sample.shopper
    = Response history
    /\ history
       = [Sample.order_of "CARD123" 1700000300 "order-4" OrderStatus.FAILED;
          Sample.order_of "CARD123" 1700000000 "order-1" OrderStatus.COMPLETED]
    /\ Permutation history
         (filter (Orders.in_history_of (TokenData.identity Sample.shopper))
                 (order_history Sample.four_orders))
    /\ (forall o, In o history <->
                  In o (order_history Sample.four_orders)
                  /\ OrderHistoryItem.user_identity o
                     = TokenData.identity Sample.shopper
                  /\ OrderHistoryItem.status o <> OrderStatus.PENDING)
    /\ newest_first history = true.
Proof.
  destruct (order_history_lists_own_settled_orders
              Sample.four_orders Sample.shopper eq_refl eq_refl)
    as (history & Hget & Hperm & Hin & Hsorted).
  exists history. split; [exact Hget|]. split; [|auto].
  assert (E : Orders.get_order_history Sample.four_orders Sample.shopper
              = Response
                  [Sample.order_of "CARD123" 1700000300 "order-4"
                                   OrderStatus.FAILED;
                   Sample.order_of "CARD123" 1700000000 "order-1"
                                   OrderStatus.COMPLETED])
    by reflexivity.
  rewrite E in Hget. inversion Hget. reflexivity.
Defined.

(** X14. That every stored order validates as an [OrderHistoryItem] is
    kept by the checkout, by the worker run to its end and by each of
    its store calls; while it holds, the worker never raises on
    [model_validate] and the order history never fails to build its
    response. *)
Theorem stored_orders_keep_validating
        (settings : Orders.Settings) (render_svg : string -> string)
        (post : Orders.HttpPost -> Orders.ProviderOutcome)
        (db : Store) (user : TokenData.t) (p : CheckoutPayload.t)
        (oid : string) (now : Z) (w : Tasks.worker) :
  forallb Orders.validates (order_history db) = true ->
  forallb Orders.validates
          (order_history (fst (Orders.initiate_checkout_and_generate_qr
                                 settings render_svg post db user p oid now)))
  = true
  /\ forallb Orders.validates (order_history (fst (Tasks.process_order db oid)))
     = true
  /\ forallb Orders.validates (order_history (fst (Tasks.step db w))) = true
  /\ snd (Tasks.process_order db oid) <> Tasks.Raise
  /\ snd (Tasks.step db (Tasks.Fetch oid)) <> Tasks.Done Tasks.Raise
  /\ Orders.get_order_history db user <> Uncaught.
Proof.
  intros Hv. repeat split.
  - destruct (CheckoutEffects.checkout_store settings render_svg post db user
                p oid now) as [->|[-> Hp]]; [exact Hv|].
    cbn [order_history set_order_history]. rewrite forallb_app, Hv. cbn.
    rewrite andb_true_r. apply OrdersFacts.validates_iff.
    unfold OrderHistoryItem.model_validate. cbn [OrderHistoryItem.payload].
    rewrite Hp. reflexivity.
  - destruct (TasksFacts.process_order_status_forward db oid)
      as [->|(_ & s & _ & -> & _)]; [exact Hv|].
    apply OrdersFacts.set_status_validates, Hv.
  - destruct (HistoryFacts.step_order_history db w) as [->|(o & s & ->)];
      [exact Hv|]. apply OrdersFacts.set_status_validates, Hv.
  - unfold Tasks.process_order.
    destruct (find_one _ _) as [o|] eqn:Hf; [|discriminate].
    destruct (negb _); [discriminate|].
    apply find_some in Hf as [Hin _].
    rewrite forallb_forall in Hv. apply Hv, OrdersFacts.validates_iff in Hin.
    rewrite Hin. clear.
    generalize (@nil Product.t). generalize db.
    induction (OrderHistoryItem.items o) as [|item rest IH]; intros d utp;
      cbn [Tasks.reserve]; [discriminate|].
    destruct (update_one _ _ (products d)) as [ps n].
    destruct (n =? 0); [discriminate|apply IH].
  - cbn. destruct (find_one _ _) as [o|] eqn:Hf; [|discriminate].
    destruct (negb _); [discriminate|].
    apply find_some in Hf as [Hin _].
    rewrite forallb_forall in Hv. apply Hv, OrdersFacts.validates_iff in Hin.
    rewrite Hin. discriminate.
  - unfold Orders.get_order_history.
    destruct (role_required _ _); [discriminate|]. cbv zeta.
    rewrite (HistoryFacts.history_validates _ _ Hv). discriminate.
Qed.

Lemma stored_orders_keep_validating_witness :
  snd (Tasks.process_order Sample.short_of_noodles "order-1") <> Tasks.Raise.
Proof.
  apply (stored_orders_keep_validating
           Sample.settings (fun data => data) (fun _ => Orders.RequestError)
           Sample.short_of_noodles Sample.shopper Sample.ten_times_two
           "order-1" 0 (Tasks.Fetch "order-1")).
  reflexivity.
Defined.

(* ================================================================== *)
(** ** More about the inventory worker *)
(* ================================================================== *)

Module StockFacts.

Lemma total_stock_update_one (f : Product.t -> bool) (delta : Z)
      (ps : list Product.t) :
  total_stock (fst (update_one f (Tasks.inc_quantity delta) ps))
  = total_stock ps + (if existsb f ps then delta else 0).
Proof.
  induction ps as [|p ps IH]; cbn [update_one existsb]; [reflexivity|].
  destruct (f p); cbn [orb fst total_stock fold_right].
  - unfold Tasks.inc_quantity. cbn. fold (total_stock ps). lia.
  - destruct (update_one f _ ps) as [ps' n]. cbn [fst] in *.
    cbn [total_stock fold_right]. fold (total_stock ps') (total_stock ps).
    lia.
Qed.

Lemma in_stock_has_id (item : Product.t) (ps : list Product.t) :
  existsb (Tasks.in_stock_for item) ps = true ->
  existsb (Tasks.has_id item) ps = true.
Proof.
  intros H. apply existsb_exists in H as (p & Hin & Hp).
  apply existsb_exists. exists p. split; [exact Hin|].
  unfold Tasks.in_stock_for in Hp. apply andb_true_iff in Hp as [Hp _].
  exact Hp.
Qed.

Lemma has_id_update_one (u : Product.t) (f : Product.t -> bool) (delta : Z)
      (ps : list Product.t) :
  existsb (Tasks.has_id u) (fst (update_one f (Tasks.inc_quantity delta) ps))
  = existsb (Tasks.has_id u) ps.
Proof. apply TasksFacts.existsb_has_id_ids, update_one_map. reflexivity. Qed.

Lemma requested_app (a b : list Product.t) :
  requested (a ++ b) = requested a + requested b.
Proof.
  unfold requested. induction a as [|x a IH]; cbn; [reflexivity|].
  rewrite IH. lia.
Qed.

(** The compensation loop gives back every piece of its list, each to
    some product with the id of the line. *)
Lemma rollback_total (utp : list Product.t) :
  forall ps : list Product.t,
    forallb (fun u => existsb (Tasks.has_id u) ps) utp = true ->
    total_stock (Tasks.rollback ps utp) = total_stock ps + requested utp.
Proof.
  induction utp as [|u utp IH]; intros ps H; cbn [Tasks.rollback requested
    fold_right]; [lia|].
  cbn [forallb] in H. apply andb_true_iff in H as [Hu Hrest].
  rewrite IH.
  - rewrite total_stock_update_one, Hu. fold (requested utp). lia.
  - rewrite forallb_forall in *. intros x Hx.
    rewrite has_id_update_one. apply Hrest, Hx.
Qed.

Lemma reserve_total (oid : string) (todo : list Product.t) :
  forall (db : Store) (utp : list Product.t),
    forallb (fun u => existsb (Tasks.has_id u) (products db)) utp = true ->
    (snd (Tasks.reserve db oid todo utp) = Tasks.completed ->
     total_stock (products (fst (Tasks.reserve db oid todo utp)))
     = total_stock (products db) - requested todo)
    /\ (snd (Tasks.reserve db oid todo utp) <> Tasks.completed ->
        total_stock (products (fst (Tasks.reserve db oid todo utp)))
        = total_stock (products db) + requested utp).
Proof.
  induction todo as [|item rest IH]; intros db utp Hutp; cbn [Tasks.reserve].
  - split.
    + intros _. cbn [fst products set_order_history requested fold_right]. lia.
    + intros H. exfalso. apply H. reflexivity.
  - pose proof (total_stock_update_one (Tasks.in_stock_for item)
                  (- Product.quantity item) (products db)) as Ht.
    pose proof (update_one_matched (Tasks.in_stock_for item)
                  (Tasks.inc_quantity (- Product.quantity item))
                  (products db)) as Hm.
    destruct (update_one _ _ (products db)) as [ps n] eqn:E. cbn [fst snd] in *.
    destruct (existsb (Tasks.in_stock_for item) (products db)) eqn:Hex; subst n.
    + cbn [Z.eqb].
      destruct (IH (set_products ps db) (utp ++ [item])) as [IH1 IH2].
      * cbn [products set_products]. rewrite forallb_app. cbn [forallb].
        replace ps with (fst (update_one (Tasks.in_stock_for item)
                          (Tasks.inc_quantity (- Product.quantity item))
                          (products db))) by (rewrite E; reflexivity).
        rewrite has_id_update_one, (in_stock_has_id _ _ Hex). cbn.
        rewrite andb_true_r. rewrite forallb_forall in *. intros x Hx.
        rewrite has_id_update_one. apply Hutp, Hx.
      * cbn [products set_products] in IH1, IH2. split.
        -- intros Hc. rewrite (IH1 Hc), Ht. cbn [requested fold_right].
           fold (requested rest). lia.
        -- intros Hc. rewrite (IH2 Hc), Ht, requested_app.
           cbn [requested fold_right]. lia.
    + cbn [Z.eqb fst snd products set_products set_order_history]. split.
      * discriminate.
      * intros _. apply rollback_total, Hutp.
Qed.

(** With one product per id, adding to the stock of an id is a map
    over the catalog. *)
Lemma add_stock_map (item : Product.t) (delta : Z) (ps : list Product.t) :
  unique_ids ps = true ->
  existsb (Tasks.has_id item) ps = true ->
  add_stock item delta ps
  = map (fun p => if Tasks.has_id item p then Tasks.inc_quantity delta p
                  else p) ps.
Proof.
  induction ps as [|p ps IH]; intros Hu He; [discriminate|].
  rewrite TasksFacts.add_stock_cons. cbn [map].
  cbn [unique_ids] in Hu. apply andb_true_iff in Hu as [Hp Hu].
  destruct (Tasks.has_id item p) eqn:Hid.
  - f_equal. apply negb_true_iff in Hp.
    rewrite <- (map_id ps) at 1. apply map_ext_in. intros q Hq.
    destruct (Tasks.has_id item q) eqn:Hq'; [|reflexivity]. exfalso.
    assert (existsb (Tasks.has_id p) ps = true) as Hex; [|congruence].
    apply existsb_exists. exists q. split; [exact Hq|].
    unfold Tasks.has_id in *. apply Z.eqb_eq in Hid, Hq'. apply Z.eqb_eq. lia.
  - f_equal. cbn [existsb] in He. rewrite Hid in He. apply IH; assumption.
Qed.

Lemma after_order_cons (item : Product.t) (rest : list Product.t)
      (p : Product.t) :
  after_order rest
    (if Tasks.has_id item p
     then Tasks.inc_quantity (- Product.quantity item) p else p)
  = after_order (item :: rest) p.
Proof.
  unfold after_order, taken. cbn [filter].
  assert (forall d q, filter (fun i => Tasks.has_id i (Tasks.inc_quantity d q)) rest
                      = filter (fun i => Tasks.has_id i q) rest) as Hf.
  { intros d q. apply filter_ext. intros i. reflexivity. }
  destruct (Tasks.has_id item p).
  - rewrite Hf, TasksFacts.inc_quantity_inc. cbn [requested fold_right].
    f_equal. fold (requested (filter (fun i => Tasks.has_id i p) rest)). lia.
  - reflexivity.
Qed.

Lemma reserve_completed (oid : string) (todo : list Product.t) :
  forall (db : Store) (utp : list Product.t),
    unique_ids (products db) = true ->
    snd (Tasks.reserve db oid todo utp) = Tasks.completed ->
    products (fst (Tasks.reserve db oid todo utp))
    = map (after_order todo) (products db).
Proof.
  induction todo as [|item rest IH]; intros db utp Hu; cbn [Tasks.reserve].
  - intros _. cbn. rewrite <- (map_id (products db)) at 1.
    apply map_ext. intros p. unfold after_order, taken. cbn.
    rewrite TasksFacts.inc_quantity_zero. reflexivity.
  - pose proof (TasksFacts.decrement_is_add_stock item (products db) Hu) as Hd.
    pose proof (update_one_matched (Tasks.in_stock_for item)
                  (Tasks.inc_quantity (- Product.quantity item))
                  (products db)) as Hm.
    pose proof (TasksFacts.unique_ids_update_one (Tasks.in_stock_for item)
                  (- Product.quantity item) (products db)) as Hu'.
    destruct (update_one _ _ (products db)) as [ps n] eqn:E. cbn [fst snd] in *.
    destruct (existsb (Tasks.in_stock_for item) (products db)) eqn:Hex; subst n.
    + cbn [Z.eqb]. intros Hc.
      rewrite (IH (set_products ps db) (utp ++ [item]));
        [|cbn; congruence|exact Hc].
      cbn [products set_products]. rewrite (Hd eq_refl).
      rewrite add_stock_map; [|exact Hu|apply in_stock_has_id, Hex].
      rewrite map_map. apply map_ext. intros p. apply after_order_cons.
    + cbn [Z.eqb snd]. discriminate.
Qed.

End StockFacts.

(** X15. The worker conserves stock, whatever the catalog (also with
    several products under one id): when [process_order] reports
    success, the stock of the whole catalog has gone down by exactly
    the pieces the lines of the order ask for; in every other case
    (not paid, not found, a line that cannot be served, a document
    that does not validate) the total is what it was. *)
Theorem process_order_conserves_stock (db : Store) (oid : string) :
  (snd (Tasks.process_order db oid) = Tasks.completed ->
   exists o,
     find_one (Orders.order_is oid) (order_history db) = Some o
     /\ total_stock (products (fst (Tasks.process_order db oid)))
        = total_stock (products db) - requested (OrderHistoryItem.items o))
  /\ (snd (Tasks.process_order db oid) <> Tasks.completed ->
      total_stock (products (fst (Tasks.process_order db oid)))
      = total_stock (products db)).
Proof.
  unfold Tasks.process_order.
  destruct (find_one _ _) as [o|] eqn:Hf;
    [|split; [discriminate|reflexivity]].
  destruct (negb _); [split; [discriminate|reflexivity]|].
  destruct (OrderHistoryItem.model_validate o) as [o'|msg] eqn:Hv;
    [|split; [discriminate|reflexivity]].
  destruct (TasksFacts.order_validate_valid _ _ Hv) as [-> _].
  destruct (StockFacts.reserve_total oid (OrderHistoryItem.items o) db []
              eq_refl) as [H1 H2].
  split.
  - intros Hc. exists o. split; [reflexivity|apply H1, Hc].
  - intros Hc. rewrite (H2 Hc). cbn. lia.
Qed.

Lemma process_order_conserves_stock_witness :
  total_stock (products (fst (Tasks.process_order Sample.short_of_noodles
                                                  "order-1")))
  = total_stock (products Sample.short_of_noodles).
Proof.
  apply (proj2 (process_order_conserves_stock Sample.short_of_noodles
                                              "order-1")).
  vm_compute. discriminate.
Defined.

(** X16. With one product per id, an order that [process_order]
    completes takes from each product exactly the pieces its lines ask
    of that product's id, and changes nothing else of the catalog:
    neither its order nor any other field. *)
Theorem completed_order_takes_its_lines (db : Store) (oid : string) :
  unique_ids (products db) = true ->
  snd (Tasks.process_order db oid) = Tasks.completed ->
  exists o,
    find_one (Orders.order_is oid) (order_history db) = Some o
    /\ products (fst (Tasks.process_order db oid))
       = map (after_order (OrderHistoryItem.items o)) (products db).
Proof.
  intros Hu. unfold Tasks.process_order.
  destruct (find_one _ _) as [o|] eqn:Hf; [|discriminate].
  destruct (negb _); [discriminate|].
  destruct (OrderHistoryItem.model_validate o) as [o'|msg] eqn:Hv;
    [|discriminate].
  destruct (TasksFacts.order_validate_valid _ _ Hv) as [-> _].
  intros Hc. exists o. split; [reflexivity|].
  apply StockFacts.reserve_completed; assumption.
Qed.

Lemma completed_order_takes_its_lines_witness :
  exists o,
    find_one (Orders.order_is "order-1")
             (order_history (Engine.store Sample.two_pieces_each)) = Some o
    /\ products (fst (Tasks.process_order (Engine.store Sample.two_pieces_each)
                                          "order-1"))
       = map (after_order (OrderHistoryItem.items o))
             (products (Engine.store Sample.two_pieces_each)).
Proof.
  apply (completed_order_takes_its_lines
           (Engine.store Sample.two_pieces_each) "order-1"); reflexivity.
Defined.

Module WorkerWrites.

Lemma forget_status_set_status (oid : string) (s : OrderStatus.t)
      (os : list OrderHistoryItem.t) :
  map forget_status (Tasks.set_status oid s os) = map forget_status os.
Proof. unfold Tasks.set_status. apply update_one_map. reflexivity. Qed.

Lemma fields_update_one (f : Product.t -> bool) (delta : Z)
      (ps : list Product.t) :
  map (Product.set_quantity 0)
      (fst (update_one f (Tasks.inc_quantity delta) ps))
  = map (Product.set_quantity 0) ps.
Proof. apply update_one_map. reflexivity. Qed.

(** One store call of the worker writes a status or a stock quantity
    and nothing else. *)
Lemma step_confined (db : Store) (w : Tasks.worker) :
  carts (fst (Tasks.step db w)) = carts db
  /\ map forget_status (order_history (fst (Tasks.step db w)))
     = map forget_status (order_history db)
  /\ map (Product.set_quantity 0) (products (fst (Tasks.step db w)))
     = map (Product.set_quantity 0) (products db).
Proof.
  destruct w as [oid|oid todo utp|oid item utp|item utp|r];
    cbn [Tasks.step].
  - destruct (find_one _ _) as [o|]; [|auto].
    destruct (negb _); [auto|].
    destruct (OrderHistoryItem.model_validate o); auto.
  - destruct todo as [|item rest].
    + cbn. rewrite forget_status_set_status. auto.
    + pose proof (fields_update_one (Tasks.in_stock_for item)
                    (- Product.quantity item) (products db)) as Hf.
      destruct (update_one _ _ (products db)) as [ps n].
      destruct (n =? 0); cbn in *; auto.
  - cbn. rewrite forget_status_set_status. auto.
  - destruct utp as [|u rest]; cbn; [auto|].
    rewrite fields_update_one. auto.
  - auto.
Qed.

Lemma run_confined (n : nat) :
  forall (db : Store) (w : Tasks.worker),
    carts (fst (Tasks.run n db w)) = carts db
    /\ map forget_status (order_history (fst (Tasks.run n db w)))
       = map forget_status (order_history db)
    /\ map (Product.set_quantity 0) (products (fst (Tasks.run n db w)))
       = map (Product.set_quantity 0) (products db).
Proof.
  induction n as [|n IH]; intros db w; cbn [Tasks.run]; [auto|].
  pose proof (step_confined db w) as (H1 & H2 & H3).
  destruct (Tasks.step db w) as [db1 w1]. cbn [fst] in *.
  destruct (IH db1 w1) as (I1 & I2 & I3).
  repeat split; congruence.
Qed.

(** How the reservation loop ends: all lines served and the order
    completed, or some line of the order not served and the order
    failed. *)
Lemma reserve_outcome (oid : string) (todo : list Product.t) :
  forall (db : Store) (utp : list Product.t),
    (snd (Tasks.reserve db oid todo utp) = Tasks.completed
     /\ order_history (fst (Tasks.reserve db oid todo utp))
        = Tasks.set_status oid OrderStatus.COMPLETED (order_history db))
    \/ (exists item,
          In item todo
          /\ snd (Tasks.reserve db oid todo utp) = Tasks.insufficient item
          /\ order_history (fst (Tasks.reserve db oid todo utp))
             = Tasks.set_status oid OrderStatus.FAILED (order_history db)).
Proof.
  induction todo as [|item rest IH]; intros db utp; cbn [Tasks.reserve].
  - left. auto.
  - destruct (update_one _ _ (products db)) as [ps n].
    destruct (n =? 0).
    + right. exists item. cbn. auto.
    + destruct (IH (set_products ps db) (utp ++ [item]))
        as [[H1 H2]|(i & Hi & H1 & H2)].
      * left. auto.
      * right. exists i. cbn [In]. auto.
Qed.

Lemma status_after_set_status (db : Store) (oid : string)
      (s : OrderStatus.t) (os : list OrderHistoryItem.t) (o : OrderHistoryItem.t) :
  find_one (Orders.order_is oid) (order_history db) = Some o ->
  os = Tasks.set_status oid s (order_history db) ->
  find_one (Orders.order_is oid) os = Some (OrderHistoryItem.set_status s o).
Proof.
  intros Hf ->. rewrite TasksFacts.find_set_status, Hf. reflexivity.
Qed.

Lemma not_paid_iff (db : Store) (oid : string) :
  status_of db oid <> Some OrderStatus.PAID <->
  match find_one (Orders.order_is oid) (order_history db) with
  | None => True
  | Some o => negb (OrderStatus.eqb (OrderHistoryItem.status o)
                                    OrderStatus.PAID) = true
  end.
Proof.
  unfold status_of. destruct (find_one _ _) as [o|]; cbn.
  - destruct (OrderHistoryItem.status o); cbn; split; congruence.
  - split; [auto|discriminate].
Qed.

Lemma process_order_not_paid (db : Store) (oid : string) :
  status_of db oid <> Some OrderStatus.PAID ->
  Tasks.process_order db oid = (db, Tasks.not_paid).
Proof.
  intros H. apply not_paid_iff in H.
  unfold Tasks.process_order. destruct (find_one _ _) as [o|]; [|reflexivity].
  rewrite H. reflexivity.
Qed.

End WorkerWrites.

(** X17. What the worker writes: each of its store calls, and so the
    whole of [process_order], leaves every cart alone, changes of an
    order nothing but its status and of a product nothing but its
    quantity, and keeps both collections in their order; run to its
    end it leaves the status of every order other than its own as it
    was. *)
Theorem worker_writes_status_and_stock_only
        (db : Store) (oid : string) (w : Tasks.worker) :
  (let db' := fst (Tasks.step db w) in
   carts db' = carts db
   /\ map forget_status (order_history db')
      = map forget_status (order_history db)
   /\ map (Product.set_quantity 0) (products db')
      = map (Product.set_quantity 0) (products db))
  /\ (let db' := fst (Tasks.process_order db oid) in
      carts db' = carts db
      /\ map forget_status (order_history db')
         = map forget_status (order_history db)
      /\ map (Product.set_quantity 0) (products db')
         = map (Product.set_quantity 0) (products db)
      /\ forall oid', oid' <> oid ->
                      find_one (Orders.order_is oid') (order_history db')
                      = find_one (Orders.order_is oid') (order_history db)).
Proof.
  split; [apply WorkerWrites.step_confined|]. cbv zeta.
  destruct (TasksFacts.process_order_run db oid) as [n Hn].
  pose proof (WorkerWrites.run_confined n db (Tasks.Fetch oid)) as Hc.
  rewrite Hn in Hc. cbn [fst] in Hc. destruct Hc as (H1 & H2 & H3).
  repeat split; try assumption.
  intros oid' Hne.
  destruct (TasksFacts.process_order_status_forward db oid)
    as [->|(_ & s & _ & -> & _)]; [reflexivity|].
  apply OrdersFacts.find_order_other, Hne.
Qed.

Lemma worker_writes_status_and_stock_only_witness :
  find_one (Orders.order_is "order-2")
           (order_history (fst (Tasks.process_order Sample.short_of_noodles
                                                    "order-1")))
  = find_one (Orders.order_is "order-2")
             (order_history Sample.short_of_noodles).
Proof.
  pose proof (proj2 (worker_writes_status_and_stock_only
                       Sample.short_of_noodles "order-1"
                       (Tasks.Fetch "order-1"))) as H.
  cbv zeta in H. destruct H as (_ & _ & _ & H). apply H. discriminate.
Defined.

(** X18. Run without interruption on a [paid] order whose document
    validates, [process_order] settles the order once: it reports
    success and leaves the order [completed], or it names a line of
    the order that it could not serve and leaves the order [failed];
    and a second run for the same id, after the first has returned,
    changes nothing and reports "not found or not paid". *)
Theorem process_order_settles_once (db : Store) (oid : string) :
  let db' := fst (Tasks.process_order db oid) in
  let r := snd (Tasks.process_order db oid) in
  status_of db oid = Some OrderStatus.PAID ->
  r <> Tasks.Raise ->
  ((r = Tasks.completed /\ status_of db' oid = Some OrderStatus.COMPLETED)
   \/ (exists o item,
         find_one (Orders.order_is oid) (order_history db) = Some o
         /\ In item (OrderHistoryItem.items o)
         /\ r = Tasks.insufficient item
         /\ status_of db' oid = Some OrderStatus.FAILED))
  /\ Tasks.process_order db' oid = (db', Tasks.not_paid).
Proof.
  cbv zeta. intros Hp Hr.
  assert (Hpaid :
            (snd (Tasks.process_order db oid) = Tasks.completed
             /\ status_of (fst (Tasks.process_order db oid)) oid
                = Some OrderStatus.COMPLETED)
            \/ (exists o item,
                  find_one (Orders.order_is oid) (order_history db) = Some o
                  /\ In item (OrderHistoryItem.items o)
                  /\ snd (Tasks.process_order db oid) = Tasks.insufficient item
                  /\ status_of (fst (Tasks.process_order db oid)) oid
                     = Some OrderStatus.FAILED)).
  { revert Hp Hr. unfold status_of at 1. unfold Tasks.process_order.
    destruct (find_one _ _) as [o|] eqn:Hf; [|discriminate].
    cbn [option_map]. intros Hs. inversion Hs as [Hs']. rewrite Hs'.
    cbn [OrderStatus.eqb negb].
    destruct (OrderHistoryItem.model_validate o) as [o'|msg] eqn:Hv;
      [|intros H; exfalso; apply H; reflexivity].
    destruct (TasksFacts.order_validate_valid _ _ Hv) as [-> _]. intros _.
    destruct (WorkerWrites.reserve_outcome oid (OrderHistoryItem.items o) db [])
      as [[H1 H2]|(item & Hin & H1 & H2)].
    - left. split; [exact H1|]. unfold status_of.
      rewrite (WorkerWrites.status_after_set_status db oid _ _ o Hf H2).
      reflexivity.
    - right. exists o, item. repeat split; try assumption. unfold status_of.
      rewrite (WorkerWrites.status_after_set_status db oid _ _ o Hf H2).
      reflexivity. }
  split; [exact Hpaid|].
  apply WorkerWrites.process_order_not_paid.
  destruct Hpaid as [[_ ->]|(o & item & _ & _ & _ & ->)]; discriminate.
Qed.

Lemma process_order_settles_once_witness :
  Tasks.process_order
    (fst (Tasks.process_order Sample.short_of_noodles "order-1")) "order-1"
  = (fst (Tasks.process_order Sample.short_of_noodles "order-1"),
     Tasks.not_paid).
Proof.
  apply (process_order_settles_once Sample.short_of_noodles "order-1");
    [reflexivity|vm_compute; discriminate].
Defined.

(* ================================================================== *)
(** ** More about the totals validator *)
(* ================================================================== *)

Module ValidatorFacts.

Lemma fits_abs_exact (d : PyDecimal.t) :
  PyDecimal.fits (PyDecimal.abs_exact d) = PyDecimal.fits d.
Proof.
  unfold PyDecimal.fits, PyDecimal.abs_exact. cbn [PyDecimal.coef].
  rewrite Z.abs_idemp. reflexivity.
Qed.

(** When the exact difference needs no rounding, the comparison of the
    validator is the comparison of the numbers. *)
Lemma within_tolerance_Q (declared calculated : PyDecimal.t) :
  PyDecimal.fits (PyDecimal.sub_exact declared calculated) = true ->
  CheckoutPayload.within_tolerance declared calculated = true <->
  (Qabs (PyDecimal.to_Q declared - PyDecimal.to_Q calculated) < 1 # 100)%Q.
Proof.
  intros Hf. unfold CheckoutPayload.within_tolerance, PyDecimal.abs,
    PyDecimal.sub.
  rewrite (PyDecimalFacts.fix_fits _ Hf).
  rewrite PyDecimalFacts.fix_fits by (rewrite fits_abs_exact; exact Hf).
  rewrite PyDecimalFacts.ltb_Qlt, PyDecimalFacts.to_Q_abs_exact,
    PyDecimalFacts.to_Q_sub_exact, PyDecimalFacts.to_Q_cent.
  reflexivity.
Qed.

End ValidatorFacts.

(** X19. The totals validator accepts exactly the payloads it should:
    with every number field non-negative, and the differences between
    declared and recomputed figures representable without rounding, a
    payload validates, and is returned unchanged, if and only if the
    declared subtotal and the declared total are each less than 0.01
    away from the recomputed ones. *)
Theorem validator_accepts_iff_within_a_cent (p : CheckoutPayload.t) :
  CheckoutPayload.fields_ok p = true ->
  PyDecimal.fits (PyDecimal.sub_exact (CheckoutPayload.subtotal p)
                                      (CheckoutPayload.calculated_subtotal p))
  = true ->
  PyDecimal.fits (PyDecimal.sub_exact (CheckoutPayload.total_cost p)
                                      (CheckoutPayload.calculated_total p))
  = true ->
  CheckoutPayload.model_validate p = Valid p <->
  (Qabs (PyDecimal.to_Q (CheckoutPayload.subtotal p)
         - PyDecimal.to_Q (CheckoutPayload.calculated_subtotal p)) < 1 # 100
   /\ Qabs (PyDecimal.to_Q (CheckoutPayload.total_cost p)
            - PyDecimal.to_Q (CheckoutPayload.calculated_total p)) < 1 # 100)%Q.
Proof.
  intros Hf Hs Ht.
  rewrite <- (ValidatorFacts.within_tolerance_Q _ _ Hs),
    <- (ValidatorFacts.within_tolerance_Q _ _ Ht).
  unfold CheckoutPayload.model_validate,
    CheckoutPayload.validate_and_recalculate_totals.
  rewrite Hf.
  destruct (CheckoutPayload.within_tolerance (CheckoutPayload.subtotal p) _);
    cbn [negb].
  - destruct (CheckoutPayload.within_tolerance (CheckoutPayload.total_cost p) _);
      cbn [negb]; split; try reflexivity; try discriminate; auto.
    intros [_ H]. discriminate.
  - split; [discriminate|]. intros [H _]. discriminate.
Qed.

Lemma validator_accepts_iff_within_a_cent_witness :
  CheckoutPayload.model_validate Sample.ten_times_two
  = Valid Sample.ten_times_two <->
  (Qabs (PyDecimal.to_Q (CheckoutPayload.subtotal Sample.ten_times_two)
         - PyDecimal.to_Q (CheckoutPayload.calculated_subtotal
                             Sample.ten_times_two)) < 1 # 100
   /\ Qabs (PyDecimal.to_Q (CheckoutPayload.total_cost Sample.ten_times_two)
            - PyDecimal.to_Q (CheckoutPayload.calculated_total
                                Sample.ten_times_two)) < 1 # 100)%Q.
Proof.
  apply (validator_accepts_iff_within_a_cent Sample.ten_times_two);
    vm_compute; reflexivity.
Defined.

(* ================================================================== *)
(** ** More about the engine as a whole *)
(* ================================================================== *)

Module EngineStock.

Lemma requested_nonneg (items : list Product.t) :
  quantities_nonneg items = true -> 0 <= requested items.
Proof.
  unfold quantities_nonneg, requested.
  induction items as [|x items IH]; cbn; [lia|]. intros H.
  apply andb_true_iff in H as [Hx H]. apply Z.leb_le in Hx.
  specialize (IH H). lia.
Qed.

Lemma held_nonneg (w : Tasks.worker) : worker_ok w = true -> 0 <= held w.
Proof.
  destruct w; cbn; intros H; try lia; try (apply requested_nonneg, H).
  apply andb_true_iff in H as [_ H]. apply requested_nonneg, H.
Qed.

Lemma in_flight_nonneg (ws : list Tasks.worker) :
  forallb worker_ok ws = true -> 0 <= in_flight ws.
Proof.
  unfold in_flight. induction ws as [|w ws IH]; cbn; [lia|]. intros H.
  apply andb_true_iff in H as [Hw H].
  pose proof (held_nonneg w Hw). specialize (IH H). lia.
Qed.

Lemma in_flight_app (a b : list Tasks.worker) :
  in_flight (a ++ b) = in_flight a + in_flight b.
Proof.
  unfold in_flight. induction a as [|w a IH]; cbn; [reflexivity|].
  rewrite IH. lia.
Qed.

Lemma known_ids (ps ps' : list Product.t) (utp : list Product.t) :
  map Product.id ps = map Product.id ps' ->
  forallb (fun u => existsb (Tasks.has_id u) ps) utp
  = forallb (fun u => existsb (Tasks.has_id u) ps') utp.
Proof.
  intros H. induction utp as [|u utp IH]; cbn; [reflexivity|].
  rewrite IH, (TasksFacts.existsb_has_id_ids u ps ps' H). reflexivity.
Qed.

Lemma holds_known_ids (ps ps' : list Product.t) (w : Tasks.worker) :
  map Product.id ps = map Product.id ps' ->
  holds_known ps w = holds_known ps' w.
Proof. intros H. destruct w; cbn; auto using known_ids. Qed.

Lemma ids_update_one (f : Product.t -> bool) (delta : Z)
      (ps : list Product.t) :
  map Product.id (fst (update_one f (Tasks.inc_quantity delta) ps))
  = map Product.id ps.
Proof. apply update_one_map. reflexivity. Qed.

(** One store call of a worker: the stock and what the worker holds,
    taken together, do not grow. *)
Lemma step_potential (db : Store) (w : Tasks.worker) :
  worker_ok w = true ->
  holds_known (products db) w = true ->
  total_stock (products (fst (Tasks.step db w))) + held (snd (Tasks.step db w))
  <= total_stock (products db) + held w
  /\ worker_ok (snd (Tasks.step db w)) = true
  /\ holds_known (products (fst (Tasks.step db w))) (snd (Tasks.step db w))
     = true
  /\ map Product.id (products (fst (Tasks.step db w)))
     = map Product.id (products db).
Proof.
  intros Hok Hk.
  destruct w as [oid|oid todo utp|oid item utp|item utp|r];
    cbn [Tasks.step].
  - destruct (find_one _ _) as [o|]; [|cbn; repeat split; lia].
    destruct (negb _); [cbn; repeat split; lia|].
    destruct (OrderHistoryItem.model_validate o) as [o'|msg] eqn:Hv;
      [|cbn; repeat split; lia].
    destruct (TasksFacts.order_validate_valid _ _ Hv) as [-> Hq].
    cbn. rewrite Hq. repeat split; lia.
  - cbn [worker_ok] in Hok. apply andb_true_iff in Hok as [Htodo Hutp].
    cbn [holds_known] in Hk.
    destruct todo as [|item rest].
    + cbn [fst snd products set_order_history held worker_ok holds_known].
      pose proof (requested_nonneg utp Hutp). repeat split; lia.
    + pose proof (StockFacts.total_stock_update_one (Tasks.in_stock_for item)
                    (- Product.quantity item) (products db)) as Ht.
      pose proof (update_one_matched (Tasks.in_stock_for item)
                    (Tasks.inc_quantity (- Product.quantity item))
                    (products db)) as Hm.
      pose proof (ids_update_one (Tasks.in_stock_for item)
                    (- Product.quantity item) (products db)) as Hid.
      destruct (update_one _ _ (products db)) as [ps n] eqn:E.
      cbn [fst snd] in *.
      cbn [quantities_nonneg forallb] in Htodo.
      apply andb_true_iff in Htodo as [Hitem Hrest].
      destruct (existsb (Tasks.in_stock_for item) (products db)) eqn:Hex;
        subst n; cbn [Z.eqb fst snd products set_products held worker_ok
                      holds_known].
      * rewrite StockFacts.requested_app. cbn [requested fold_right].
        repeat split.
        -- lia.
        -- unfold quantities_nonneg in *. rewrite forallb_app, Hutp. cbn.
           rewrite Hitem, Hrest. reflexivity.
        -- rewrite forallb_app. cbn [forallb].
           rewrite (known_ids ps (products db) utp Hid), Hk.
           rewrite (TasksFacts.existsb_has_id_ids item ps (products db) Hid).
           rewrite (StockFacts.in_stock_has_id _ _ Hex). reflexivity.
        -- exact Hid.
      * repeat split; [lia|exact Hutp|exact Hk].
  - cbn [fst snd products set_order_history held worker_ok holds_known] in *.
    repeat split; [lia|exact Hok|exact Hk].
  - cbn [worker_ok holds_known] in Hok, Hk. destruct utp as [|u rest].
    + cbn [fst snd products held worker_ok holds_known requested fold_right].
      repeat split; lia.
    + cbn [forallb] in Hk. apply andb_true_iff in Hk as [Hu Hrest].
      cbn [quantities_nonneg forallb] in Hok.
      apply andb_true_iff in Hok as [_ Hok].
      cbn [fst snd products set_products held worker_ok holds_known requested
           fold_right].
      rewrite StockFacts.total_stock_update_one, Hu.
      fold (requested rest). repeat split.
      * lia.
      * exact Hok.
      * rewrite (known_ids _ (products db) rest (ids_update_one _ _ _)).
        exact Hrest.
      * apply ids_update_one.
  - cbn. repeat split; lia.
Qed.

Lemma forallb_pointwise {A : Type} (f g : A -> bool) (l : list A) :
  (forall x, f x = g x) -> forallb f l = forallb g l.
Proof.
  intros H. induction l as [|x l IH]; cbn; [reflexivity|].
  rewrite H, IH. reflexivity.
Qed.

Lemma step_worker_potential (ws : list Tasks.worker) :
  forall (i : nat) (db : Store),
    forallb worker_ok ws = true ->
    forallb (holds_known (products db)) ws = true ->
    total_stock (products (fst (Engine.step_worker db ws i)))
    + in_flight (snd (Engine.step_worker db ws i))
    <= total_stock (products db) + in_flight ws
    /\ forallb worker_ok (snd (Engine.step_worker db ws i)) = true
    /\ forallb (holds_known (products (fst (Engine.step_worker db ws i))))
               (snd (Engine.step_worker db ws i)) = true
    /\ map Product.id (products (fst (Engine.step_worker db ws i)))
       = map Product.id (products db).
Proof.
  induction ws as [|w ws IH]; intros i db Hok Hk.
  - destruct i; cbn; repeat split; lia.
  - cbn [forallb] in Hok, Hk.
    apply andb_true_iff in Hok as [Hw Hws].
    apply andb_true_iff in Hk as [Kw Kws].
    destruct i as [|i]; cbn [Engine.step_worker].
    + destruct (step_potential db w Hw Kw) as (H1 & H2 & H3 & H4).
      destruct (Tasks.step db w) as [db1 w1]. cbn [fst snd] in *.
      cbn [in_flight fold_right forallb]. fold (in_flight ws).
      rewrite H2, H3, Hws. cbn [andb]. repeat split; [lia| |exact H4].
      rewrite <- Kws. apply forallb_pointwise. intros x.
      apply holds_known_ids, H4.
    + destruct (IH i db Hws Kws) as (H1 & H2 & H3 & H4).
      destruct (Engine.step_worker db ws i) as [db1 ws1]. cbn [fst snd] in *.
      cbn [in_flight fold_right forallb]. fold (in_flight ws) (in_flight ws1).
      rewrite Hw, H2, H3. rewrite (holds_known_ids _ _ w H4), Kw.
      cbn [andb]. repeat split; [lia|exact H4].
Qed.

Section Step.
Variable settings : Orders.Settings.
Variable render_svg : string -> string.
Variable secret : string.
Variable mac : string -> VietQRWebhookPayload.t -> string.

Let step := Engine.step settings render_svg secret mac.

Lemma engine_step_potential (s : Engine.t) (e : Engine.event) :
  forallb worker_ok (Engine.workers s) = true ->
  forallb (holds_known (products (Engine.store s))) (Engine.workers s) = true ->
  total_stock (products (Engine.store (step s e)))
  + in_flight (Engine.workers (step s e))
  <= total_stock (products (Engine.store s)) + in_flight (Engine.workers s)
  /\ forallb worker_ok (Engine.workers (step s e)) = true
  /\ forallb (holds_known (products (Engine.store (step s e))))
             (Engine.workers (step s e)) = true.
Proof.
  intros Hok Hk. destruct (is_worker_step e) eqn:He.
  - destruct e; try discriminate. cbn.
    destruct (step_worker_potential (Engine.workers s) i (Engine.store s)
                Hok Hk) as (H1 & H2 & H3 & _).
    destruct (Engine.step_worker _ _ _) as [db ws]. cbn in *. auto.
  - destruct (EngineFacts.step_products settings render_svg secret mac s e He)
      as [[Hp Hw]|[oid [Hw Hp]]]; fold step in Hp, Hw; rewrite Hp, Hw.
    + repeat split; [lia|exact Hok|exact Hk].
    + rewrite in_flight_app, !forallb_app, Hok, Hk. cbn. repeat split; lia.
Qed.

Lemma states_potential (es : list Engine.event) :
  forall (s : Engine.t) (bound : Z),
    forallb worker_ok (Engine.workers s) = true ->
    forallb (holds_known (products (Engine.store s))) (Engine.workers s)
    = true ->
    total_stock (products (Engine.store s)) + in_flight (Engine.workers s)
    <= bound ->
    Forall
      (fun s' =>
         0 <= in_flight (Engine.workers s')
         /\ total_stock (products (Engine.store s'))
            + in_flight (Engine.workers s') <= bound)
      (Engine.states settings render_svg secret mac s es).
Proof.
  induction es as [|e es IH]; intros s bound Hok Hk Hb; cbn [Engine.states].
  - constructor; [|constructor]. split; [apply in_flight_nonneg, Hok|exact Hb].
  - constructor; [split; [apply in_flight_nonneg, Hok|exact Hb]|].
    destruct (engine_step_potential s e Hok Hk) as (H1 & H2 & H3).
    apply IH; [exact H2|exact H3|]. unfold step in H1. lia.
Qed.
End Step.

End EngineStock.

(** X20. No interleaving creates stock.  Along every sequence of cart
    operations, checkouts, payment notifications, deliveries and
    worker steps, the stock of the whole catalog together with the
    pieces the workers in flight hold in [updates_to_perform] never
    exceeds what it was at the start, and what the workers hold is
    never negative; so from a state with no worker in flight the
    total stock never rises above its first value, whatever is
    delivered however often. *)
Theorem stock_is_never_created
        (settings : Orders.Settings) (render_svg : string -> string)
        (secret : string) (mac : string -> VietQRWebhookPayload.t -> string)
        (s : Engine.t) (es : list Engine.event) :
  forallb worker_ok (Engine.workers s) = true ->
  forallb (holds_known (products (Engine.store s))) (Engine.workers s) = true ->
  Forall
    (fun s' =>
       0 <= in_flight (Engine.workers s')
       /\ total_stock (products (Engine.store s'))
          + in_flight (Engine.workers s')
          <= total_stock (products (Engine.store s))
             + in_flight (Engine.workers s)
       /\ (Engine.workers s = [] ->
           total_stock (products (Engine.store s'))
           <= total_stock (products (Engine.store s))))
    (Engine.states settings render_svg secret mac s es).
Proof.
  intros Hok Hk.
  pose proof (EngineStock.states_potential settings render_svg secret mac es s
                (total_stock (products (Engine.store s))
                 + in_flight (Engine.workers s)) Hok Hk (Z.le_refl _)) as H.
  eapply Forall_impl; [|exact H]. cbv beta. intros s' [H1 H2].
  repeat split; [exact H1|exact H2|]. intros Hw. rewrite Hw in H2.
  cbn in H2. lia.
Qed.

Lemma stock_is_never_created_witness :
  Forall
    (fun s' =>
       0 <= in_flight (Engine.workers s')
       /\ total_stock (products (Engine.store s'))
          + in_flight (Engine.workers s')
          <= total_stock (products (Engine.store Sample.last_pieces))
             + in_flight (Engine.workers Sample.last_pieces)
       /\ (Engine.workers Sample.last_pieces = [] ->
           total_stock (products (Engine.store s'))
           <= total_stock (products (Engine.store Sample.last_pieces))))
    (Engine.states Sample.settings (fun data => data) "secret" Sample.mac
                   Sample.last_pieces Sample.double_delivery).
Proof.
  apply (stock_is_never_created
           Sample.settings (fun data => data) "secret" Sample.mac
           Sample.last_pieces Sample.double_delivery); reflexivity.
Defined.

Module EngineCarts.

(** A well-formed cart request keeps every cart document in shape. *)
Lemma cart_operation_carts_ok (db : Store) (user : TokenData.t)
      (request : CartOpRequest.t) :
  carts_ok (carts db) = true ->
  CartOpRequest.well_formed request ->
  carts_ok (carts (fst (Cart.cart_operation db user request))) = true.
Proof.
  intros Hok [Hact Hq]. unfold Cart.cart_operation.
  destruct (find_one _ (products db)) as [product|]; [|exact Hok].
  rewrite CartFacts.lines_of_find.
  destruct (_ && _); [exact Hok|].
  destruct (negb _ && _ && _) eqn:Hc2; [exact Hok|].
  destruct (Cart.execute _ _ _ _ _) as [cs|] eqn:He; [|exact Hok].
  assert (Hcs : carts_ok cs = true).
  { apply (CartFacts.execute_carts_ok (carts db) cs (TokenData.identity user)
             request product Hok Hq); [|exact He].
    intros Hrem item Hitem. rewrite Hitem, Hrem in Hc2.
    cbn in Hc2. apply Z.ltb_ge in Hc2. exact Hc2. }
  destruct (find_one _ cs); exact Hcs.
Qed.

Lemma checkout_carts (settings : Orders.Settings)
      (render_svg : string -> string)
      (post : Orders.HttpPost -> Orders.ProviderOutcome)
      (db : Store) (user : TokenData.t) (p : CheckoutPayload.t)
      (oid : string) (now : Z) :
  carts (fst (Orders.initiate_checkout_and_generate_qr
                settings render_svg post db user p oid now))
  = carts db.
Proof.
  destruct (CheckoutEffects.checkout_store settings render_svg post db user
              p oid now) as [->|[-> _]]; reflexivity.
Qed.

Lemma handle_carts (secret : string)
      (mac : string -> VietQRWebhookPayload.t -> string)
      (db : Store) (queue : list string) (payload : VietQRWebhookPayload.t) :
  carts (fst (fst (PaymentConfirmation.handle secret mac db queue payload)))
  = carts db.
Proof.
  unfold PaymentConfirmation.handle.
  destruct (negb _); [reflexivity|].
  destruct (find_one _ _); [|reflexivity].
  destruct (negb _); [reflexivity|].
  destruct (negb _); [reflexivity|].
  destruct (VietQRWebhookPayload.state payload); reflexivity.
Qed.

Lemma step_worker_carts (ws : list Tasks.worker) :
  forall (i : nat) (db : Store),
    carts (fst (Engine.step_worker db ws i)) = carts db.
Proof.
  induction ws as [|w ws IH]; intros i db; [destruct i; reflexivity|].
  destruct i as [|i]; cbn [Engine.step_worker].
  - pose proof (WorkerWrites.step_confined db w) as [H _].
    destruct (Tasks.step db w). exact H.
  - specialize (IH i db). destruct (Engine.step_worker db ws i). exact IH.
Qed.

Section Step.
Variable settings : Orders.Settings.
Variable render_svg : string -> string.
Variable secret : string.
Variable mac : string -> VietQRWebhookPayload.t -> string.

Let step := Engine.step settings render_svg secret mac.

(** Nothing but a cart operation writes to the carts. *)
Lemma step_carts (s : Engine.t) (e : Engine.event) :
  match e with Engine.CartOp _ _ => False | _ => True end ->
  carts (Engine.store (step s e)) = carts (Engine.store s).
Proof.
  destruct e; intros He; [contradiction| | | |]; cbn.
  - apply checkout_carts.
  - pose proof (handle_carts secret mac (Engine.store s) (Engine.queue s)
                  payload) as H.
    destruct (PaymentConfirmation.handle _ _ _ _ _) as [[db q] v]. exact H.
  - destruct (nth_error _ _); reflexivity.
  - pose proof (step_worker_carts (Engine.workers s) i (Engine.store s)) as H.
    destruct (Engine.step_worker _ _ _). exact H.
Qed.

Lemma step_carts_ok (s : Engine.t) (e : Engine.event) :
  carts_ok (carts (Engine.store s)) = true ->
  cart_event_well_formed e ->
  carts_ok (carts (Engine.store (step s e))) = true.
Proof.
  intros Hok He.
  destruct e as [user request| | | |];
    [apply cart_operation_carts_ok; assumption| | | |];
    (rewrite step_carts; [exact Hok|exact I]).
Qed.

Lemma states_carts_ok (es : list Engine.event) :
  forall s : Engine.t,
    carts_ok (carts (Engine.store s)) = true ->
    Forall cart_event_well_formed es ->
    Forall (fun s' => carts_ok (carts (Engine.store s')) = true)
           (Engine.states settings render_svg secret mac s es).
Proof.
  induction es as [|e es IH]; intros s Hok Hes; cbn [Engine.states].
  - constructor; [exact Hok|constructor].
  - inversion Hes as [|? ? He Hes']; subst. constructor; [exact Hok|].
    apply IH; [|exact Hes']. apply step_carts_ok; assumption.
Qed.
End Step.

End EngineCarts.

(** X21. Along every sequence of events whose cart requests are
    well-formed, every cart document keeps at most one line per
    barcode and only lines of positive quantity, whatever checkouts,
    payment notifications, deliveries and worker steps come in
    between; and at each point an event that is not a cart operation
    leaves the carts as they are: neither the checkout nor the
    completion of the order empties the cart it was made from. *)
Theorem carts_stay_well_formed
        (settings : Orders.Settings) (render_svg : string -> string)
        (secret : string) (mac : string -> VietQRWebhookPayload.t -> string)
        (s : Engine.t) (es : list Engine.event) :
  carts_ok (carts (Engine.store s)) = true ->
  Forall cart_event_well_formed es ->
  Forall
    (fun s' =>
       carts_ok (carts (Engine.store s')) = true
       /\ forall e,
            match e with Engine.CartOp _ _ => False | _ => True end ->
            carts (Engine.store
                     (Engine.step settings render_svg secret mac s' e))
            = carts (Engine.store s'))
    (Engine.states settings render_svg secret mac s es).
Proof.
  intros Hok Hes.
  pose proof (EngineCarts.states_carts_ok settings render_svg secret mac es s
                Hok Hes) as H.
  eapply Forall_impl; [|exact H]. cbv beta. intros s' Hs'.
  split; [exact Hs'|]. intros e He. apply EngineCarts.step_carts, He.
Qed.

Lemma carts_stay_well_formed_witness :
  Forall
    (fun s' =>
       carts_ok (carts (Engine.store s')) = true
       /\ forall e,
            match e with Engine.CartOp _ _ => False | _ => True end ->
            carts (Engine.store
                     (Engine.step Sample.settings (fun data => data) "secret"
                                  Sample.mac s' e))
            = carts (Engine.store s'))
    (Engine.states Sample.settings (fun data => data) "secret" Sample.mac
                   (Engine.mk Sample.one_line_cart [] [])
                   [Engine.CartOp Sample.shopper Sample.remove_two_chips;
                    Engine.Deliver 0]).
Proof.
  apply (carts_stay_well_formed
           Sample.settings (fun data => data) "secret" Sample.mac
           (Engine.mk Sample.one_line_cart [] [])
           [Engine.CartOp Sample.shopper Sample.remove_two_chips;
            Engine.Deliver 0]).
  - reflexivity.
  - constructor; [split; [right; reflexivity|reflexivity]|].
    constructor; [exact I|constructor].
Defined.

(* ================================================================== *)
(** ** The generated catalog *)
(* ================================================================== *)

Module DatabaseFacts.

Lemma unique_ids_app (a b : list Product.t) :
  unique_ids a = true -> unique_ids b = true ->
  (forall x y, In x a -> In y b -> Product.id x <> Product.id y) ->
  unique_ids (a ++ b) = true.
Proof.
  induction a as [|x a IH]; intros Ha Hb Hab; [exact Hb|].
  cbn [app unique_ids] in *. apply andb_true_iff in Ha as [Hx Ha].
  apply andb_true_iff. split.
  - apply negb_true_iff. apply negb_true_iff in Hx.
    rewrite existsb_app, Hx. cbn [orb].
    destruct (existsb (Tasks.has_id x) b) eqn:E; [|reflexivity].
    apply existsb_exists in E as (y & Hy & Hid).
    unfold Tasks.has_id in Hid. apply Z.eqb_eq in Hid.
    exfalso. apply (Hab x y); [left; reflexivity|exact Hy|congruence].
  - apply IH; [exact Ha|exact Hb|].
    intros x' y Hx' Hy. apply Hab; [right; exact Hx'|exact Hy].
Qed.

Section Draws.
Variable choice_subtitle : nat -> string.
Variable uniform_price : nat -> PyDecimal.t.
Variable randint_quantity : nat -> Z.
Variable choice_unit : nat -> string.

Let mock_product :=
  Database.mock_product choice_subtitle uniform_price randint_quantity
                        choice_unit.

Lemma mock_ids (n : nat) :
  forall (k : nat) (y : Product.t),
    In y (map mock_product (seq k n)) ->
    Z.of_nat k + 100 <= Product.id y.
Proof.
  induction n as [|n IH]; intros k y H; [contradiction|].
  cbn [seq map In] in H. destruct H as [<-|H].
  - cbn. lia.
  - specialize (IH (S k) y H). lia.
Qed.

Lemma mock_unique (n : nat) :
  forall k : nat, unique_ids (map mock_product (seq k n)) = true.
Proof.
  induction n as [|n IH]; intros k; [reflexivity|].
  cbn [seq map unique_ids]. rewrite IH, andb_true_r.
  apply negb_true_iff.
  destruct (existsb _ _) eqn:E; [|reflexivity].
  apply existsb_exists in E as (y & Hy & Hid).
  apply mock_ids in Hy. unfold Tasks.has_id in Hid. apply Z.eqb_eq in Hid.
  cbn in Hid. lia.
Qed.

Lemma mock_no_barcode (b : string) (n : nat) :
  forall k : nat, find (Cart.has_barcode b) (map mock_product (seq k n)) = None.
Proof.
  induction n as [|n IH]; intros k; [reflexivity|].
  cbn [seq map find]. unfold Cart.has_barcode at 1. cbn. apply IH.
Qed.

Lemma mock_fields_ok (n m : nat) :
  (forall i, (i < n)%nat ->
             PyDecimal.leb PyDecimal.zero (uniform_price i) = true
             /\ 1 <= randint_quantity i) ->
  forall k : nat,
    (k + m <= n)%nat ->
    forallb Product.fields_ok (map mock_product (seq k m)) = true.
Proof.
  intros Hd. induction m as [|m IH]; intros k Hk; [reflexivity|].
  cbn [seq map forallb].
  rewrite (IH (S k)) by lia. rewrite andb_true_r.
  destruct (Hd k) as [Hp Hq]; [lia|].
  unfold Product.fields_ok. cbn. rewrite Hp. cbn. apply Z.leb_le. lia.
Qed.
End Draws.

End DatabaseFacts.

(** X22. The catalog [generate_products] builds, for every number of
    mock products and whatever the random draws: it has the eight demo
    products and [n] mock products, no two documents share an [id]
    (the unique index of [ensure_indexes] accepts it), and no mock
    product can be found by barcode, so that a cart request only ever
    resolves to a demo product.  When the draws are in the ranges that
    [random.uniform(1, 100)] and [random.randint(1, 50)] draw from,
    every document validates as a [Product] and nothing is out of
    stock. *)
Theorem generated_catalog_is_well_formed
        (random_barcode : nat -> string) (choice_subtitle : nat -> string)
        (uniform_price : nat -> PyDecimal.t) (randint_quantity : nat -> Z)
        (choice_unit : nat -> string) (n : nat) :
  let catalog :=
    Database.generate_products random_barcode choice_subtitle uniform_price
                               randint_quantity choice_unit n in
  List.length catalog = (8 + n)%nat
  /\ unique_ids catalog = true
  /\ (forall b,
        find_one (Cart.has_barcode b) catalog
        = find_one (Cart.has_barcode b) (Database.demo_products random_barcode))
  /\ ((forall i, (i < n)%nat ->
                 PyDecimal.leb PyDecimal.zero (uniform_price i) = true
                 /\ 1 <= randint_quantity i) ->
      forallb Product.fields_ok catalog = true
      /\ forallb (fun p => 1 <=? Product.quantity p) catalog = true).
Proof.
  cbv zeta. unfold Database.generate_products. repeat split.
  - rewrite length_app, length_map, length_seq. reflexivity.
  - apply DatabaseFacts.unique_ids_app;
      [reflexivity|apply DatabaseFacts.mock_unique|].
    intros x y Hx Hy. apply DatabaseFacts.mock_ids in Hy.
    cbn in Hx. cbn in Hy.
    repeat (destruct Hx as [<-|Hx]; [cbn; lia|]). contradiction.
  - intros b. unfold find_one.
    set (demo := Database.demo_products random_barcode).
    generalize (DatabaseFacts.mock_no_barcode choice_subtitle uniform_price
                  randint_quantity choice_unit b n 0).
    generalize (map (Database.mock_product choice_subtitle uniform_price
                       randint_quantity choice_unit) (seq 0 n)).
    intros l Hl. induction demo as [|d demo IH]; cbn; [exact Hl|].
    destruct (Cart.has_barcode b d); [reflexivity|exact IH].
  - rewrite forallb_app.
    rewrite (DatabaseFacts.mock_fields_ok choice_subtitle uniform_price
               randint_quantity choice_unit n n H 0 (Nat.le_refl _)).
    reflexivity.
  - rewrite forallb_app. apply andb_true_iff. split; [reflexivity|].
    apply forallb_forall. intros p Hp.
    apply in_map_iff in Hp as (i & <- & Hi). apply in_seq in Hi.
    cbn. apply Z.leb_le. apply H. lia.
Qed.

Lemma generated_catalog_is_well_formed_witness :
  forallb Product.fields_ok
          (Database.generate_products
             (fun _ => "4006381333931") (fun _ => "Fresh")
             (fun _ => PyDecimal.mk 4267 (-2)) (fun _ => 17)
             (fun _ => "kg") 20) = true
  /\ forallb (fun p => 1 <=? Product.quantity p)
             (Database.generate_products
                (fun _ => "4006381333931") (fun _ => "Fresh")
                (fun _ => PyDecimal.mk 4267 (-2)) (fun _ => 17)
                (fun _ => "kg") 20) = true.
Proof.
  apply (proj2 (proj2 (proj2 (generated_catalog_is_well_formed
                                (fun _ => "4006381333931") (fun _ => "Fresh")
                                (fun _ => PyDecimal.mk 4267 (-2)) (fun _ => 17)
                                (fun _ => "kg") 20)))).
  intros i _. split; [reflexivity|lia].
Defined.

(* ================================================================== *)
(** ** Checkout, catalog and worker *)
(* ================================================================== *)

(** X23. A checkout reserves nothing.  Whatever the checkout answers,
    as long as its fresh order id was not in use, the worker run on
    that id right afterwards finds no [paid] order: it leaves the
    store, and so the stock, as the checkout left it and reports "not
    found or not paid". *)
Theorem unpaid_checkout_reserves_nothing
        (settings : Orders.Settings) (render_svg : string -> string)
        (post : Orders.HttpPost -> Orders.ProviderOutcome)
        (db : Store) (user : TokenData.t) (p : CheckoutPayload.t)
        (oid : string) (now : Z) :
  find_one (Orders.order_is oid) (order_history db) = None ->
  let db' := fst (Orders.initiate_checkout_and_generate_qr
                    settings render_svg post db user p oid now) in
  Tasks.process_order db' oid = (db', Tasks.not_paid)
  /\ products db' = products db.
Proof.
  intros Hfresh db'. subst db'.
  split; [|apply EngineFacts.checkout_products].
  apply WorkerWrites.process_order_not_paid. unfold status_of.
  destruct (CheckoutEffects.checkout_store settings render_svg post db user
              p oid now) as [->|[-> _]].
  - rewrite Hfresh. discriminate.
  - cbn [order_history set_order_history].
    rewrite CheckoutEffects.find_order_snoc, Hfresh.
    unfold Orders.order_is. cbn. rewrite String.eqb_refl. discriminate.
Qed.

Lemma unpaid_checkout_reserves_nothing_witness :
  Tasks.process_order
    (fst (Orders.initiate_checkout_and_generate_qr
            Sample.settings (fun data => data) (fun _ => Orders.RequestError)
            Sample.empty_store Sample.shopper Sample.ten_times_two "order-1"
            1700000000)) "order-1"
  = (fst (Orders.initiate_checkout_and_generate_qr
            Sample.settings (fun data => data) (fun _ => Orders.RequestError)
            Sample.empty_store Sample.shopper Sample.ten_times_two "order-1"
            1700000000),
     Tasks.not_paid).
Proof.
  apply (unpaid_checkout_reserves_nothing
           Sample.settings (fun data => data) (fun _ => Orders.RequestError)
           Sample.empty_store Sample.shopper Sample.ten_times_two "order-1"
           1700000000).
  reflexivity.
Defined.

(** X24. The checkout never reads the catalog or the carts.  Its
    answer, the order it stores and the amount it asks the provider
    for are the same over any two stores: the prices and quantities
    the totals are recomputed from are those of the payload, and
    neither the existence of the products, their catalog price, their
    stock nor the caller's cart enters. *)
Theorem checkout_reads_no_catalog
        (settings : Orders.Settings) (render_svg : string -> string)
        (post : Orders.HttpPost -> Orders.ProviderOutcome)
        (db db0 : Store) (user : TokenData.t) (p : CheckoutPayload.t)
        (oid : string) (now : Z) :
  snd (Orders.initiate_checkout_and_generate_qr
         settings render_svg post db user p oid now)
  = snd (Orders.initiate_checkout_and_generate_qr
           settings render_svg post db0 user p oid now)
  /\ snd (Orders.checkout_begin settings db user p oid now)
     = snd (Orders.checkout_begin settings db0 user p oid now)
  /\ exists added,
       order_history (fst (Orders.initiate_checkout_and_generate_qr
                             settings render_svg post db user p oid now))
       = order_history db ++ added
       /\ order_history (fst (Orders.initiate_checkout_and_generate_qr
                                settings render_svg post db0 user p oid now))
          = order_history db0 ++ added.
Proof.
  unfold Orders.initiate_checkout_and_generate_qr, Orders.checkout_begin.
  destruct (role_required Orders.allowed_roles user);
    [cbn; repeat split; exists []; rewrite !app_nil_r; auto|].
  destruct (CheckoutPayload.model_validate p) as [p'|msg];
    [|cbn; repeat split; exists []; rewrite !app_nil_r; auto].
  destruct (CheckoutPayload.items p');
    [cbn; repeat split; exists []; rewrite !app_nil_r; auto|].
  destruct (OrderHistoryItem.model_validate _) as [o|msg];
    [|cbn; repeat split; exists []; rewrite !app_nil_r; auto].
  destruct (bson_encodable o); cbn [negb];
    [|cbn; repeat split; exists []; rewrite !app_nil_r; auto].
  cbn. repeat split. exists [o]. auto.
Qed.
